(** * toeic-recommender: the scoring core, embedded and verified

    A shallow embedding of the recommendation logic of
    [app/logic/similarity.py], [app/logic/core_recommend.py] and
    [app/logic/cold_start.py], of the response handling of
    [app/logic/data_fetcher.py] and of the endpoint of [app/main.py].

    The Python code is dynamically typed and receives decoded JSON, so the
    embedding works over a type [pyval] of JSON values.  Numbers (Python
    [int] and [float]) are exact rationals [Q]; a [bool] counts as the
    integer 0 or 1 in arithmetic and comparison, as in Python.  A raised
    exception is a value [Raise e] of the result type [res]; a function
    whose body sits in [try ... except Exception] is total.  Equality of
    numeric results is [Qeq] ([==]), the equality of the rationals.

    The functions that await the backend take what was fetched as
    arguments; the fetcher and the endpoint run against a backend given
    as a function from method and URL to the outcome of the exchange.
    The texts of labels and explanations are kept as the values they are
    formatted from. *)

From Stdlib Require Import QArith Qabs Qminmax Qround Lqa.
From stdpp Require Import gmap strings list fin_maps sorting.

#[local] Set Warnings "-register-all".
#[local] Open Scope Q_scope.

(** ** Python values *)

Inductive pyval : Type :=
| VNone
| VBool (b : bool)
| VNum (q : Q)
| VStr (s : string)
| VList (l : list pyval)
| VDict (d : gmap string pyval).

(** The exceptions the modelled code can raise. *)
Inductive exn : Type :=
| TypeError
| KeyError
| AttributeError
| ZeroDivisionError
| ValueError.

Inductive res (A : Type) : Type :=
| Ret (a : A)
| Raise (e : exn).
Arguments Ret {A} a.
Arguments Raise {A} e.

Definition bind {A B : Type} (m : res A) (f : A → res B) : res B :=
  match m with
  | Ret a => f a
  | Raise e => Raise e
  end.

Notation "'let*' x ':=' m 'in' k" := (bind m (fun x => k))
  (at level 10, x name, m at level 100, k at level 200).

(** [try: body; except Exception: return d] *)
Definition try_except {A : Type} (body : res A) (d : A) : A :=
  match body with
  | Ret a => a
  | Raise _ => d
  end.

Module Py.

(** A number, or a bool read as a number. *)
Definition num_of (v : pyval) : option Q :=
  match v with
  | VNum q => Some q
  | VBool b => Some (if b then 1 else 0)
  | _ => None
  end.

Definition as_num (v : pyval) : res Q :=
  match num_of v with
  | Some q => Ret q
  | None => Raise TypeError
  end.

Definition Qltb (x y : Q) : bool := negb (Qle_bool y x).

(** [a == b] on JSON values: numbers by value ([True == 1 == 1.0]),
    lists pointwise, dicts as maps. *)
Fixpoint eq (a b : pyval) {struct a} : bool :=
  match a, b with
  | VNone, VNone => true
  | VStr s, VStr t => bool_decide (s = t)
  | VList l, VList m =>
      (fix go (l m : list pyval) : bool :=
         match l, m with
         | [], [] => true
         | x :: l', y :: m' => eq x y && go l' m'
         | _, _ => false
         end) l m
  | VDict d, VDict e =>
      bool_decide (size d = size e) &&
      map_fold (fun k v acc =>
                  acc && match e !! k with
                         | Some w => eq v w
                         | None => false
                         end) true d
  | _, _ =>
      match num_of a, num_of b with
      | Some x, Some y => Qeq_bool x y
      | _, _ => false
      end
  end.

(** [bool(v)] *)
Definition truthy (v : pyval) : bool :=
  match v with
  | VNone => false
  | VBool b => b
  | VNum q => negb (Qeq_bool q 0)
  | VStr s => negb (bool_decide (s = ""%string))
  | VList l => negb (bool_decide (l = []))
  | VDict d => negb (bool_decide (size d = 0%nat))
  end.

(** [hash(v)] succeeds: lists and dicts are unhashable. *)
Definition hashable (v : pyval) : bool :=
  match v with
  | VList _ | VDict _ => false
  | _ => true
  end.

(** [d.get(k, default)] on a dict. *)
Definition dict_get (d : gmap string pyval) (k : string) (default : pyval) : pyval :=
  match d !! k with
  | Some v => v
  | None => default
  end.

(** [k in d] on a dict with a string key. *)
Definition has_key (d : gmap string pyval) (k : string) : bool :=
  bool_decide (is_Some (d !! k)).

(** [v.get(k, default)]: only dicts have [get]. *)
Definition get (v : pyval) (k : string) (default : pyval) : res pyval :=
  match v with
  | VDict d => Ret (dict_get d k default)
  | _ => Raise AttributeError
  end.

(** [x in l] on a list. *)
Definition in_list (x : pyval) (l : list pyval) : bool :=
  existsb (fun e => eq e x) l.

(** [k in v] for a string [k]: key of a dict, element of a list,
    substring of a string; anything else is not a container. *)
Definition contains_str (v : pyval) (k : string) : res bool :=
  match v with
  | VDict d => Ret (has_key d k)
  | VList l => Ret (in_list (VStr k) l)
  | VStr s => Ret (if String.index 0 k s is Some _ then true else false)
  | _ => Raise TypeError
  end.

(** [c in d] on a dict whose keys are strings, for an arbitrary [c]. *)
Definition in_dict (c : pyval) (d : gmap string pyval) : res bool :=
  match c with
  | VStr k => Ret (has_key d k)
  | VList _ | VDict _ => Raise TypeError
  | _ => Ret false
  end.

(** [d[c]] on a dict whose keys are strings. *)
Definition dict_item (d : gmap string pyval) (c : pyval) : res pyval :=
  match c with
  | VStr k => match d !! k with
              | Some v => Ret v
              | None => Raise KeyError
              end
  | VList _ | VDict _ => Raise TypeError
  | _ => Raise KeyError
  end.

(** [v[k]] with a string [k]. *)
Definition item (v : pyval) (k : string) : res pyval :=
  match v with
  | VDict d => match d !! k with
               | Some x => Ret x
               | None => Raise KeyError
               end
  | _ => Raise TypeError
  end.

Fixpoint chars (s : string) : list pyval :=
  match s with
  | EmptyString => []
  | String c s' => VStr (String c EmptyString) :: chars s'
  end.

(** [for x in v]: the elements of a list, the keys of a dict, the
    characters of a string.  A [gmap] does not keep insertion order; no
    modelled function depends on the order of a dict's keys. *)
Definition iter (v : pyval) : res (list pyval) :=
  match v with
  | VList l => Ret l
  | VDict d => Ret (VStr <$> (map_to_list d).*1)
  | VStr s => Ret (chars s)
  | _ => Raise TypeError
  end.

(** Arithmetic on values: defined on numbers only.  (Python also adds
    two strings or two lists; every such sum in the modelled code is
    next compared with a number, which raises [TypeError] as well.) *)
Definition sub (a b : pyval) : res Q :=
  let* x := as_num a in let* y := as_num b in Ret (x - y).

Definition add (a b : pyval) : res Q :=
  let* x := as_num a in let* y := as_num b in Ret (x + y).

(** [min(a, b)] and [max(a, b)] of two numbers: the first argument
    unless the second is strictly smaller (larger). *)
Definition min (a b : Q) : Q := if Qltb b a then b else a.
Definition max (a b : Q) : Q := if Qltb a b then b else a.

(** [x / y] *)
Definition div (x y : Q) : res Q :=
  if Qeq_bool y 0 then Raise ZeroDivisionError else Ret (x / y).

(** [x // y] *)
Definition floordiv (x y : Q) : res Q :=
  if Qeq_bool y 0 then Raise ZeroDivisionError
  else Ret (inject_Z (Qfloor (x / y))).

(** [l[:n]] *)
Definition slice_to {A : Type} (n : Z) (l : list A) : list A :=
  if (0 <=? n)%Z then take (Z.to_nat n) l
  else take (length l - Z.to_nat (- n)) l.

(** [sum(l)] of numbers, from the left, starting at 0. *)
Definition sum (l : list Q) : Q := foldl Qplus 0 l.

(** [l.sort(key=key, reverse=True)] / [sorted(l, key=key, reverse=True)]:
    the stable sort into descending key order.  Elements of equal key
    keep their relative order, which determines the result. *)
Section Sort.
Context {A : Type} (key : A → Q).

Fixpoint insert_desc (x : A) (l : list A) : list A :=
  match l with
  | [] => [x]
  | y :: l' =>
      if Qltb (key x) (key y) then y :: insert_desc x l'
      else x :: y :: l'
  end.

Fixpoint sort_desc (l : list A) : list A :=
  match l with
  | [] => []
  | x :: l' => insert_desc x (sort_desc l')
  end.
End Sort.

(** [a < b] on JSON values: numbers by value, strings and lists
    lexicographically (a list by its first differing element), anything
    else is unorderable. *)
Fixpoint lt (a b : pyval) {struct a} : res bool :=
  match a, b with
  | VStr s, VStr t => Ret (String.ltb s t)
  | VList l, VList m =>
      (fix go (l m : list pyval) : res bool :=
         match l, m with
         | [], [] => Ret false
         | [], _ :: _ => Ret true
         | _ :: _, [] => Ret false
         | x :: l', y :: m' => if eq x y then go l' m' else lt x y
         end) l m
  | _, _ =>
      match num_of a, num_of b with
      | Some x, Some y => Ret (Qltb x y)
      | _, _ => Raise TypeError
      end
  end.

End Py.

(** ** [app/logic/similarity.py] *)

Module Similarity.

Definition required_fields : list string :=
  ["target"; "averageListeningScore"; "averageReadingScore"; "averageTotalScore"]%string.

(** [[field for field in required_fields if field not in user]] *)
Fixpoint missing_fields (fields : list string) (user : pyval) : res (list string) :=
  match fields with
  | [] => Ret []
  | f :: fs =>
      let* b := Py.contains_str user f in
      let* rest := missing_fields fs user in
      Ret (if b then rest else f :: rest)
  end.

Definition max_target_diff : Q := 500.
Definition max_score_diff : Q := 300.

(** [abs(user1.get(f1, 0) - user2.get(f2, 0))] *)
Definition abs_diff (user1 : pyval) (f1 : string) (user2 : pyval) (f2 : string) : res Q :=
  let* a := Py.get user1 f1 (VNum 0) in
  let* b := Py.get user2 f2 (VNum 0) in
  let* d := Py.sub a b in
  Ret (Qabs d).

(** The body of the [try] block of [calculate_user_similarity]. *)
Definition calculate_user_similarity_body (user1 user2 : pyval) : res Q :=
  let* missing_fields_1 := missing_fields required_fields user1 in
  let* missing_fields_2 := missing_fields required_fields user2 in
  if negb (bool_decide (missing_fields_1 = [])) || negb (bool_decide (missing_fields_2 = []))
  then Ret (1 # 10)
  else
    let* target_diff := abs_diff user1 "target" user2 "target" in
    let* listening_diff := abs_diff user1 "averageListeningScore" user2 "averageReadingScore" in
    let* reading_diff := abs_diff user1 "averageReadingScore" user2 "averageListeningScore" in
    let* total_diff := abs_diff user1 "averageTotalScore" user2 "averageTotalScore" in
    let normalized_diffs :=
      [ Py.min 1 (target_diff / max_target_diff);
        Py.min 1 (listening_diff / max_score_diff);
        Py.min 1 (reading_diff / max_score_diff);
        Py.min 1 (total_diff / max_score_diff) ] in
    let avg_normalized_diff :=
      Py.sum normalized_diffs / inject_Z (Z.of_nat (length normalized_diffs)) in
    let similarity := 1 - avg_normalized_diff in
    Ret (Py.max 0 (Py.min 1 similarity)).

Definition calculate_user_similarity (user1 user2 : pyval) : Q :=
  try_except (calculate_user_similarity_body user1 user2) 0.

(** [all(field in profile for field in required_fields)] on a dict. *)
Definition has_all_fields (d : gmap string pyval) : bool :=
  forallb (Py.has_key d) required_fields.

(** The loop of [find_similar_users] over [all_users_data], building
    [similarities] in order. *)
Fixpoint similarities_of (target_user_profile target_user_id : pyval)
    (all_users : list pyval) : list (pyval * Q) :=
  match all_users with
  | [] => []
  | profile :: rest =>
      let tail := similarities_of target_user_profile target_user_id rest in
      match profile with
      | VDict d =>
          let user_id := Py.dict_get d "userId" VNone in
          if negb (Py.truthy user_id) || Py.eq user_id target_user_id then tail
          else if negb (has_all_fields d) then tail
          else (user_id, calculate_user_similarity target_user_profile profile) :: tail
      | _ => tail
      end
  end.

Definition find_similar_users (target_user_profile all_users_data : pyval) (n : Z)
    : list (pyval * Q) :=
  match target_user_profile with
  | VDict t =>
      match all_users_data with
      | VList all_users =>
          let target_user_id := Py.dict_get t "userId" VNone in
          if negb (Py.truthy target_user_id) then []
          else
            let similarities :=
              similarities_of target_user_profile target_user_id all_users in
            Py.slice_to n (Py.sort_desc snd similarities)
      | _ => []
      end
  | _ => []
  end.

End Similarity.

(** ** [app/logic/core_recommend.py] *)

Module CoreRecommend.

(** [is_cold_start_user]: a [testHistory] that is not a list and a
    [learningProgress] that is not a dict are replaced by empty ones. *)
Definition is_cold_start_user (user_profile : pyval) : bool :=
  match user_profile with
  | VDict p =>
      let test_history :=
        match Py.dict_get p "testHistory" (VList []) with
        | VList l => l
        | _ => []
        end in
      let learning_progress :=
        match Py.dict_get p "learningProgress" (VDict ∅) with
        | VDict d => d
        | _ => ∅
        end in
      bool_decide (length test_history < 2)%nat
      && bool_decide (size learning_progress < 3)%nat
  | _ => true
  end.

Definition default_desired_rate : Q := 8 # 10.

(** The [for item in topic_stats] loop of [get_topic_deficiency]; falling
    off the end of the list is the final [return 0.5]. *)
Fixpoint topic_stats_loop (topic : pyval) (items : list pyval) (desired_rate : Q)
    : res Q :=
  match items with
  | [] => Ret (1 # 2)
  | VDict item :: rest =>
      if Py.eq (Py.dict_get item "topicName" (VStr "")) topic then
        let total_correct := Py.dict_get item "totalCorrect" (VNum 0) in
        let total_incorrect := Py.dict_get item "totalIncorrect" (VNum 0) in
        let* total := Py.add total_correct total_incorrect in
        if Py.Qltb 0 total then
          let* correct := Py.as_num total_correct in
          let* correct_rate := Py.div correct total in
          let deficiency := Py.max 0 (desired_rate - correct_rate) in
          Ret deficiency
        else Ret (1 # 2)
      else topic_stats_loop topic rest desired_rate
  | _ :: rest => topic_stats_loop topic rest desired_rate
  end.

Definition get_topic_deficiency (topic topic_stats : pyval) (desired_rate : Q) : res Q :=
  match topic_stats with
  | VList items => topic_stats_loop topic items desired_rate
  | _ => Ret (1 # 2)
  end.

(** The attempt factor of a matching test record, with the mastery
    bonus added (lines 344-353). *)
Definition attempt_factor (normalized_score attempts : Q) : Q :=
  let attempt_factor :=
    if Qle_bool attempts 2 then 1
    else Py.max (4 # 10) (1 - (15 # 100) * (attempts - 2)) in
  if Py.Qltb (85 # 100) normalized_score && Qle_bool 3 attempts then
    let mastery_bonus := Py.min (3 # 10) ((1 # 10) * (attempts - 2)) in
    attempt_factor + mastery_bonus
  else attempt_factor.

(** [effective_score] of a matching test record (lines 341-356). *)
Definition effective_score (avg_score attempts : pyval) : res Q :=
  let* avg := Py.as_num avg_score in
  let normalized_score := avg / 990 in
  let* att := Py.as_num attempts in
  Ret (normalized_score * attempt_factor normalized_score att).

(** The id, the average score and the attempt count of a test record,
    under the field names the code accepts. *)
Definition test_id_of (r : gmap string pyval) : pyval :=
  Py.dict_get r "testId" (Py.dict_get r "test_id" (VStr "")).

Definition avg_score_of (r : gmap string pyval) : pyval :=
  Py.dict_get r "avgScore"
    (Py.dict_get r "averageScore" (Py.dict_get r "avg_score" (VNum 0))).

Definition attempts_of (r : gmap string pyval) : pyval :=
  Py.dict_get r "attempt"
    (Py.dict_get r "attempts" (Py.dict_get r "attemptCount" (VNum 0))).

(** The [for test_record in test_history] loop: the effective score of
    the first record whose id equals the candidate's, if there is one. *)
Fixpoint test_history_loop (candidate_id : pyval) (records : list pyval)
    : res (option Q) :=
  match records with
  | [] => Ret None
  | VDict r :: rest =>
      if Py.eq (test_id_of r) candidate_id then
        let* e := effective_score (avg_score_of r) (attempts_of r) in
        Ret (Some e)
      else test_history_loop candidate_id rest
  | _ :: rest => test_history_loop candidate_id rest
  end.

(** The [for item in learning_progress.get("items", [])] loop. *)
Fixpoint items_loop (candidate_id : pyval) (items : list pyval) : res (option pyval) :=
  match items with
  | [] => Ret None
  | VDict it :: rest =>
      let* found := Py.in_dict candidate_id it in
      if found then
        let* v := Py.dict_item it candidate_id in Ret (Some v)
      else items_loop candidate_id rest
  | _ :: rest => items_loop candidate_id rest
  end.

(** [progress_data] of a neighbour for a lecture ([None] stays [None]). *)
Definition progress_data_of (candidate_id : pyval) (learning_progress : gmap string pyval)
    : res (option pyval) :=
  let* direct := Py.in_dict candidate_id learning_progress in
  if direct then
    let* v := Py.dict_item learning_progress candidate_id in Ret (Some v)
  else
    let* items := Py.iter (Py.dict_get learning_progress "items" (VList [])) in
    items_loop candidate_id items.

(** [completion] of a neighbour's progress entry, when it counts. *)
Definition completion_of (progress_data : option pyval) : res (option Q) :=
  match progress_data with
  | None => Ret None
  | Some pd =>
      if Py.truthy pd then
        match pd with
        | VDict r =>
            let* p := Py.as_num (Py.dict_get r "percent" (VNum 0)) in
            Ret (Some (Py.min p 100 / 100))
        | VNum _ | VBool _ =>
            let* p := Py.as_num pd in
            Ret (Some (Py.min p 100 / 100))
        | _ => Ret None
        end
      else Ret None
  end.

(** What one neighbour's profile contributes for the candidate: the
    value that is weighted by the similarity and counted, or nothing. *)
Definition interaction (candidate_id : pyval) (candidate_type : string)
    (profile : gmap string pyval) : res (option Q) :=
  if bool_decide (candidate_type = "test"%string) then
    match Py.dict_get profile "testHistory" (VList []) with
    | VList test_history => test_history_loop candidate_id test_history
    | _ => Ret None
    end
  else if bool_decide (candidate_type = "lecture"%string) then
    match Py.dict_get profile "learningProgress" (VDict ∅) with
    | VDict learning_progress =>
        let* progress_data := progress_data_of candidate_id learning_progress in
        completion_of progress_data
    | _ => Ret None
    end
  else Ret None.

(** [user_data_map]: a dict keyed by user id.  The newest binding is
    first, so a lookup finds the last profile stored under a key. *)
Fixpoint build_user_data_map (users : list pyval)
    (user_data_map : list (pyval * gmap string pyval))
    : res (list (pyval * gmap string pyval)) :=
  match users with
  | [] => Ret user_data_map
  | VDict user :: rest =>
      match user !! "userId" with
      | Some uid =>
          if Py.hashable uid
          then build_user_data_map rest ((uid, user) :: user_data_map)
          else Raise TypeError
      | None => build_user_data_map rest user_data_map
      end
  | _ :: rest => build_user_data_map rest user_data_map
  end.

Fixpoint lookup_user (user_data_map : list (pyval * gmap string pyval)) (uid : pyval)
    : option (gmap string pyval) :=
  match user_data_map with
  | [] => None
  | (k, profile) :: rest =>
      if Py.eq k uid then Some profile else lookup_user rest uid
  end.

(** [user_data_map.get(uid)] *)
Definition map_get (user_data_map : list (pyval * gmap string pyval)) (uid : pyval)
    : res (option (gmap string pyval)) :=
  if Py.hashable uid then Ret (lookup_user user_data_map uid) else Raise TypeError.

(** The [for uid, similarity in similar_users] loop, threading [score]
    and [count]. *)
Fixpoint neighbours_loop (candidate_id : pyval) (candidate_type : string)
    (user_data_map : list (pyval * gmap string pyval))
    (similar_users : list (pyval * Q)) (score : Q) (count : nat) : res (Q * nat) :=
  match similar_users with
  | [] => Ret (score, count)
  | (uid, similarity) :: rest =>
      let* profile := map_get user_data_map uid in
      match profile with
      | None => neighbours_loop candidate_id candidate_type user_data_map rest score count
      | Some profile =>
          if negb (Py.truthy (VDict profile)) then
            neighbours_loop candidate_id candidate_type user_data_map rest score count
          else
            let* i := interaction candidate_id candidate_type profile in
            match i with
            | Some value =>
                neighbours_loop candidate_id candidate_type user_data_map rest
                  (score + similarity * value) (S count)
            | None =>
                neighbours_loop candidate_id candidate_type user_data_map rest score count
            end
      end
  end.

Definition get_collaborative_score (candidate_id : pyval) (similar_users : list (pyval * Q))
    (all_users_data : pyval) (candidate_type : string) : res Q :=
  if negb (bool_decide (similar_users ≠ [])) || negb (Py.truthy candidate_id) then Ret 0
  else
    match all_users_data with
    | VList users =>
        let* user_data_map := build_user_data_map users [] in
        let* sc := neighbours_loop candidate_id candidate_type user_data_map
                     similar_users 0 0 in
        Ret (fst sc / Py.max 1 (inject_Z (Z.of_nat (snd sc))))
    | _ => Ret 0
    end.

End CoreRecommend.

(** ** [app/logic/cold_start.py] *)

Module ColdStart.

(** A list comprehension whose element expression can raise. *)
Fixpoint map_res {A B : Type} (f : A → res B) (l : list A) : res (list B) :=
  match l with
  | [] => Ret []
  | x :: l' =>
      let* y := f x in
      let* ys := map_res f l' in
      Ret (y :: ys)
  end.

(** A list comprehension with a condition that can raise. *)
Fixpoint filter_res {A : Type} (f : A → res bool) (l : list A) : res (list A) :=
  match l with
  | [] => Ret []
  | x :: l' =>
      let* b := f x in
      let* ys := filter_res f l' in
      Ret (if b then x :: ys else ys)
  end.

(** An entry of [scored_tests]. *)
Record scored_test : Type := {
  st_id : pyval;
  st_name : pyval;
  st_score : Q;
  st_already_taken : bool;
  st_attempts : Z;
  st_avg_score : Z;
  st_difficulty : pyval;
  st_topics : pyval;
  st_testId : pyval
}.

(** An entry of [scored_lectures]. *)
Record scored_lecture : Type := {
  sl_id : pyval;
  sl_name : pyval;
  sl_score : Q;
  sl_already_learned : bool;
  sl_completion : Z;
  sl_topics : pyval;
  sl_lectureId : pyval
}.

(** [max([t["totalUserAttempt"] for t in test_candidates]) if
    test_candidates else 1], as it is used: the next line compares it
    with 0, so every entry has to be a number. *)
Definition max_attempts_of (test_candidates : list pyval) : res Q :=
  match test_candidates with
  | [] => Ret 1
  | _ =>
      let* attempts := map_res (fun t => Py.item t "totalUserAttempt") test_candidates in
      let* nums := map_res Py.as_num attempts in
      match nums with
      | [] => Raise ValueError
      | x :: xs => Ret (foldl Py.max x xs)
      end
  end.

(** The body of the [for test in available_tests] loop. *)
Definition score_test (test_candidates : list pyval) (target_difficulty : Q)
    (test : pyval) : res scored_test :=
  let* max_attempts := max_attempts_of test_candidates in
  let* popularity_score :=
    if Py.Qltb 0 max_attempts then
      let* a := Py.item test "totalUserAttempt" in
      let* a := Py.as_num a in
      Py.div a max_attempts
    else Ret 0 in
  let* difficulty := Py.item test "difficulty" in
  let* d := Py.sub difficulty (VNum target_difficulty) in
  let difficulty_diff := Qabs d / 10 in
  let difficulty_score := 1 - Py.min 1 difficulty_diff in
  let combined_score := (7 # 10) * popularity_score + (3 # 10) * difficulty_score in
  let* id := Py.item test "testId" in
  let* name := Py.item test "name" in
  let* topics := Py.item test "topics" in
  Ret {| st_id := id; st_name := name; st_score := combined_score;
         st_already_taken := false; st_attempts := 0; st_avg_score := 0;
         st_difficulty := difficulty; st_topics := topics; st_testId := id |}.

(** [completed_test_ids] *)
Definition completed_test_ids_of (user_profile : pyval) : res (list pyval) :=
  let* test_history := Py.get user_profile "testHistory" (VList []) in
  let* items := Py.iter test_history in
  map_res (fun item => Py.item item "testId") items.

Definition recommend_cold_start_tests (user_profile : pyval)
    (test_candidates : list pyval) (limit : Z) : res (list scored_test) :=
  let* completed_test_ids := completed_test_ids_of user_profile in
  let* available_tests :=
    filter_res (fun test =>
                  let* tid := Py.item test "testId" in
                  Ret (negb (Py.in_list tid completed_test_ids)))
               test_candidates in
  let* target := Py.get user_profile "target" (VNum 500) in
  let* target := Py.as_num target in
  let* target_difficulty := Py.floordiv target 100 in
  let* scored_tests := map_res (score_test test_candidates target_difficulty)
                         available_tests in
  Ret (Py.slice_to limit (Py.sort_desc st_score scored_tests)).

(** [list(user_profile.get("learningProgress", {}).keys())] *)
Definition started_lecture_ids_of (user_profile : pyval) : res (list pyval) :=
  let* learning_progress := Py.get user_profile "learningProgress" (VDict ∅) in
  match learning_progress with
  | VDict d => Ret (VStr <$> (map_to_list d).*1)
  | _ => Raise AttributeError
  end.

Definition recommend_cold_start_lectures (user_profile : pyval)
    (lecture_candidates : list pyval) (limit : Z) : res (list scored_lecture) :=
  let* started_lecture_ids := started_lecture_ids_of user_profile in
  let* available_lectures :=
    filter_res (fun lecture =>
                  let* lid := Py.item lecture "lectureId" in
                  Ret (negb (Py.in_list lid started_lecture_ids)))
               lecture_candidates in
  let* scored_lectures :=
    map_res (fun lecture =>
               let* id := Py.item lecture "lectureId" in
               let* name := Py.item lecture "name" in
               let* topics := Py.item lecture "topics" in
               Ret {| sl_id := id; sl_name := name; sl_score := 1;
                      sl_already_learned := false; sl_completion := 0;
                      sl_topics := topics; sl_lectureId := id |})
            available_lectures in
  Ret (Py.slice_to limit scored_lectures).

(** An entry of [recommendedTests].  The explanation text is built from
    the difficulty and its gap to the target; the model keeps the two. *)
Record test_recommendation : Type := {
  tr_id : pyval;
  tr_name : pyval;
  tr_score : Q;
  tr_difficulty : pyval;
  tr_diff_gap : Q;
  tr_testId : pyval
}.

(** An entry of [recommendedLectures]; the explanation text is built
    from the joined topic names. *)
Record lecture_recommendation : Type := {
  lr_id : pyval;
  lr_name : pyval;
  lr_score : Q;
  lr_topic_list : string;
  lr_lectureId : pyval
}.

(** [", ".join(v)]: every element has to be a string. *)
Definition join_topics (v : pyval) : res string :=
  let* items := Py.iter v in
  let* strs := map_res (fun x => match x with
                                 | VStr s => Ret s
                                 | _ => Raise TypeError
                                 end) items in
  Ret (String.concat ", " strs).

Record recommendations : Type := {
  userId : pyval;
  recommendedTests : list test_recommendation;
  recommendedLectures : list lecture_recommendation
}.

(** [generate_cold_start_recommendations], with the two catalogues the
    data fetcher returned passed in.  The first line reads
    [user_profile['userId']] for the log message, outside the [try];
    the [except] clause re-raises. *)
Definition generate_cold_start_recommendations (user_profile : pyval)
    (test_candidates lecture_candidates : list pyval) (limit : Z) : res recommendations :=
  let* _ := Py.item user_profile "userId" in
  let* recommended_tests := recommend_cold_start_tests user_profile test_candidates limit in
  let* recommended_lectures :=
    recommend_cold_start_lectures user_profile lecture_candidates limit in
  let* test_recommendations :=
    map_res (fun rec =>
               let* target := Py.get user_profile "target" (VNum 0) in
               let* d := Py.sub (st_difficulty rec) target in
               Ret {| tr_id := st_id rec; tr_name := st_name rec;
                      tr_score := st_score rec; tr_difficulty := st_difficulty rec;
                      tr_diff_gap := Qabs d; tr_testId := st_testId rec |})
            recommended_tests in
  let* lecture_recommendations :=
    map_res (fun rec =>
               let* topic_list := join_topics (sl_topics rec) in
               Ret {| lr_id := sl_id rec; lr_name := sl_name rec;
                      lr_score := sl_score rec; lr_topic_list := topic_list;
                      lr_lectureId := sl_lectureId rec |})
            recommended_lectures in
  let* uid := Py.item user_profile "userId" in
  Ret {| userId := uid;
         recommendedTests := test_recommendations;
         recommendedLectures := lecture_recommendations |}.

End ColdStart.

(** ** [app/logic/core_recommend.py]: the hybrid scorer *)

Module Hybrid.

(** The weights and the margin of [app/utils/config.py], at their
    defaults. *)
Definition WEIGHT_TOPIC : Q := 10.
Definition WEIGHT_COLLAB : Q := 5.
Definition TARGET_MARGIN : Q := 50.

(** The id of a candidate: the field of its type, else [id], else the
    empty string. *)
Definition candidate_id_of (candidate : gmap string pyval) (candidate_type : string)
    : pyval :=
  if bool_decide (candidate_type = "test"%string)
  then Py.dict_get candidate "testId" (Py.dict_get candidate "id" (VStr ""))
  else Py.dict_get candidate "lectureId" (Py.dict_get candidate "id" (VStr "")).

(** The [for topic in topics] loop, adding up the deficiencies. *)
Fixpoint total_deficiency_loop (topics : list pyval) (topic_stats : pyval)
    (total_deficiency : Q) : res Q :=
  match topics with
  | [] => Ret total_deficiency
  | topic :: rest =>
      let* d := CoreRecommend.get_topic_deficiency topic topic_stats
                  CoreRecommend.default_desired_rate in
      total_deficiency_loop rest topic_stats (total_deficiency + d)
  end.

(** [total_deficiency] and [topic_count] of a candidate. *)
Definition total_deficiency_of (user_profile candidate : gmap string pyval) : res Q :=
  match Py.dict_get candidate "topics" (VList []) with
  | VList topics =>
      total_deficiency_loop topics (Py.dict_get user_profile "topicStats" (VList [])) 0
  | _ => Ret 0
  end.

Definition topic_count_of (candidate : gmap string pyval) : Q :=
  match Py.dict_get candidate "topics" (VList []) with
  | VList topics => inject_Z (Z.of_nat (length topics))
  | _ => 0
  end.

(** [base_difficulty]: the user's average when it is below the target,
    else the recommended difficulty. *)
Definition base_difficulty_of (user_profile : gmap string pyval)
    (recommended_difficulty : Q) : res pyval :=
  let* below := Py.lt (Py.dict_get user_profile "averageTotalScore" (VNum 0))
                      (Py.dict_get user_profile "target" (VNum 0)) in
  Ret (if below then Py.dict_get user_profile "averageTotalScore" (VNum 0)
       else VNum recommended_difficulty).

Definition max_diff : Q := 100.

(** [content_score] of a candidate, from its total deficiency. *)
Definition content_score_of (candidate : gmap string pyval) (candidate_type : string)
    (base_difficulty : pyval) (total_deficiency : Q) : res Q :=
  if bool_decide (candidate_type = "test"%string) && Py.has_key candidate "difficulty" then
    let* difficulty := Py.item (VDict candidate) "difficulty" in
    let* d := Py.sub difficulty base_difficulty in
    let diff_gap := Qabs d in
    let difficulty_score := Py.max 0 ((max_diff - diff_gap) / max_diff) in
    let topic_score :=
      total_deficiency / Py.max 1 (topic_count_of candidate * (8 # 10)) in
    Ret ((difficulty_score + topic_score) / 2)
  else
    Ret (Py.min 1 (total_deficiency / Py.max 1 (topic_count_of candidate * (8 # 10)))).

Definition score_candidate (user_profile candidate : pyval)
    (similar_users : list (pyval * Q)) (all_users_data : pyval)
    (candidate_type : string) (margin weight_topic weight_collab : Q) : res Q :=
  match user_profile, candidate with
  | VDict profile, VDict cand =>
      let* target := Py.as_num (Py.dict_get profile "target" (VNum 500)) in
      let recommended_difficulty := target + margin in
      let candidate_id := candidate_id_of cand candidate_type in
      if negb (Py.truthy candidate_id) then Ret 0
      else
        let* total_deficiency := total_deficiency_of profile cand in
        let* base_difficulty := base_difficulty_of profile recommended_difficulty in
        let* content_score :=
          content_score_of cand candidate_type base_difficulty total_deficiency in
        let* collab_score :=
          CoreRecommend.get_collaborative_score candidate_id similar_users
            all_users_data candidate_type in
        Py.div (weight_topic * content_score + weight_collab * collab_score)
               (weight_topic + weight_collab)
  | _, _ => Ret 0
  end.

(** *** [recommend_hybrid] *)

(** The [id] of a recommendation: the candidate's id as it is, or the id
    with the note that the item was taken before, which the code appends
    as text built from a count ([id += f"..."]). *)
Inductive label : Type :=
| Plain (v : pyval)
| Marked (v : pyval) (n : pyval).

(** [label += f"..."] when the item was taken: a string is extended, a
    list is extended in place, anything else cannot be added to. *)
Definition mark (taken : bool) (v n : pyval) : res label :=
  if taken then
    match v with
    | VStr _ | VList _ => Ret (Marked v n)
    | _ => Raise TypeError
    end
  else Ret (Plain v).

(** What [test.get("testId", "")] reads after the label was built: the
    label of a taken test is the very list stored in the test when the id
    is a list, which the append has changed. *)
Definition id_after_mark (taken : bool) (candidate : gmap string pyval)
    (field : string) (n : pyval) : label :=
  match Py.dict_get candidate field (VStr "") with
  | VList l => if taken then Marked (VList l) n else Plain (VList l)
  | v => Plain v
  end.

(** An entry of [scored_tests]. *)
Record scored_test : Type := {
  st_id : label;
  st_name : pyval;
  st_score : Q;
  st_already_taken : bool;
  st_attempts : pyval;
  st_avg_score : pyval;
  st_difficulty : pyval;
  st_topics : pyval;
  st_testId : label
}.

(** An entry of [scored_lectures]. *)
Record scored_lecture : Type := {
  sl_id : label;
  sl_name : pyval;
  sl_score : Q;
  sl_already_learned : bool;
  sl_completion : pyval;
  sl_topics : pyval;
  sl_lectureId : label
}.

(** The scan of the user's own history for a test: the attempts and the
    average score of the first record with the test's id. *)
Fixpoint own_history_loop (test_id : pyval) (records : list pyval)
    : option (pyval * pyval) :=
  match records with
  | [] => None
  | VDict r :: rest =>
      if Py.eq (Py.dict_get r "testId" VNone) test_id then
        Some (Py.dict_get r "attempt" (Py.dict_get r "attempts" (VNum 0)),
              Py.dict_get r "avgScore" (Py.dict_get r "averageScore" (VNum 0)))
      else own_history_loop test_id rest
  | _ :: rest => own_history_loop test_id rest
  end.

Definition own_record_of (profile test : gmap string pyval) : option (pyval * pyval) :=
  match Py.dict_get profile "testHistory" (VList []) with
  | VList test_history =>
      let test_id := Py.dict_get test "testId" VNone in
      if Py.truthy test_id then own_history_loop test_id test_history else None
  | _ => None
  end.

(** The pre-filter: [test_difficulty >= avg_total_score - 20]. *)
Definition passes_filter (profile test : gmap string pyval) : res bool :=
  let* avg := Py.as_num (Py.dict_get profile "averageTotalScore" (VNum 0)) in
  let* difficulty := Py.as_num (Py.dict_get test "difficulty" (VNum 0)) in
  Ret (Qle_bool (avg - 20) difficulty).

(** The body of the [for test in test_candidates] loop: the entry to
    append, if the test passes the filter. *)
Definition score_test (profile : gmap string pyval) (similar_users : list (pyval * Q))
    (all_users_data : pyval) (margin weight_topic weight_collab : Q)
    (test : gmap string pyval) : res (option scored_test) :=
  let* pass := passes_filter profile test in
  if pass then
    let* score := score_candidate (VDict profile) (VDict test) similar_users
                    all_users_data "test" margin weight_topic weight_collab in
    let own := own_record_of profile test in
    let already_taken := bool_decide (is_Some own) in
    let attempts := match own with Some (a, _) => a | None => VNum 0 end in
    let avg_score := match own with Some (_, s) => s | None => VNum 0 end in
    let* test_label := mark already_taken (Py.dict_get test "testId" (VStr "Unknown"))
                         attempts in
    Ret (Some {| st_id := test_label;
                 st_name := Py.dict_get test "name" VNone;
                 st_score := score;
                 st_already_taken := already_taken;
                 st_attempts := attempts;
                 st_avg_score := avg_score;
                 st_difficulty := Py.dict_get test "difficulty" (VNum 0);
                 st_topics := Py.dict_get test "topics" (VList []);
                 st_testId := id_after_mark already_taken test "testId" attempts |})
  else Ret None.

Fixpoint scored_tests_loop (profile : gmap string pyval)
    (similar_users : list (pyval * Q)) (all_users_data : pyval)
    (margin weight_topic weight_collab : Q) (test_candidates : list pyval)
    : res (list scored_test) :=
  match test_candidates with
  | [] => Ret []
  | VDict test :: rest =>
      let* entry := score_test profile similar_users all_users_data margin
                      weight_topic weight_collab test in
      let* entries := scored_tests_loop profile similar_users all_users_data margin
                        weight_topic weight_collab rest in
      Ret (match entry with Some e => e :: entries | None => entries end)
  | _ :: rest =>
      scored_tests_loop profile similar_users all_users_data margin
        weight_topic weight_collab rest
  end.

(** The user's own progress on a lecture: the [percent] of its record,
    when the lecture's id is a key of [learningProgress] with a dict. *)
Definition own_progress_of (profile lecture : gmap string pyval) : res (option pyval) :=
  match Py.dict_get profile "learningProgress" (VDict ∅) with
  | VDict learning_progress =>
      let lecture_id := Py.dict_get lecture "lectureId" VNone in
      if Py.truthy lecture_id then
        let* started := Py.in_dict lecture_id learning_progress in
        if started then
          let* progress_data := Py.dict_item learning_progress lecture_id in
          match progress_data with
          | VDict r => Ret (Some (Py.dict_get r "percent" (VNum 0)))
          | _ => Ret None
          end
        else Ret None
      else Ret None
  | _ => Ret None
  end.

(** The body of the [for lecture in lecture_candidates] loop. *)
Definition score_lecture (profile : gmap string pyval) (similar_users : list (pyval * Q))
    (all_users_data : pyval) (margin weight_topic weight_collab : Q)
    (lecture : gmap string pyval) : res scored_lecture :=
  let* score := score_candidate (VDict profile) (VDict lecture) similar_users
                  all_users_data "lecture" margin weight_topic weight_collab in
  let* own := own_progress_of profile lecture in
  let already_learned := bool_decide (is_Some own) in
  let completion_percent := match own with Some c => c | None => VNum 0 end in
  let* lecture_label := mark already_learned
                          (Py.dict_get lecture "lectureId" (VStr "Unknown"))
                          completion_percent in
  Ret {| sl_id := lecture_label;
         sl_name := Py.dict_get lecture "name" VNone;
         sl_score := score;
         sl_already_learned := already_learned;
         sl_completion := completion_percent;
         sl_topics := Py.dict_get lecture "topics" (VList []);
         sl_lectureId := id_after_mark already_learned lecture "lectureId"
                           completion_percent |}.

Fixpoint scored_lectures_loop (profile : gmap string pyval)
    (similar_users : list (pyval * Q)) (all_users_data : pyval)
    (margin weight_topic weight_collab : Q) (lecture_candidates : list pyval)
    : res (list scored_lecture) :=
  match lecture_candidates with
  | [] => Ret []
  | VDict lecture :: rest =>
      let* entry := score_lecture profile similar_users all_users_data margin
                      weight_topic weight_collab lecture in
      let* entries := scored_lectures_loop profile similar_users all_users_data margin
                        weight_topic weight_collab rest in
      Ret (entry :: entries)
  | _ :: rest =>
      scored_lectures_loop profile similar_users all_users_data margin
        weight_topic weight_collab rest
  end.

(** What the explanation of a test is built from: for a taken test the
    attempts, the average score and, when that is below the target, the
    target; the difficulty and its gap to the target. *)
Record test_explanation : Type := {
  te_history : option (pyval * pyval * option pyval);
  te_difficulty : pyval;
  te_diff_gap : Q
}.

Record test_recommendation : Type := {
  tr_id : label;
  tr_name : pyval;
  tr_score : Q;
  tr_explanation : test_explanation;
  tr_testId : label
}.

(** What the explanation of a lecture is built from: the completion of a
    lecture already started, and the joined topic names. *)
Record lecture_explanation : Type := {
  le_completion : option pyval;
  le_topic_list : string
}.

Record lecture_recommendation : Type := {
  lr_id : label;
  lr_name : pyval;
  lr_score : Q;
  lr_explanation : lecture_explanation;
  lr_lectureId : label
}.

Definition explain_test (profile : gmap string pyval) (rec : scored_test)
    : res test_recommendation :=
  let target := Py.dict_get profile "target" (VNum 0) in
  let* history :=
    if st_already_taken rec then
      let* below := Py.lt (st_avg_score rec) target in
      Ret (Some (st_attempts rec, st_avg_score rec,
                 if below then Some target else None))
    else Ret None in
  let* d := Py.sub (st_difficulty rec) target in
  Ret {| tr_id := st_id rec;
         tr_name := st_name rec;
         tr_score := st_score rec;
         tr_explanation := {| te_history := history;
                              te_difficulty := st_difficulty rec;
                              te_diff_gap := Qabs d |};
         tr_testId := st_testId rec |}.

Definition explain_lecture (rec : scored_lecture) : res lecture_recommendation :=
  let* topic_list := ColdStart.join_topics (sl_topics rec) in
  Ret {| lr_id := sl_id rec;
         lr_name := sl_name rec;
         lr_score := sl_score rec;
         lr_explanation :=
           {| le_completion := if sl_already_learned rec
                               then Some (sl_completion rec) else None;
              le_topic_list := topic_list |};
         lr_lectureId := sl_lectureId rec |}.

(** What [recommend_hybrid] returns: the dict with [tests] and
    [lectures] empty of the guard at its head, or the recommendations. *)
Inductive hybrid_result : Type :=
| NoRecommendations
| Recommendations (userId : pyval) (recommendedTests : list test_recommendation)
    (recommendedLectures : list lecture_recommendation).

(** [a list, else the empty list] *)
Definition list_or_empty (v : pyval) : list pyval :=
  match v with
  | VList l => l
  | _ => []
  end.

(** [recommend_hybrid], with what the data fetcher returned passed in:
    the two catalogues and the profiles for the similarity.  The weights
    are the module's configuration. *)
Definition recommend_hybrid (user_profile test_candidates lecture_candidates
    all_users_data : pyval) (limit : Z) (margin weight_topic weight_collab : Q)
    : res hybrid_result :=
  let* _ := Py.item user_profile "userId" in
  match user_profile with
  | VDict profile =>
      if negb (Py.truthy user_profile) then
        let* _ := Py.item user_profile "userId" in Ret NoRecommendations
      else
        let test_candidates := list_or_empty test_candidates in
        let lecture_candidates := list_or_empty lecture_candidates in
        let all_users_data := VList (list_or_empty all_users_data) in
        let similar_users :=
          Similarity.find_similar_users user_profile all_users_data 5 in
        let* _ := Py.item user_profile "userId" in
        let* scored_tests :=
          scored_tests_loop profile similar_users all_users_data margin
            weight_topic weight_collab test_candidates in
        let* scored_lectures :=
          scored_lectures_loop profile similar_users all_users_data margin
            weight_topic weight_collab lecture_candidates in
        let recommended_tests := Py.slice_to limit (Py.sort_desc st_score scored_tests) in
        let recommended_lectures :=
          Py.slice_to limit (Py.sort_desc sl_score scored_lectures) in
        let* test_recommendations :=
          ColdStart.map_res (explain_test profile) recommended_tests in
        let* lecture_recommendations :=
          ColdStart.map_res explain_lecture recommended_lectures in
        let* uid := Py.item user_profile "userId" in
        Ret (Recommendations uid test_recommendations lecture_recommendations)
  | _ =>
      let* _ := Py.item user_profile "userId" in Ret NoRecommendations
  end.

End Hybrid.

(** ** [app/logic/data_fetcher.py] *)

(** What is raised on the way through the fetcher and the endpoint:
    FastAPI's [HTTPException] with its status code, an
    [aiohttp.ClientError], an exception of the scoring code, or any other
    exception.  An [HTTPException] is an [Exception] and is no
    [ClientError]. *)
Inductive raised : Type :=
| HTTPException (status_code : Z)
| ClientError
| Error (e : exn)
| OtherException.

(** The outcome of an awaited call. *)
Inductive fetched (A : Type) : Type :=
| Got (a : A)
| Threw (r : raised).
Arguments Got {A} a.
Arguments Threw {A} r.

Definition fetched_bind {A B : Type} (m : fetched A) (k : A → fetched B) : fetched B :=
  match m with
  | Got a => k a
  | Threw r => Threw r
  end.

Notation "'await' x ':=' m 'in' k" := (fetched_bind m (fun x => k))
  (at level 10, x name, m at level 100, k at level 200).

(** An exception of the scoring code, raised through an awaited call. *)
Definition lift {A : Type} (r : res A) : fetched A :=
  match r with
  | Ret a => Got a
  | Raise e => Threw (Error e)
  end.

(** What the HTTP session does with a request: a response arrives with
    its status, and reading the body (the text of an error, the JSON
    otherwise) gives a value or raises; or the session raises before any
    response. *)
Inductive exchange : Type :=
| Response (status : Z) (body : fetched pyval)
| NoResponse (r : raised).

Module DataFetcher.

Section Fetcher.

(** The configuration of [app/utils/config.py] ([os.getenv] gives [None]
    for a key that is not set) and the backend, which answers a method
    and a URL. *)
Variable BACKEND_API_BASE_URL : string.
Variable INTERNAL_API_KEY : option string.
Variable backend : string → string → exchange.

(** The endpoint under [/api/v1/internal]. *)
Definition internal_endpoint (endpoint : string) : string :=
  if String.prefix "/api/v1/internal" endpoint then endpoint
  else "/api/v1/internal"
       +:+ (if String.prefix "/" endpoint then endpoint else "/" +:+ endpoint).

(** The body of the [try] of [_make_internal_api_request]: a status of
    400 or more raises an [HTTPException] with that status, after the
    text of the error was read. *)
Definition request (method url : string) : fetched pyval :=
  match backend method url with
  | Response status body =>
      if (400 <=? status)%Z then
        await _ := body in Threw (HTTPException status)
      else body
  | NoResponse r => Threw r
  end.

(** [_make_internal_api_request]: [len(INTERNAL_API_KEY)] is taken
    before the [try]; the first handler takes an [aiohttp.ClientError],
    the second every other [Exception], the [HTTPException] of the body
    included.  No [ClientError] leaves the function, so that the retry
    decorator never calls it again. *)
Definition _make_internal_api_request (endpoint method : string) : fetched pyval :=
  let url := BACKEND_API_BASE_URL +:+ internal_endpoint endpoint in
  match INTERNAL_API_KEY with
  | None => Threw (Error TypeError)
  | Some _ =>
      match request method url with
      | Got response => Got response
      | Threw ClientError => Threw (HTTPException 503)
      | Threw _ => Threw (HTTPException 500)
      end
  end.

(** The profile [get_user_profile] falls back to. *)
Definition default_profile (user_id : string) : pyval :=
  VDict (<["userId" := VStr user_id]>
          (<["testHistory" := VList []]> (<["learningProgress" := VDict ∅]> ∅))).

Definition get_user_profile (user_id : string) : fetched pyval :=
  match _make_internal_api_request ("/users/" +:+ user_id +:+ "/profile") "GET" with
  | Got response =>
      match response with
      | VDict _ => Got response
      | _ => Got (default_profile user_id)
      end
  | Threw (HTTPException status_code) =>
      if (status_code =? 404)%Z then Got (default_profile user_id)
      else Threw (HTTPException status_code)
  | Threw r => Threw r
  end.

(** [get_test_candidates], [get_lecture_candidates] and
    [get_all_user_profiles_for_similarity] are the same code on three
    endpoints: the list under [data] of a response that is a dict, else
    the empty list; the handler re-raises. *)
Definition get_candidates (endpoint : string) : fetched (list pyval) :=
  await response := _make_internal_api_request endpoint "GET" in
  match response with
  | VDict d =>
      match Py.dict_get d "data" (VList []) with
      | VList items => Got items
      | _ => Got []
      end
  | _ => Got []
  end.

Definition get_test_candidates : fetched (list pyval) :=
  get_candidates "/tests/candidates".

Definition get_lecture_candidates : fetched (list pyval) :=
  get_candidates "/lectures/candidates".

Definition get_all_user_profiles_for_similarity : fetched (list pyval) :=
  get_candidates "/users/profiles-for-similarity".

End Fetcher.

End DataFetcher.

(** ** [app/main.py] *)

Module Main.

(** What the endpoint answers with: the result of the cold-start path or
    of the hybrid path. *)
Inductive answer : Type :=
| Cold (r : ColdStart.recommendations)
| Personalised (r : Hybrid.hybrid_result).

Section Service.

Variable BACKEND_API_BASE_URL : string.
Variable INTERNAL_API_KEY : option string.
Variable backend : string → string → exchange.
Variables WEIGHT_TOPIC WEIGHT_COLLAB TARGET_MARGIN : Q.

(** [generate_cold_start_recommendations] with its two fetches, which
    come after the log line that reads the [userId]. *)
Definition generate_cold_start_recommendations_io (user_profile : pyval) (limit : Z)
    : fetched ColdStart.recommendations :=
  await _ := lift (Py.item user_profile "userId") in
  await test_candidates :=
    DataFetcher.get_test_candidates BACKEND_API_BASE_URL INTERNAL_API_KEY backend in
  await lecture_candidates :=
    DataFetcher.get_lecture_candidates BACKEND_API_BASE_URL INTERNAL_API_KEY backend in
  lift (ColdStart.generate_cold_start_recommendations user_profile test_candidates
          lecture_candidates limit).

(** [recommend_hybrid] with its three fetches, which come after the log
    line that reads the [userId]. *)
Definition recommend_hybrid_io (user_profile : pyval) (limit : Z)
    : fetched Hybrid.hybrid_result :=
  await _ := lift (Py.item user_profile "userId") in
  await test_candidates :=
    DataFetcher.get_test_candidates BACKEND_API_BASE_URL INTERNAL_API_KEY backend in
  await lecture_candidates :=
    DataFetcher.get_lecture_candidates BACKEND_API_BASE_URL INTERNAL_API_KEY backend in
  await all_users_data :=
    DataFetcher.get_all_user_profiles_for_similarity BACKEND_API_BASE_URL
      INTERNAL_API_KEY backend in
  lift (Hybrid.recommend_hybrid user_profile (VList test_candidates)
          (VList lecture_candidates) (VList all_users_data) limit TARGET_MARGIN
          WEIGHT_TOPIC WEIGHT_COLLAB).

(** [get_recommendations]: whatever the body raises is answered with
    status 500. *)
Definition get_recommendations (user_id : string) (limit : Z) : fetched answer :=
  let body :=
    await user_profile_api_response :=
      DataFetcher.get_user_profile BACKEND_API_BASE_URL INTERNAL_API_KEY backend
        user_id in
    await user_profile := lift (Py.get user_profile_api_response "data" (VDict ∅)) in
    if CoreRecommend.is_cold_start_user user_profile then
      await result := generate_cold_start_recommendations_io user_profile limit in
      Got (Cold result)
    else
      await hybrid_result := recommend_hybrid_io user_profile limit in
      Got (Personalised hybrid_result) in
  match body with
  | Got a => Got a
  | Threw _ => Threw (HTTPException 500)
  end.

End Service.

End Main.

(** * Specification vocabulary

    The predicates the statements below are phrased in, and the concrete
    inputs of the examples. *)

(** [a] may stand before [b] in descending key order. *)
Definition desc {A : Type} (key : A → Q) (a b : A) : Prop := key b <= key a.


(** The value returned once the four differences are known. *)
Definition similarity_of_diffs (t l r tot : Q) : Q :=
  Py.max 0 (Py.min 1 (1 - Py.sum
    [ Py.min 1 (t / Similarity.max_target_diff);
      Py.min 1 (l / Similarity.max_score_diff);
      Py.min 1 (r / Similarity.max_score_diff);
      Py.min 1 (tot / Similarity.max_score_diff) ] / 4)).



(** A profile with the given id and the four numeric fields. *)
Definition profile_of (uid : string) (target listening reading total : Q)
    : gmap string pyval :=
  <["userId" := VStr uid]>
    (<["target" := VNum target]>
      (<["averageListeningScore" := VNum listening]>
        (<["averageReadingScore" := VNum reading]>
          (<["averageTotalScore" := VNum total]> ∅)))).

(** Listening 300 and reading 250: the two averages differ. *)
Definition uneven_profile : gmap string pyval := profile_of "a" 600 300 250 550.


(** The claim of C1: some record with a normalized score above 0.85 and at
    least 3 attempts has an attempt factor above 1, so that its effective
    score exceeds its normalized score. *)
Definition bonus_lifts_factor_above_one : Prop :=
  ∃ avg_score attempts : Q,
    85 # 100 < avg_score / 990 ∧ 3 <= attempts
    ∧ 1 < CoreRecommend.attempt_factor (avg_score / 990) attempts
    ∧ avg_score / 990
      < avg_score / 990 * CoreRecommend.attempt_factor (avg_score / 990) attempts.

(** The average score of a test record, when it is a number, is a TOEIC
    score: between 0 and 990. *)
Definition record_in_range (record : pyval) : Prop :=
  match record with
  | VDict r =>
      ∀ q, Py.num_of (CoreRecommend.avg_score_of r) = Some q → 0 <= q <= 990
  | _ => True
  end.

(** Every record of the profile's test history is in range. *)
Definition history_in_range (u : gmap string pyval) : Prop :=
  match Py.dict_get u "testHistory" (VList []) with
  | VList h => Forall record_in_range h
  | _ => True
  end.

Definition user_in_range (user : pyval) : Prop :=
  match user with
  | VDict u => history_in_range u
  | _ => True
  end.

(** A neighbour of similarity 1 who scored 990 in 3 attempts. *)
Definition master_neighbour : pyval :=
  VDict (<["userId" := VStr "n1"]>
          (<["testHistory" :=
               VList [VDict (<["testId" := VStr "t1"]>
                              (<["avgScore" := VNum 990]>
                                (<["attempts" := VNum 3]> ∅)))]]> ∅)).

(** The number of entries of [testHistory]; a missing one, or one that is
    not a list, counts as empty. *)
Definition history_length (d : gmap string pyval) : nat :=
  match d !! "testHistory" with
  | Some (VList l) => length l
  | _ => 0
  end.

(** The number of keys of [learningProgress]; a missing one, or one that
    is not a dict, counts as empty. *)
Definition progress_size (d : gmap string pyval) : nat :=
  match d !! "learningProgress" with
  | Some (VDict m) => size m
  | _ => 0
  end.

Definition is_dict (v : pyval) : Prop := ∃ d, v = VDict d.

(** Three started lectures and a [testHistory] that is [None]. *)
Definition three_lectures_null_history : gmap string pyval :=
  <["userId" := VStr "u1"]>
    (<["testHistory" := VNone]>
      (<["learningProgress" :=
           VDict (<["l1" := VDict (<["percent" := VNum 10]> ∅)]>
                   (<["l2" := VDict (<["percent" := VNum 20]> ∅)]>
                     (<["l3" := VDict (<["percent" := VNum 30]> ∅)]> ∅)))]> ∅)).

(** The entry is a dict whose [topicName] equals the topic. *)
Definition matches_topic (topic item : pyval) : bool :=
  match item with
  | VDict r => Py.eq (Py.dict_get r "topicName" (VStr "")) topic
  | _ => false
  end.

(** The [userId] of every peer profile that is a dict and has one. *)
Definition peer_ids (users : list pyval) : list pyval :=
  omap (λ p, match p with
             | VDict d => d !! "userId"
             | _ => None
             end) users.

(** The ids of the peers that take part in the comparison: a dict with a
    truthy [userId] other than the target's and all four required fields. *)
Definition eligible_ids (target_user_id : pyval) (users : list pyval) : list pyval :=
  omap (λ p, match p with
             | VDict d =>
                 uid ← d !! "userId";
                 if Py.truthy uid && negb (Py.eq uid target_user_id)
                    && Similarity.has_all_fields d
                 then Some uid else None
             | _ => None
             end) users.

(** Two peers with the same [userId]. *)
Definition twin_peers : pyval :=
  VList [VDict (profile_of "b" 700 200 350 500); VDict (profile_of "b" 600 250 300 550)].

(** A target with an id and no [averageTotalScore]. *)
Definition incomplete_target : gmap string pyval :=
  <["userId" := VStr "a"]>
    (<["target" := VNum 600]>
      (<["averageListeningScore" := VNum 300]>
        (<["averageReadingScore" := VNum 250]> ∅))).

(** Three peers, then the target's own profile, then a peer without a
    [target]. *)
Definition some_peers : list pyval :=
  [ VDict (profile_of "b" 700 200 350 500);
    VDict (profile_of "c" 600 250 300 550);
    VDict (profile_of "d" 900 450 450 900);
    VDict (profile_of "a" 600 300 250 550);
    VDict (delete "target" (profile_of "e" 600 300 250 550)) ].

(** The profile is stored under an id equal to [uid]. *)
Definition same_user (uid : pyval) (u : gmap string pyval) : Prop :=
  ∃ k, u !! "userId" = Some k ∧ Py.eq k uid = true.

(** The [userId] of the profile, if it is a dict and has one, is hashable
    (a string or a number, not a list or a dict). *)
Definition hashable_id (p : pyval) : Prop :=
  match p with
  | VDict u => ∀ k, u !! "userId" = Some k → Py.hashable k = true
  | _ => True
  end.

(** Every binding of the lookup map is a profile of the list, stored
    under its own id. *)
Definition map_from (users : list pyval) (m : list (pyval * gmap string pyval)) : Prop :=
  Forall (λ kv, VDict kv.2 ∈ users ∧ kv.2 !! "userId" = Some kv.1) m.

(** The test ids that appear in the profile's [testHistory]. *)
Definition taken_ids (p : pyval) : list pyval :=
  match p with
  | VDict d =>
      match d !! "testHistory" with
      | Some (VList items) =>
          omap (λ item, match item with
                        | VDict r => r !! "testId"
                        | _ => None
                        end) items
      | _ => []
      end
  | _ => []
  end.

(** A test of the catalogue. *)
Definition test_of (id : string) (difficulty attempts : Q) : pyval :=
  VDict (<["testId" := VStr id]>
          (<["name" := VStr id]>
            (<["difficulty" := VNum difficulty]>
              (<["topics" := VList [VStr "grammar"]]>
                (<["totalUserAttempt" := VNum attempts]> ∅))))).

Definition test_catalogue : list pyval :=
  [test_of "t1" 5 40; test_of "t2" 6 10; test_of "t3" 9 20].

(** A new user who took the test [t1] once. *)
Definition one_test_profile : pyval :=
  VDict (<["userId" := VStr "u1"]>
          (<["target" := VNum 600]>
            (<["testHistory" :=
                 VList [VDict (<["testId" := VStr "t1"]>
                                (<["attempts" := VNum 1]>
                                  (<["avgScore" := VNum 400]> ∅)))]]> ∅))).

(** A profile whose [testHistory] is [None]. *)
Definition null_history_profile : pyval :=
  VDict (<["userId" := VStr "u1"]> (<["testHistory" := VNone]> ∅)).

(** A profile whose [learningProgress] is a list. *)
Definition list_progress_profile : pyval :=
  VDict (<["userId" := VStr "u1"]> (<["learningProgress" := VList []]> ∅)).

(** A lecture of the catalogue. *)
Definition lecture_of (id : string) : pyval :=
  VDict (<["lectureId" := VStr id]>
          (<["name" := VStr id]> (<["topics" := VList [VStr "grammar"]]> ∅))).

Definition lecture_catalogue : list pyval := [lecture_of "l1"; lecture_of "l2"].

(** The topic statistics of a user: 6 of 10 right on grammar, nothing yet
    on vocabulary. *)
Definition some_topic_stats : list pyval :=
  [ VDict (<["topicName" := VStr "vocabulary"]>
            (<["totalCorrect" := VNum 0]> (<["totalIncorrect" := VNum 0]> ∅)));
    VDict (<["topicName" := VStr "grammar"]>
            (<["totalCorrect" := VNum 6]> (<["totalIncorrect" := VNum 4]> ∅))) ].

(** One of the required fields of the profile does not hold a number
    (a field that is absent counts too). *)
Definition malformed_field (d : gmap string pyval) : Prop :=
  ∃ f, f ∈ Similarity.required_fields ∧ d !! f ≫= Py.num_of = None.

(** Every entry of the topic statistics that is a dict has numeric
    totals (a missing one counts as 0), the number of correct answers not
    negative. *)
Definition topic_stats_well_formed (topic_stats : pyval) : Prop :=
  match topic_stats with
  | VList items =>
      Forall (λ item,
                match item with
                | VDict r =>
                    ∃ correct incorrect : Q,
                      Py.num_of (Py.dict_get r "totalCorrect" (VNum 0)) = Some correct
                      ∧ Py.num_of (Py.dict_get r "totalIncorrect" (VNum 0))
                        = Some incorrect
                      ∧ 0 <= correct ∧ 0 <= incorrect
                | _ => True
                end) items
  | _ => True
  end.

(** No dict of the list has a [userId] equal to [uid]. *)
Definition no_profile_of (uid : pyval) (users : list pyval) : Prop :=
  Forall (λ p, match p with
               | VDict u => ∀ k, u !! "userId" = Some k → Py.eq k uid = false
               | _ => True
               end) users.

(** A progress entry whose percentage, when it is a number, is not
    negative: a record with a [percent], or a bare number. *)
Definition progress_value_ok (v : pyval) : Prop :=
  match v with
  | VDict r => ∀ p, Py.num_of (Py.dict_get r "percent" (VNum 0)) = Some p → 0 <= p
  | _ => ∀ p, Py.num_of v = Some p → 0 <= p
  end.

(** Every progress entry of the profile, direct or nested in the list
    under [items], has a nonnegative percentage. *)
Definition progress_ok (u : gmap string pyval) : Prop :=
  match Py.dict_get u "learningProgress" (VDict ∅) with
  | VDict lp =>
      (∀ k v, lp !! k = Some v → progress_value_ok v)
      ∧ (∀ items, lp !! "items" = Some (VList items) →
           Forall (λ item, match item with
                           | VDict r => ∀ k v, r !! k = Some v → progress_value_ok v
                           | _ => True
                           end) items)
  | _ => True
  end.

(** The property holds of every profile of the list that is a dict. *)
Definition all_profiles (P : gmap string pyval → Prop) (users : list pyval) : Prop :=
  Forall (λ p, match p with
               | VDict u => P u
               | _ => True
               end) users.

(** A neighbour with lecture [l1] done to 150 percent. *)
Definition eager_neighbour : pyval :=
  VDict (<["userId" := VStr "n1"]>
          (<["learningProgress" :=
               VDict (<["l1" := VDict (<["percent" := VNum 150]> ∅)]> ∅)]> ∅)).

(** A profile with statistics on two topics, below its target. *)
Definition learner_profile : gmap string pyval :=
  <["userId" := VStr "u1"]>
    (<["target" := VNum 700]>
      (<["averageTotalScore" := VNum 650]>
        (<["topicStats" := VList some_topic_stats]> ∅))).

(** A test candidate on grammar. *)
Definition grammar_test (id : string) (difficulty : Q) : gmap string pyval :=
  <["testId" := VStr id]>
    (<["name" := VStr id]>
      (<["difficulty" := VNum difficulty]>
        (<["topics" := VList [VStr "grammar"]]> ∅))).






(** The attempt count of the test, when it is a number, is not negative. *)
Definition attempts_nonneg (test : pyval) : Prop :=
  ∀ v a, Py.item test "totalUserAttempt" = Ret v → Py.num_of v = Some a → 0 <= a.

(** The computation does not end in a [ZeroDivisionError]. *)
Definition no_zero_division {A : Type} (r : res A) : Prop :=
  r ≠ Raise ZeroDivisionError.

(** A catalogue of tests nobody has attempted yet. *)
Definition fresh_catalogue : list pyval := [test_of "t1" 5 0; test_of "t2" 6 0].




(** The candidates that are dicts, in the order of the catalogue (no
    candidate when the catalogue is not a list). *)
Definition dicts_of (candidates : pyval) : list (gmap string pyval) :=
  omap (λ v, match v with
             | VDict d => Some d
             | _ => None
             end) (Hybrid.list_or_empty candidates).

(** The test's difficulty (0 when absent) is at least the user's average
    total score (0 when absent) less 20, both being numbers. *)
Definition within_reach (profile test : gmap string pyval) : bool :=
  match Py.num_of (Py.dict_get profile "averageTotalScore" (VNum 0)),
        Py.num_of (Py.dict_get test "difficulty" (VNum 0)) with
  | Some avg, Some difficulty => Qle_bool (avg - 20) difficulty
  | _, _ => false
  end.

(** The five nearest neighbours [recommend_hybrid] scores with. *)
Definition neighbours_of (profile : gmap string pyval) (all_users_data : pyval)
    : list (pyval * Q) :=
  Similarity.find_similar_users (VDict profile)
    (VList (Hybrid.list_or_empty all_users_data)) 5.

(** The user's history is a list with a record, a dict, that carries the
    test's id, an id that is not empty. *)
Definition taken_before (profile test : gmap string pyval) : Prop :=
  ∃ history record,
    Py.dict_get profile "testHistory" (VList []) = VList history
    ∧ VDict record ∈ history
    ∧ Py.truthy (Py.dict_get test "testId" VNone) = true
    ∧ Py.eq (Py.dict_get record "testId" VNone) (Py.dict_get test "testId" VNone) = true.

(** The label carries the note of an earlier attempt. *)
Definition is_marked (l : Hybrid.label) : Prop :=
  match l with
  | Hybrid.Marked _ _ => True
  | Hybrid.Plain _ => False
  end.

(** A learner who took the test [t1] twice, with statistics on two
    topics. *)
Definition returning_profile : gmap string pyval :=
  <["testHistory" :=
      VList [VDict (<["testId" := VStr "t1"]>
                     (<["attempt" := VNum 2]> (<["avgScore" := VNum 600]> ∅)))]]>
    learner_profile.

(** The same learner, with numbers for test ids. *)
Definition numeric_id_profile : gmap string pyval :=
  <["testHistory" :=
      VList [VDict (<["testId" := VNum 7]>
                     (<["attempt" := VNum 2]> (<["avgScore" := VNum 600]> ∅)))]]>
    learner_profile.

(** A catalogue of three tests: one out of reach, one taken, one new. *)
Definition hybrid_tests : pyval :=
  VList [VDict (grammar_test "t0" 500); VDict (grammar_test "t1" 640);
         VNone; VDict (grammar_test "t2" 700)].

Definition hybrid_lectures : pyval :=
  VList [lecture_of "l1"; VStr "l9"; lecture_of "l2"].

(** Text can be appended to the value with [+=]: it is a string or a
    list. *)
Definition appendable (v : pyval) : bool :=
  match v with
  | VStr _ | VList _ => true
  | _ => false
  end.

(** The URL [get_user_profile] asks for. *)
Definition profile_url (base user_id : string) : string :=
  base +:+ "/api/v1/internal/users/" +:+ user_id +:+ "/profile".

(** The response carries no profile with a [userId] under [data]. *)
Definition no_user_data (response : pyval) : Prop :=
  match response with
  | VDict r =>
      match Py.dict_get r "data" (VDict ∅) with
      | VDict d => d !! "userId" = None
      | _ => True
      end
  | _ => True
  end.

(** The [userId] of an answer, and the numbers of tests and lectures in
    it. *)
Definition answer_user (a : Main.answer) : option pyval :=
  match a with
  | Main.Cold r => Some (ColdStart.userId r)
  | Main.Personalised (Hybrid.Recommendations uid _ _) => Some uid
  | Main.Personalised Hybrid.NoRecommendations => None
  end.

Definition answer_tests (a : Main.answer) : nat :=
  match a with
  | Main.Cold r => length (ColdStart.recommendedTests r)
  | Main.Personalised (Hybrid.Recommendations _ tests _) => length tests
  | Main.Personalised Hybrid.NoRecommendations => 0
  end.

Definition answer_lectures (a : Main.answer) : nat :=
  match a with
  | Main.Cold r => length (ColdStart.recommendedLectures r)
  | Main.Personalised (Hybrid.Recommendations _ _ lectures) => length lectures
  | Main.Personalised Hybrid.NoRecommendations => 0
  end.

Definition is_cold (a : Main.answer) : bool :=
  match a with
  | Main.Cold _ => true
  | Main.Personalised _ => false
  end.

(** A backend that knows the user [u1] and the two catalogues, and
    answers 404 to everything else. *)
Definition sample_backend (method url : string) : exchange :=
  if bool_decide (url = "http://backend/api/v1/internal/users/u1/profile"%string) then
    Response 200 (Got (VDict (<["data" := one_test_profile]> ∅)))
  else if bool_decide (url = "http://backend/api/v1/internal/tests/candidates"%string) then
    Response 200 (Got (VDict (<["data" := VList test_catalogue]> ∅)))
  else if bool_decide (url = "http://backend/api/v1/internal/lectures/candidates"%string)
  then Response 200 (Got (VDict (<["data" := VList lecture_catalogue]> ∅)))
  else Response 404 (Got (VStr "not found")).

(** A backend that answers every request with a JSON list. *)
Definition list_backend (method url : string) : exchange :=
  Response 200 (Got (VList [])).

(** * Verification *)

(** ** Arithmetic helpers *)

#[local] Arguments Qplus : simpl never.
#[local] Arguments Qminus : simpl never.
#[local] Arguments Qmult : simpl never.
#[local] Arguments Qdiv : simpl never.
#[local] Arguments Qopp : simpl never.
#[local] Arguments Qinv : simpl never.
#[local] Arguments Qabs : simpl never.
#[local] Arguments Qle_bool : simpl never.
#[local] Arguments Qeq_bool : simpl never.
#[local] Arguments inject_Z : simpl never.

Lemma Qltb_spec (x y : Q) : reflect (x < y) (Py.Qltb x y).
Proof.
  unfold Py.Qltb. destruct (Qle_bool y x) eqn:E; constructor.
  - apply Qle_bool_iff in E. lra.
  - destruct (Qlt_le_dec x y) as [H|H]; [done|].
    apply Qle_bool_iff in H. congruence.
Qed.

Lemma Qle_bool_spec (x y : Q) : reflect (x <= y) (Qle_bool x y).
Proof.
  destruct (Qle_bool x y) eqn:E; constructor.
  - by apply Qle_bool_iff.
  - intros H. apply Qle_bool_iff in H. congruence.
Qed.

Lemma Qeq_bool_spec (x y : Q) : reflect (x == y) (Qeq_bool x y).
Proof.
  destruct (Qeq_bool x y) eqn:E; constructor.
  - by apply Qeq_bool_iff.
  - by apply Qeq_bool_neq.
Qed.

(** Split on every rational comparison the goal branches on. *)
Ltac qcases :=
  repeat match goal with
    | |- context [Py.Qltb ?x ?y] => destruct (Qltb_spec x y)
    | |- context [Qle_bool ?x ?y] => destruct (Qle_bool_spec x y)
    | |- context [Qeq_bool ?x ?y] => destruct (Qeq_bool_spec x y)
    end.

(** Division by a literal as a multiplication, which [lra] understands. *)
Ltac qdiv_lit :=
  unfold Qdiv in *;
  repeat match goal with
    | |- context [Qinv ?c] =>
        let c' := eval vm_compute in (Qinv c) in
        progress change (Qinv c) with c'
    | H : context [Qinv ?c] |- _ =>
        let c' := eval vm_compute in (Qinv c) in
        progress change (Qinv c) with c' in H
    end.

Ltac qlra := qdiv_lit; lra.


Lemma py_max_Qmax (a b : Q) : Py.max a b == Qmax a b.
Proof.
  unfold Py.max. destruct (Qltb_spec a b).
  - symmetry. apply Q.max_r. lra.
  - symmetry. apply Q.max_l. lra.
Qed.



Lemma py_min_le_l (a b : Q) : Py.min a b <= a.
Proof. unfold Py.min. qcases; lra. Qed.

Lemma py_min_le_r (a b : Q) : Py.min a b <= b.
Proof. unfold Py.min. qcases; lra. Qed.

Lemma py_max_ge_l (a b : Q) : a <= Py.max a b.
Proof. unfold Py.max. qcases; lra. Qed.

Lemma py_max_ge_r (a b : Q) : b <= Py.max a b.
Proof. unfold Py.max. qcases; lra. Qed.

Lemma py_min_spec (a b : Q) :
  (b < a ∧ Py.min a b == b) ∨ (a <= b ∧ Py.min a b == a).
Proof. unfold Py.min. qcases; [left | right]; split; lra. Qed.

Lemma py_max_spec (a b : Q) :
  (a < b ∧ Py.max a b == b) ∨ (b <= a ∧ Py.max a b == a).
Proof. unfold Py.max. qcases; [left | right]; split; lra. Qed.

(** Replace every [min] and [max] in the goal by its two cases. *)
Ltac qminmax_elim :=
  repeat match goal with
    | |- context [Py.min ?a ?b] =>
        let H := fresh "Hmin" in
        pose proof (py_min_spec a b) as H;
        generalize dependent (Py.min a b); intros
    | |- context [Py.max ?a ?b] =>
        let H := fresh "Hmax" in
        pose proof (py_max_spec a b) as H;
        generalize dependent (Py.max a b); intros
    | _ : context [Py.min ?a ?b] |- _ =>
        let H := fresh "Hmin" in
        pose proof (py_min_spec a b) as H;
        generalize dependent (Py.min a b); intros
    | _ : context [Py.max ?a ?b] |- _ =>
        let H := fresh "Hmax" in
        pose proof (py_max_spec a b) as H;
        generalize dependent (Py.max a b); intros
    end.

(** ** The attempt factor and the mastery bonus *)

Lemma attempt_factor_le_1 (normalized_score attempts : Q) :
  CoreRecommend.attempt_factor normalized_score attempts <= 1.
Proof.
  unfold CoreRecommend.attempt_factor, Py.max, Py.min. qcases; simpl; lra.
Qed.

Lemma attempt_factor_ge (normalized_score attempts : Q) :
  4 # 10 <= CoreRecommend.attempt_factor normalized_score attempts.
Proof.
  unfold CoreRecommend.attempt_factor, Py.max, Py.min. qcases; simpl; lra.
Qed.

Lemma attempt_factor_with_bonus (normalized_score attempts : Q) :
  85 # 100 < normalized_score → 3 <= attempts →
  CoreRecommend.attempt_factor normalized_score attempts <= 95 # 100.
Proof.
  intros Hn Ha.
  unfold CoreRecommend.attempt_factor, Py.max, Py.min. qcases; simpl; lra.
Qed.

(** ** Similarity *)




Lemma similarity_body_unfold (u1 u2 : pyval) (m1 m2 : list string) :
  Similarity.missing_fields Similarity.required_fields u1 = Ret m1 →
  Similarity.missing_fields Similarity.required_fields u2 = Ret m2 →
  Similarity.calculate_user_similarity_body u1 u2 =
    if negb (bool_decide (m1 = [])) || negb (bool_decide (m2 = [])) then Ret (1 # 10)
    else
      let* t := Similarity.abs_diff u1 "target" u2 "target" in
      let* l := Similarity.abs_diff u1 "averageListeningScore" u2 "averageReadingScore" in
      let* r := Similarity.abs_diff u1 "averageReadingScore" u2 "averageListeningScore" in
      let* tot := Similarity.abs_diff u1 "averageTotalScore" u2 "averageTotalScore" in
      Ret (similarity_of_diffs t l r tot).
Proof.
  intros H1 H2. unfold Similarity.calculate_user_similarity_body.
  rewrite H1, H2. reflexivity.
Qed.














(** ** C1: the mastery bonus *)

(** C1 fails as stated: no record has an attempt factor above 1.  From 3
    attempts on, the penalty 0.15 per attempt outweighs the bonus 0.1 per
    attempt. *)
Lemma bonus_never_lifts_factor_above_one : ¬ bonus_lifts_factor_above_one.
Proof.
  intros (avg & att & Hn & Ha & Hf & _).
  pose proof (attempt_factor_with_bonus _ _ Hn Ha). lra.
Qed.

Lemma effective_score_in_unit (avg_score attempts : pyval) (e : Q) :
  (∀ q, Py.num_of avg_score = Some q → 0 <= q <= 990) →
  CoreRecommend.effective_score avg_score attempts = Ret e →
  0 <= e <= 1.
Proof.
  intros Hr. unfold CoreRecommend.effective_score, Py.as_num.
  destruct (Py.num_of avg_score) as [q|]; [|done].
  destruct (Py.num_of attempts) as [a|]; [|done]. simpl.
  intros [= <-]. specialize (Hr q eq_refl).
  pose proof (attempt_factor_le_1 (q / 990) a).
  pose proof (attempt_factor_ge (q / 990) a).
  generalize dependent (CoreRecommend.attempt_factor (q / 990) a). intros f Hf1 Hf2.
  qdiv_lit. nra.
Qed.

Lemma test_history_loop_in_unit (candidate_id : pyval) (h : list pyval) (e : Q) :
  Forall record_in_range h →
  CoreRecommend.test_history_loop candidate_id h = Ret (Some e) →
  0 <= e <= 1.
Proof.
  induction 1 as [|record h Hrec _ IH]; simpl; [done|].
  destruct record; try done.
  destruct (Py.eq _ _); [|done].
  destruct (CoreRecommend.effective_score _ _) as [e'|] eqn:He; [|done].
  simpl. intros [= <-]. by eapply effective_score_in_unit.
Qed.

Lemma build_user_data_map_in_range (users : list pyval)
    (m m' : list (pyval * gmap string pyval)) :
  Forall user_in_range users →
  Forall (λ kv, history_in_range kv.2) m →
  CoreRecommend.build_user_data_map users m = Ret m' →
  Forall (λ kv, history_in_range kv.2) m'.
Proof.
  intros Hu. revert m. induction Hu as [|user users Huser _ IH]; simpl; intros m Hm.
  - by intros [= <-].
  - destruct user; try by apply IH.
    destruct (d !! "userId") as [uid|]; [|by apply IH].
    destruct (Py.hashable uid); [|done].
    apply IH. by constructor.
Qed.

Lemma lookup_user_in_range (m : list (pyval * gmap string pyval)) (uid : pyval)
    (u : gmap string pyval) :
  Forall (λ kv, history_in_range kv.2) m →
  CoreRecommend.lookup_user m uid = Some u → history_in_range u.
Proof.
  induction 1 as [|[k v] m Hkv _ IH]; simpl; [done|].
  destruct (Py.eq k uid); [by intros [= <-] | done].
Qed.

Lemma interaction_test_in_unit (candidate_id : pyval) (u : gmap string pyval) (e : Q) :
  history_in_range u →
  CoreRecommend.interaction candidate_id "test" u = Ret (Some e) → 0 <= e <= 1.
Proof.
  unfold history_in_range, CoreRecommend.interaction. simpl.
  destruct (Py.dict_get u "testHistory" (VList [])); try done.
  apply test_history_loop_in_unit.
Qed.

Lemma neighbours_loop_in_range (candidate_id : pyval)
    (m : list (pyval * gmap string pyval)) (sims : list (pyval * Q))
    (score : Q) (count : nat) (score' : Q) (count' : nat) :
  Forall (λ kv, history_in_range kv.2) m →
  Forall (λ us, 0 <= us.2 <= 1) sims →
  0 <= score <= inject_Z (Z.of_nat count) →
  CoreRecommend.neighbours_loop candidate_id "test" m sims score count
    = Ret (score', count') →
  0 <= score' <= inject_Z (Z.of_nat count').
Proof.
  intros Hm Hs. revert score count.
  induction Hs as [|[uid sim] sims Hsim _ IH]; simpl; intros score count Hsc.
  - by intros [= <- <-].
  - unfold CoreRecommend.map_get. destruct (Py.hashable uid); [|done]. simpl.
    destruct (CoreRecommend.lookup_user m uid) as [u|] eqn:Hu; [|by apply IH].
    destruct (negb _); [by apply IH|].
    destruct (CoreRecommend.interaction candidate_id "test" u) as [[v|]|] eqn:Hi;
      simpl; [| by apply IH | done].
    apply IH.
    assert (0 <= v <= 1).
    { eapply interaction_test_in_unit; [|done]. by eapply lookup_user_in_range. }
    rewrite Nat2Z.inj_succ, <- Z.add_1_r, inject_Z_plus. simpl in *.
    change (inject_Z 1) with 1. nra.
Qed.

Lemma mean_in_unit (score c : Q) :
  0 <= score <= c → 0 <= score / Py.max 1 c <= 1.
Proof.
  intros [H0 Hc].
  assert (Hm : 0 < Py.max 1 c) by (pose proof (py_max_ge_l 1 c); lra).
  assert (Hs : score <= Py.max 1 c) by (pose proof (py_max_ge_r 1 c); lra).
  split.
  - apply Qle_shift_div_l; [done|]. lra.
  - apply Qle_shift_div_r; [done|]. lra.
Qed.

Lemma collaborative_test_score_in_unit (candidate_id : pyval) (sims : list (pyval * Q))
    (users : list pyval) (s : Q) :
  Forall (λ us, 0 <= us.2 <= 1) sims →
  Forall user_in_range users →
  CoreRecommend.get_collaborative_score candidate_id sims (VList users) "test" = Ret s →
  0 <= s <= 1.
Proof.
  intros Hs Hu. unfold CoreRecommend.get_collaborative_score.
  destruct (negb _ || negb _); [intros [= <-]; lra|].
  destruct (CoreRecommend.build_user_data_map users []) as [m|] eqn:Hm; [|done]. simpl.
  destruct (CoreRecommend.neighbours_loop _ _ _ _ _ _) as [[score count]|] eqn:Hl;
    [|done]. simpl.
  intros [= <-]. apply mean_in_unit.
  eapply neighbours_loop_in_range; [| done | | done].
  - eapply build_user_data_map_in_range; [done | constructor | done].
  - split; [apply Qle_refl | by vm_compute].
Qed.

(** C1, amended: with the mastery bonus added the attempt factor of a
    record is at most 1, and at most 0.95 when the bonus applies, so the
    effective score does not exceed a nonnegative normalized score; and
    with similarities in [0, 1] and average scores in [0, 990] the
    collaborative score of a test stays in [0, 1]. *)
Theorem mastery_bonus_keeps_scores_bounded :
  (∀ normalized_score attempts : Q,
     CoreRecommend.attempt_factor normalized_score attempts <= 1
     ∧ (85 # 100 < normalized_score → 3 <= attempts →
        CoreRecommend.attempt_factor normalized_score attempts <= 95 # 100)
     ∧ (0 <= normalized_score →
        normalized_score * CoreRecommend.attempt_factor normalized_score attempts
        <= normalized_score))
  ∧ (∀ (candidate_id : pyval) (sims : list (pyval * Q)) (users : list pyval) (s : Q),
       Forall (λ us, 0 <= us.2 <= 1) sims →
       Forall user_in_range users →
       CoreRecommend.get_collaborative_score candidate_id sims (VList users) "test"
         = Ret s →
       0 <= s <= 1).
Proof.
  split.
  - intros n a. split; [|split].
    + apply attempt_factor_le_1.
    + apply attempt_factor_with_bonus.
    + intros Hn. pose proof (attempt_factor_le_1 n a).
      generalize dependent (CoreRecommend.attempt_factor n a). intros. nra.
  - apply collaborative_test_score_in_unit.
Qed.

(** The best case for the bonus: the score is 0.95. *)
Lemma mastery_bonus_example :
  ∃ s, CoreRecommend.get_collaborative_score (VStr "t1") [(VStr "n1", 1)]
         (VList [master_neighbour]) "test" = Ret s
       ∧ s == 95 # 100 ∧ 0 <= s <= 1.
Proof.
  eexists. split; [vm_compute; reflexivity|]. split; [by vm_compute|].
  apply (proj2 mastery_bonus_keeps_scores_bounded (VStr "t1") [(VStr "n1", 1)]
           [master_neighbour]).
  - repeat constructor; simpl; lra.
  - constructor; [|constructor]. constructor; [|constructor].
    intros avg Havg. vm_compute in Havg. injection Havg as <-. split; by vm_compute.
  - vm_compute. reflexivity.
Defined.

(** ** C6: the cold-start test *)

(** C6 fails as stated: a profile whose [testHistory] has the wrong shape
    is malformed in the claim's sense, yet with three started lectures it
    is not a cold start.  The wrong shape only makes the history count as
    empty. *)
Lemma malformed_history_not_cold :
  three_lectures_null_history !! "testHistory" = Some VNone
  ∧ CoreRecommend.is_cold_start_user (VDict three_lectures_null_history) = false.
Proof. split; by vm_compute. Qed.

(** C6, amended: [is_cold_start_user] is true exactly when the profile is
    not a dict, or it has fewer than 2 history entries and fewer than 3
    started lectures, a field of the wrong shape counting as empty.  It
    is true for a profile with empty [testHistory] and [learningProgress]
    and for every non-dict profile. *)
Theorem is_cold_start_user_spec :
  (∀ p : pyval,
     CoreRecommend.is_cold_start_user p = true ↔
     ¬ is_dict p
     ∨ ∃ d, p = VDict d ∧ (history_length d < 2)%nat ∧ (progress_size d < 3)%nat)
  ∧ (∀ d : gmap string pyval,
       d !! "testHistory" = Some (VList []) →
       d !! "learningProgress" = Some (VDict ∅) →
       CoreRecommend.is_cold_start_user (VDict d) = true)
  ∧ (∀ p : pyval, ¬ is_dict p → CoreRecommend.is_cold_start_user p = true).
Proof.
  assert (Hd : ∀ d : gmap string pyval,
    CoreRecommend.is_cold_start_user (VDict d) = true ↔
    (history_length d < 2)%nat ∧ (progress_size d < 3)%nat).
  { intros d. unfold CoreRecommend.is_cold_start_user, history_length, progress_size,
      Py.dict_get.
    rewrite andb_true_iff, !bool_decide_eq_true.
    destruct (d !! "testHistory") as [[]|]; destruct (d !! "learningProgress") as [[]|];
      simpl; rewrite ?map_size_empty; done. }
  split; [|split].
  - intros p. destruct p;
      try (split; [intros _; left; by intros [? ?] | done]).
    rewrite Hd. split.
    + intros H. right. by exists d.
    + intros [Hn | (d' & [= <-] & H)]; [|done]. destruct Hn. by exists d.
  - intros d Hh Hp. apply Hd. unfold history_length, progress_size.
    rewrite Hh, Hp. simpl. rewrite map_size_empty. lia.
  - intros p Hp. destruct p; try done. destruct Hp. by eexists.
Qed.

(** ** C7: topic deficiency *)

Lemma topic_stats_loop_skip (topic : pyval) (pre rest : list pyval) (desired_rate : Q) :
  Forall (λ item, matches_topic topic item = false) pre →
  CoreRecommend.topic_stats_loop topic (pre ++ rest) desired_rate
  = CoreRecommend.topic_stats_loop topic rest desired_rate.
Proof.
  induction 1 as [|item pre Hitem _ IH]; simpl; [done|].
  destruct item; try done. simpl in Hitem. by rewrite Hitem.
Qed.

(** C7: the deficiency is exactly 0.5 when no entry of [topicStats]
    matches the topic (or [topicStats] is not a list) and when the first
    matching entry has no attempts (a total of 0, or below); when the
    first matching entry has a positive total it is
    [max(0, desired_rate - correct / total)].  The desired rate defaults
    to 0.8. *)
Theorem topic_deficiency_spec (topic : pyval) (desired_rate : Q) :
  (∀ topic_stats : pyval,
     (∀ items, topic_stats ≠ VList items) →
     CoreRecommend.get_topic_deficiency topic topic_stats desired_rate = Ret (1 # 2))
  ∧ (∀ items : list pyval,
       Forall (λ item, matches_topic topic item = false) items →
       CoreRecommend.get_topic_deficiency topic (VList items) desired_rate = Ret (1 # 2))
  ∧ (∀ (pre post : list pyval) (r : gmap string pyval) (correct incorrect : Q),
       Forall (λ item, matches_topic topic item = false) pre →
       matches_topic topic (VDict r) = true →
       Py.num_of (Py.dict_get r "totalCorrect" (VNum 0)) = Some correct →
       Py.num_of (Py.dict_get r "totalIncorrect" (VNum 0)) = Some incorrect →
       (correct + incorrect <= 0 →
        CoreRecommend.get_topic_deficiency topic (VList (pre ++ VDict r :: post))
          desired_rate = Ret (1 # 2))
       ∧ (0 < correct + incorrect →
          ∃ v, CoreRecommend.get_topic_deficiency topic (VList (pre ++ VDict r :: post))
                 desired_rate = Ret v
               ∧ v == Qmax 0 (desired_rate - correct / (correct + incorrect))))
  ∧ CoreRecommend.default_desired_rate == 8 # 10.
Proof.
  split; [|split; [|split]].
  - intros topic_stats H. destruct topic_stats; try done. by destruct (H l).
  - intros items H. simpl. rewrite <- (app_nil_r items).
    by rewrite topic_stats_loop_skip.
  - intros pre post r correct incorrect Hpre Hr Hc Hi. simpl.
    rewrite topic_stats_loop_skip by done. simpl. simpl in Hr. rewrite Hr.
    unfold Py.add, Py.as_num. rewrite Hc, Hi. simpl.
    destruct (Qltb_spec 0 (correct + incorrect)) as [Hpos|Hnpos].
    + split; [lra|]. intros _. unfold Py.div.
      destruct (Qeq_bool_spec (correct + incorrect) 0) as [Hz|_]; [lra|]. simpl.
      eexists. split; [done|]. apply py_max_Qmax.
    + split; [done|]. lra.
  - reflexivity.
Qed.

(** ** Sorting and slicing *)

Section SortFacts.
Context {A : Type} (key : A → Q).

Lemma insert_desc_perm (x : A) (l : list A) : Py.insert_desc key x l ≡ₚ x :: l.
Proof.
  induction l as [|y l IH]; simpl; [done|].
  destruct (Py.Qltb (key x) (key y)); [|done].
  rewrite IH. apply Permutation_swap.
Qed.

Lemma sort_desc_perm (l : list A) : Py.sort_desc key l ≡ₚ l.
Proof.
  induction l as [|x l IH]; simpl; [done|].
  by rewrite insert_desc_perm, IH.
Qed.

Lemma insert_desc_sorted (x : A) (l : list A) :
  StronglySorted (desc key) l → StronglySorted (desc key) (Py.insert_desc key x l).
Proof.
  induction 1 as [|y l Hl IH Hy]; simpl.
  - repeat constructor.
  - destruct (Qltb_spec (key x) (key y)) as [Hlt|Hge].
    + constructor; [done|].
      rewrite insert_desc_perm. constructor; [|done]. unfold desc. lra.
    + constructor; [by constructor|]. constructor.
      * unfold desc. lra.
      * eapply Forall_impl; [done|]. unfold desc. intros z Hz. lra.
Qed.

Lemma sort_desc_sorted (l : list A) : StronglySorted (desc key) (Py.sort_desc key l).
Proof.
  induction l as [|x l IH]; simpl; [constructor|]. by apply insert_desc_sorted.
Qed.

(** The sort is stable: it leaves alone a list whose keys are all equal. *)
Lemma sort_desc_constant (k : Q) (l : list A) :
  Forall (λ x, key x = k) l → Py.sort_desc key l = l.
Proof.
  induction 1 as [|x l Hx Hl IH]; simpl; [done|].
  rewrite IH. destruct Hl as [|y l Hy _]; simpl; [done|].
  rewrite Hx, Hy. by destruct (Qltb_spec k k) as [Hlt|_]; [lra|].
Qed.

Lemma slice_to_sublist (n : Z) (l : list A) : Py.slice_to n l `sublist_of` l.
Proof. unfold Py.slice_to. destruct (0 <=? n)%Z; apply sublist_take. Qed.

Lemma slice_to_length (n : Z) (l : list A) :
  (0 <= n)%Z → length (Py.slice_to n l) = Nat.min (Z.to_nat n) (length l).
Proof.
  intros Hn. unfold Py.slice_to.
  destruct (Z.leb_spec 0 n); [|lia]. apply length_take.
Qed.

Lemma slice_to_sorted (n : Z) (l : list A) :
  StronglySorted (desc key) l → StronglySorted (desc key) (Py.slice_to n l).
Proof.
  intros Hl. unfold Py.slice_to.
  destruct (0 <=? n)%Z.
  - rewrite <- (take_drop (Z.to_nat n) l) in Hl. by apply StronglySorted_app_1_l in Hl.
  - rewrite <- (take_drop (length l - Z.to_nat (- n)) l) in Hl.
    by apply StronglySorted_app_1_l in Hl.
Qed.

End SortFacts.

Lemma submseteq_NoDup {A : Type} (l1 l2 : list A) : NoDup l2 → l1 ⊆+ l2 → NoDup l1.
Proof.
  intros Hnd (k & Hk)%submseteq_Permutation. rewrite Hk in Hnd.
  by apply NoDup_app in Hnd as [? _].
Qed.

(** ** C4 and C10: [find_similar_users] *)

Lemma similarities_of_ids (target target_user_id : pyval) (users : list pyval) :
  (Similarity.similarities_of target target_user_id users).*1
  = eligible_ids target_user_id users.
Proof.
  induction users as [|p users IH]; csimpl; [done|].
  destruct p; csimpl; try done.
  unfold Py.dict_get. destruct (d !! "userId") as [uid|]; csimpl; [|done].
  destruct (Py.truthy uid); csimpl; [|done].
  destruct (Py.eq uid target_user_id); csimpl; [done|].
  destruct (Similarity.has_all_fields d); csimpl; [|done].
  by rewrite IH.
Qed.

Lemma eligible_ids_sublist (target_user_id : pyval) (users : list pyval) :
  eligible_ids target_user_id users `sublist_of` peer_ids users.
Proof.
  induction users as [|p users IH]; simpl; [done|].
  destruct p; simpl; try done.
  destruct (d !! "userId") as [uid|]; simpl; [|done].
  destruct (_ && _); [by constructor | by constructor].
Qed.

Lemma eligible_ids_not_target (target_user_id : pyval) (users : list pyval) :
  Forall (λ uid, Py.eq uid target_user_id = false) (eligible_ids target_user_id users).
Proof.
  induction users as [|p users IH]; simpl; [done|].
  destruct p; simpl; try done.
  destruct (d !! "userId") as [uid|]; simpl; [|done].
  destruct (Py.truthy uid); simpl; [|done].
  destruct (Py.eq uid target_user_id) eqn:E; simpl; [done|].
  destruct (Similarity.has_all_fields d); simpl; [|done].
  by constructor.
Qed.

(** What [find_similar_users] returns for a dict target with a truthy
    id and a list of peers. *)
Lemma find_similar_users_unfold (t : gmap string pyval) (users : list pyval) (n : Z) :
  Py.truthy (Py.dict_get t "userId" VNone) = true →
  Similarity.find_similar_users (VDict t) (VList users) n
  = Py.slice_to n (Py.sort_desc snd
      (Similarity.similarities_of (VDict t) (Py.dict_get t "userId" VNone) users)).
Proof. intros H. unfold Similarity.find_similar_users. by rewrite H. Qed.

(** The result is empty unless the target is a dict with a truthy id and
    the peers are a list. *)
Lemma find_similar_users_cases (target all_users : pyval) (n : Z) :
  Similarity.find_similar_users target all_users n = []
  ∨ ∃ t users, target = VDict t ∧ all_users = VList users
      ∧ Py.truthy (Py.dict_get t "userId" VNone) = true.
Proof.
  unfold Similarity.find_similar_users.
  destruct target; auto. destruct all_users; auto.
  destruct (Py.truthy _) eqn:E; simpl; [|auto].
  right. by eexists _, _.
Qed.

Lemma find_similar_users_ids (t : gmap string pyval) (users : list pyval) (n : Z) :
  Py.truthy (Py.dict_get t "userId" VNone) = true →
  (Similarity.find_similar_users (VDict t) (VList users) n).*1
  ⊆+ eligible_ids (Py.dict_get t "userId" VNone) users.
Proof.
  intros H. rewrite find_similar_users_unfold by done.
  rewrite <- (similarities_of_ids (VDict t)).
  apply fmap_submseteq.
  etrans; [apply sublist_submseteq, slice_to_sublist|].
  apply Permutation_submseteq, sort_desc_perm.
Qed.

Lemma calculate_user_similarity_range (user1 user2 : pyval) :
  0 <= Similarity.calculate_user_similarity user1 user2 <= 1.
Proof.
  unfold Similarity.calculate_user_similarity.
  destruct (Similarity.missing_fields Similarity.required_fields user1) as [m1|] eqn:H1;
    [|unfold Similarity.calculate_user_similarity_body; rewrite H1; simpl; lra].
  destruct (Similarity.missing_fields Similarity.required_fields user2) as [m2|] eqn:H2;
    [|unfold Similarity.calculate_user_similarity_body; rewrite H1, H2; simpl; lra].
  rewrite (similarity_body_unfold _ _ m1 m2) by done.
  destruct (_ || _); simpl; [lra|].
  repeat (destruct (Similarity.abs_diff _ _ _ _); simpl; [|lra]).
  unfold similarity_of_diffs. qminmax_elim. lra.
Qed.

Lemma similarities_of_range (target target_user_id : pyval) (users : list pyval) :
  Forall (λ us, 0 <= us.2 <= 1) (Similarity.similarities_of target target_user_id users).
Proof.
  induction users as [|p users IH]; simpl; [done|].
  destruct p; try done.
  destruct (_ || _); [done|]. destruct (negb _); [done|].
  constructor; [|done]. apply calculate_user_similarity_range.
Qed.

(** C4 fails as stated: the result is not deduplicated.  Two peer
    profiles with the same [userId] both appear in it. *)
Lemma find_similar_users_keeps_duplicates :
  (Similarity.find_similar_users (VDict uneven_profile) twin_peers 5).*1
  = [VStr "b"; VStr "b"]
  ∧ ¬ NoDup (Similarity.find_similar_users (VDict uneven_profile) twin_peers 5).*1.
Proof.
  assert (H : (Similarity.find_similar_users (VDict uneven_profile) twin_peers 5).*1
              = [VStr "b"; VStr "b"]) by (vm_compute; reflexivity).
  split; [done|]. rewrite H. intros Hnd. apply NoDup_cons in Hnd as [Hin _].
  apply Hin. by left.
Qed.

(** C4, amended: the result of [find_similar_users] is sorted descending
    by similarity, never contains an id equal to the target's, and for
    [n >= 0] has at most [n] entries.  Each peer profile contributes at
    most one entry, so the ids in the result are distinct whenever the
    ids of the peer profiles are; there is no deduplication beyond that. *)
Theorem find_similar_users_result (target all_users : pyval) (n : Z) :
  StronglySorted (λ a b, b.2 <= a.2) (Similarity.find_similar_users target all_users n)
  ∧ (∀ t, target = VDict t →
       Forall (λ us, Py.eq us.1 (Py.dict_get t "userId" VNone) = false)
         (Similarity.find_similar_users target all_users n))
  ∧ ((0 <= n)%Z →
     (length (Similarity.find_similar_users target all_users n) <= Z.to_nat n)%nat)
  ∧ (∀ users, all_users = VList users →
       (Similarity.find_similar_users target all_users n).*1 ⊆+ peer_ids users
       ∧ (NoDup (peer_ids users) →
          NoDup (Similarity.find_similar_users target all_users n).*1)).
Proof.
  destruct (find_similar_users_cases target all_users n)
    as [-> | (t & users & -> & -> & Hid)].
  { split; [constructor|]. split; [by intros; constructor|]. split; [simpl; lia|].
    intros users _. split; [apply submseteq_nil_l | intros _; constructor]. }
  assert (Hids : (Similarity.find_similar_users (VDict t) (VList users) n).*1
                 ⊆+ peer_ids users).
  { etrans; [by apply find_similar_users_ids|].
    apply sublist_submseteq, eligible_ids_sublist. }
  split; [|split; [|split]].
  - rewrite find_similar_users_unfold by done.
    apply (slice_to_sorted snd), sort_desc_sorted.
  - intros t' [= <-].
    pose proof (find_similar_users_ids t users n Hid) as Hsub.
    pose proof (eligible_ids_not_target (Py.dict_get t "userId" VNone) users) as Hall.
    rewrite Forall_forall in Hall. apply Forall_forall.
    intros us Hus. apply Hall. eapply elem_of_submseteq; [|done].
    by apply list_elem_of_fmap_2.
  - intros Hn. rewrite find_similar_users_unfold by done.
    rewrite slice_to_length by done. lia.
  - intros users' [= <-]. split; [done|]. intros Hnd. by eapply submseteq_NoDup.
Qed.

Lemma missing_fields_dict (fields : list string) (d : gmap string pyval) :
  ∃ m, Similarity.missing_fields fields (VDict d) = Ret m
       ∧ (m = [] ↔ forallb (Py.has_key d) fields = true).
Proof.
  induction fields as [|f fields (m & Hm & Hiff)]; simpl.
  - by exists [].
  - rewrite Hm. simpl. destruct (Py.has_key d f); simpl.
    + by exists m.
    + exists (f :: m). split; [done|]. split; done.
Qed.

(** A target that lacks a required field has similarity 0.1 with every
    peer that is a dict. *)
Lemma similarity_incomplete_target (t d : gmap string pyval) :
  Similarity.has_all_fields t = false →
  Similarity.calculate_user_similarity (VDict t) (VDict d) = 1 # 10.
Proof.
  intros Ht. unfold Similarity.calculate_user_similarity.
  destruct (missing_fields_dict Similarity.required_fields t) as (m1 & H1 & Hiff1).
  destruct (missing_fields_dict Similarity.required_fields d) as (m2 & H2 & _).
  rewrite (similarity_body_unfold _ _ m1 m2) by done.
  destruct (decide (m1 = [])) as [Hnil|Hne].
  - apply Hiff1 in Hnil. unfold Similarity.has_all_fields in Ht. congruence.
  - by rewrite (bool_decide_eq_false_2 _ Hne).
Qed.

Lemma similarities_of_incomplete_target (t : gmap string pyval) (target_user_id : pyval)
    (users : list pyval) :
  Similarity.has_all_fields t = false →
  Similarity.similarities_of (VDict t) target_user_id users
  = (λ uid, (uid, 1 # 10)) <$> eligible_ids target_user_id users.
Proof.
  intros Ht. induction users as [|p users IH]; csimpl; [done|].
  destruct p; csimpl; try done.
  unfold Py.dict_get. destruct (d !! "userId") as [uid|]; csimpl; [|done].
  destruct (Py.truthy uid); csimpl; [|done].
  destruct (Py.eq uid target_user_id); csimpl; [done|].
  destruct (Similarity.has_all_fields d); csimpl; [|done].
  by rewrite IH, similarity_incomplete_target.
Qed.

(** C10: when the target has a [userId] but lacks a required field, the
    search still runs: the result is the first [n] of the peers that have
    an id of their own other than the target's and all four required
    fields, in their input order, each with similarity exactly 0.1.  So
    for [n >= 0] it has [min n k] entries, where [k] is the number of such
    peers. *)
Theorem find_similar_users_incomplete_target (t : gmap string pyval) (users : list pyval)
    (n : Z) :
  Py.truthy (Py.dict_get t "userId" VNone) = true →
  Similarity.has_all_fields t = false →
  Similarity.find_similar_users (VDict t) (VList users) n
  = Py.slice_to n ((λ uid, (uid, 1 # 10))
                   <$> eligible_ids (Py.dict_get t "userId" VNone) users)
  ∧ ((0 <= n)%Z →
     length (Similarity.find_similar_users (VDict t) (VList users) n)
     = Nat.min (Z.to_nat n) (length (eligible_ids (Py.dict_get t "userId" VNone) users))).
Proof.
  intros Hid Ht.
  assert (Heq : Similarity.find_similar_users (VDict t) (VList users) n
    = Py.slice_to n ((λ uid, (uid, 1 # 10))
                     <$> eligible_ids (Py.dict_get t "userId" VNone) users)).
  { rewrite find_similar_users_unfold by done.
    rewrite similarities_of_incomplete_target by done.
    rewrite (sort_desc_constant snd (1 # 10)); [done|].
    apply Forall_fmap, Forall_true. done. }
  split; [done|]. intros Hn.
  by rewrite Heq, slice_to_length, length_fmap.
Qed.

Lemma find_similar_users_incomplete_target_witness :
  Similarity.find_similar_users (VDict incomplete_target) (VList some_peers) 2
  = [(VStr "b", 1 # 10); (VStr "c", 1 # 10)]
  ∧ length (Similarity.find_similar_users (VDict incomplete_target) (VList some_peers) 2)
    = 2%nat.
Proof.
  destruct (find_similar_users_incomplete_target incomplete_target some_peers 2)
    as [Heq Hlen]; [reflexivity | reflexivity |].
  split.
  - rewrite Heq. reflexivity.
  - rewrite Hlen by lia. reflexivity.
Defined.

(** ** C8: no matching neighbour *)

Lemma build_user_data_map_ok (users all : list pyval)
    (m : list (pyval * gmap string pyval)) :
  Forall hashable_id users →
  (∀ p, p ∈ users → p ∈ all) →
  map_from all m →
  ∃ m', CoreRecommend.build_user_data_map users m = Ret m' ∧ map_from all m'.
Proof.
  intros Hh. revert m. induction Hh as [|p users Hp _ IH]; simpl; intros m Hsub Hm.
  - by exists m.
  - assert (Hsub' : ∀ q, q ∈ users → q ∈ all).
    { intros q Hq. apply Hsub. by right. }
    destruct p; try by apply IH.
    destruct (d !! "userId") as [uid|] eqn:Huid; [|by apply IH].
    rewrite (Hp uid) by done.
    apply IH; [done|]. constructor; [|done]. split; [|done].
    apply Hsub. by left.
Qed.

Lemma lookup_user_from (all : list pyval) (m : list (pyval * gmap string pyval))
    (uid : pyval) (u : gmap string pyval) :
  map_from all m → CoreRecommend.lookup_user m uid = Some u →
  VDict u ∈ all ∧ same_user uid u.
Proof.
  induction 1 as [|[k v] m [Hin Hk] _ IH]; simpl; [done|].
  destruct (Py.eq k uid) eqn:E; [|done].
  intros [= <-]. split; [done|]. by exists k.
Qed.

Lemma neighbours_loop_no_match (candidate_id : pyval) (candidate_type : string)
    (all : list pyval) (m : list (pyval * gmap string pyval)) (sims : list (pyval * Q))
    (score : Q) (count : nat) :
  map_from all m →
  Forall (λ us, Py.hashable us.1 = true) sims →
  (∀ uid sim u, (uid, sim) ∈ sims → VDict u ∈ all → same_user uid u →
     CoreRecommend.interaction candidate_id candidate_type u = Ret None) →
  CoreRecommend.neighbours_loop candidate_id candidate_type m sims score count
  = Ret (score, count).
Proof.
  intros Hm Hs. induction Hs as [|[uid sim] sims Hu _ IH]; simpl; intros Hno; [done|].
  assert (IH' : CoreRecommend.neighbours_loop candidate_id candidate_type m sims score count
                = Ret (score, count)).
  { apply IH. intros uid' sim' u Hin. apply (Hno uid' sim' u). by right. }
  unfold CoreRecommend.map_get. simpl in Hu. rewrite Hu. simpl.
  destruct (CoreRecommend.lookup_user m uid) as [u|] eqn:Hl; [|done].
  destruct (negb _); [done|].
  destruct (lookup_user_from all m uid u Hm Hl) as [Hin Hsame].
  rewrite (Hno uid sim u); [done | by left | done | done].
Qed.

(** C8: when no neighbour has a matching interaction with the candidate,
    the collaborative score is returned and is 0: the sum 0 is divided by
    [max(1, 0)].  User ids are hashable values, as strings are.  If
    [all_users_data] is not a list, or the neighbour list or the candidate
    id is empty, the score is 0 as well. *)
Theorem collaborative_score_no_match (candidate_id : pyval) (sims : list (pyval * Q))
    (users : list pyval) (candidate_type : string) :
  Forall (λ us, Py.hashable us.1 = true) sims →
  Forall hashable_id users →
  (∀ uid sim u, (uid, sim) ∈ sims → VDict u ∈ users → same_user uid u →
     CoreRecommend.interaction candidate_id candidate_type u = Ret None) →
  ∃ s, CoreRecommend.get_collaborative_score candidate_id sims (VList users) candidate_type
       = Ret s ∧ s == 0.
Proof.
  intros Hs Hu Hno. unfold CoreRecommend.get_collaborative_score.
  destruct (negb _ || negb _); [by exists 0|].
  destruct (build_user_data_map_ok users users []) as (m & -> & Hm); [done..| |].
  { constructor. }
  simpl. rewrite (neighbours_loop_no_match _ _ users) by done. simpl.
  eexists. split; [done|]. by vm_compute.
Qed.

Lemma collaborative_score_degenerate (candidate_id all_users : pyval)
    (sims : list (pyval * Q)) (candidate_type : string) :
  sims = [] ∨ Py.truthy candidate_id = false ∨ (∀ users, all_users ≠ VList users) →
  CoreRecommend.get_collaborative_score candidate_id sims all_users candidate_type = Ret 0.
Proof.
  unfold CoreRecommend.get_collaborative_score. intros [-> | [-> | H]].
  - done.
  - by rewrite orb_true_r.
  - destruct (negb _ || negb _); [done|]. destruct all_users; try done.
    by destruct (H l).
Qed.

(** A neighbour's history without a record of the candidate test does not
    match it. *)
Lemma test_history_loop_no_match (candidate_id : pyval) (h : list pyval) :
  Forall (λ record, ∀ r, record = VDict r →
            Py.eq (CoreRecommend.test_id_of r) candidate_id = false) h →
  CoreRecommend.test_history_loop candidate_id h = Ret None.
Proof.
  induction 1 as [|record h Hr _ IH]; simpl; [done|].
  destruct record; try done. by rewrite (Hr d eq_refl).
Qed.

Lemma collaborative_score_no_match_witness :
  ∃ s, CoreRecommend.get_collaborative_score (VStr "t2") [(VStr "n1", 1)]
         (VList [master_neighbour]) "test" = Ret s ∧ s == 0.
Proof.
  apply collaborative_score_no_match.
  - by repeat constructor.
  - repeat constructor. intros k Hk. vm_compute in Hk. by injection Hk as <-.
  - intros uid sim u _ Hu _.
    apply list_elem_of_singleton in Hu. injection Hu as ->. reflexivity.
Defined.

(** ** C9: cold-start tests leave out the tests already taken *)

Lemma map_res_Forall2 {A B : Type} (f : A → res B) (l : list A) (l' : list B) :
  ColdStart.map_res f l = Ret l' → Forall2 (λ x y, f x = Ret y) l l'.
Proof.
  revert l'. induction l as [|x l IH]; simpl; intros l'.
  - intros [= <-]. constructor.
  - destruct (f x) as [y|] eqn:Hy; [|done]. simpl.
    destruct (ColdStart.map_res f l) as [ys|]; [|done]. simpl.
    intros [= <-]. constructor; [done|]. by apply IH.
Qed.

Lemma filter_res_Forall {A : Type} (f : A → res bool) (l l' : list A) :
  ColdStart.filter_res f l = Ret l' →
  Forall (λ x, f x = Ret true) l' ∧ l' `sublist_of` l.
Proof.
  revert l'. induction l as [|x l IH]; simpl; intros l'.
  - intros [= <-]. split; constructor.
  - destruct (f x) as [b|] eqn:Hb; [|done]. simpl.
    destruct (ColdStart.filter_res f l) as [ys|]; [|done]. simpl.
    destruct (IH ys eq_refl) as [Hall Hsub].
    intros [= <-]. destruct b.
    + split; [by constructor | by constructor].
    + split; [done | by constructor].
Qed.

Lemma score_test_id (test_candidates : list pyval) (target_difficulty : Q) (test : pyval)
    (rec : ColdStart.scored_test) :
  ColdStart.score_test test_candidates target_difficulty test = Ret rec →
  Py.item test "testId" = Ret (ColdStart.st_testId rec)
  ∧ ColdStart.st_id rec = ColdStart.st_testId rec.
Proof.
  unfold ColdStart.score_test.
  repeat match goal with
    | |- context [bind ?m _] => destruct m; simpl; [|done]
    end.
  by intros [= <-].
Qed.

Lemma completed_test_ids_taken (p : pyval) (completed : list pyval) :
  ColdStart.completed_test_ids_of p = Ret completed →
  ∀ tid, tid ∈ taken_ids p → tid ∈ completed.
Proof.
  unfold ColdStart.completed_test_ids_of, taken_ids, Py.get, Py.dict_get.
  destruct p; simpl; try (intros _ tid Htid; by apply elem_of_nil in Htid).
  destruct (d !! "testHistory") as [[]|]; simpl;
    try (intros _ tid Htid; by apply elem_of_nil in Htid).
  intros Hm%map_res_Forall2 tid Htid.
  induction Hm as [|item id items ids Hitem _ IH]; simpl in *; [done|].
  destruct item; simpl in *; try done.
  destruct (d0 !! "testId") as [v|] eqn:Hv; simpl in *; [|done].
  injection Hitem as <-.
  apply elem_of_cons in Htid as [-> | Htid]; [by left | right; by apply IH].
Qed.

Lemma in_list_false (x : pyval) (l : list pyval) :
  Py.in_list x l = false → ∀ e, e ∈ l → Py.eq e x = false.
Proof.
  unfold Py.in_list. induction l as [|y l IH]; simpl; intros H e He.
  - by apply elem_of_nil in He.
  - apply orb_false_iff in H as [Hy Hl].
    apply elem_of_cons in He as [-> | He]; [done | by apply IH].
Qed.

(** C9: no recommended cold-start test has the [testId] of an entry of
    the user's [testHistory], whatever the limit: the taken tests are
    removed from the candidates before any score is computed. *)
Theorem cold_start_tests_exclude_taken (user_profile : pyval) (test_candidates : list pyval)
    (limit : Z) (recs : list ColdStart.scored_test) :
  ColdStart.recommend_cold_start_tests user_profile test_candidates limit = Ret recs →
  ∀ rec tid, rec ∈ recs → tid ∈ taken_ids user_profile →
    Py.eq tid (ColdStart.st_testId rec) = false.
Proof.
  unfold ColdStart.recommend_cold_start_tests.
  destruct (ColdStart.completed_test_ids_of user_profile) as [completed|] eqn:Hc;
    [|done]. cbn [bind].
  destruct (ColdStart.filter_res _ test_candidates) as [available|] eqn:Ha; [|done].
  cbn [bind].
  destruct (Py.get user_profile "target" (VNum 500)) as [target|]; [|done]. cbn [bind].
  destruct (Py.as_num target) as [tq|]; [|done]. cbn [bind].
  destruct (Py.floordiv tq 100) as [td|]; [|done]. cbn [bind].
  destruct (ColdStart.map_res _ available) as [scored|] eqn:Hs; [|done]. cbn [bind].
  intros [= <-] rec tid Hrec Htid.
  apply filter_res_Forall in Ha as [Hav _].
  apply map_res_Forall2 in Hs.
  assert (Hin : rec ∈ scored).
  { eapply elem_of_submseteq; [done|].
    etrans; [apply sublist_submseteq, slice_to_sublist|].
    apply Permutation_submseteq, sort_desc_perm. }
  apply list_elem_of_lookup in Hin as [i Hi].
  destruct (Forall2_lookup_r _ _ _ _ _ Hs Hi) as (test & Htest & Hscore).
  apply score_test_id in Hscore as [Hid _].
  rewrite Forall_forall in Hav.
  specialize (Hav test (list_elem_of_lookup_2 _ _ _ Htest)). simpl in Hav.
  rewrite Hid in Hav. simpl in Hav. injection Hav as Hav.
  apply negb_true_iff in Hav.
  eapply in_list_false; [done|]. by eapply completed_test_ids_taken.
Qed.

Lemma cold_start_tests_exclude_taken_witness :
  ∃ recs, ColdStart.recommend_cold_start_tests one_test_profile test_catalogue 5 = Ret recs
          ∧ ColdStart.st_testId <$> recs = [VStr "t3"; VStr "t2"]
          ∧ Forall (λ rec, Py.eq (VStr "t1") (ColdStart.st_testId rec) = false) recs.
Proof.
  eexists. split; [vm_compute; reflexivity|]. split; [reflexivity|].
  apply Forall_forall. intros rec Hrec.
  apply (cold_start_tests_exclude_taken one_test_profile test_catalogue 5 _
           ltac:(vm_compute; reflexivity) rec (VStr "t1") Hrec).
  by left.
Defined.

(** ** C3: malformed profiles on the cold-start path *)

(** C3 does not hold of the code.  Each of these profiles is a cold start
    for [is_cold_start_user], which replaces the malformed field by an
    empty one, and each makes the cold-start path raise: a [testHistory]
    that is [None] cannot be iterated, a [learningProgress] that is a
    list has no [keys], and the empty profile has no [userId]. *)
Theorem cold_start_raises_on_malformed_profile :
  (CoreRecommend.is_cold_start_user null_history_profile = true
   ∧ ColdStart.recommend_cold_start_tests null_history_profile test_catalogue 5
     = Raise TypeError
   ∧ ColdStart.generate_cold_start_recommendations null_history_profile
       test_catalogue lecture_catalogue 5 = Raise TypeError)
  ∧ (CoreRecommend.is_cold_start_user list_progress_profile = true
     ∧ ColdStart.recommend_cold_start_lectures list_progress_profile lecture_catalogue 5
       = Raise AttributeError
     ∧ ColdStart.generate_cold_start_recommendations list_progress_profile
         test_catalogue lecture_catalogue 5 = Raise AttributeError)
  ∧ (CoreRecommend.is_cold_start_user (VDict ∅) = true
     ∧ ColdStart.generate_cold_start_recommendations (VDict ∅)
         test_catalogue lecture_catalogue 5 = Raise KeyError).
Proof. repeat split; by vm_compute. Qed.

(** On a well-formed new profile the cold-start path returns. *)
Lemma cold_start_returns_on_well_formed_profile :
  ∃ r, ColdStart.generate_cold_start_recommendations one_test_profile
         test_catalogue lecture_catalogue 5 = Ret r
       ∧ ColdStart.tr_testId <$> ColdStart.recommendedTests r = [VStr "t3"; VStr "t2"]
       ∧ ColdStart.lr_lectureId <$> ColdStart.recommendedLectures r
         = [VStr "l1"; VStr "l2"].
Proof. eexists. split; [vm_compute; reflexivity|]. split; reflexivity. Qed.


Lemma topic_deficiency_examples :
  CoreRecommend.get_topic_deficiency (VStr "listening") (VList some_topic_stats)
    CoreRecommend.default_desired_rate = Ret (1 # 2)
  ∧ CoreRecommend.get_topic_deficiency (VStr "vocabulary") (VList some_topic_stats)
      CoreRecommend.default_desired_rate = Ret (1 # 2)
  ∧ ∃ v, CoreRecommend.get_topic_deficiency (VStr "grammar") (VList some_topic_stats)
           CoreRecommend.default_desired_rate = Ret v
         ∧ v == 2 # 10.
Proof.
  split; [|split].
  - apply (topic_deficiency_spec (VStr "listening")). by repeat constructor.
  - apply (proj1 (proj2 (proj2 (topic_deficiency_spec (VStr "vocabulary")
             CoreRecommend.default_desired_rate))) [] _ _ 0 0); try done.
  - destruct (proj1 (proj2 (proj2 (topic_deficiency_spec (VStr "grammar")
               CoreRecommend.default_desired_rate)))
               [VDict (<["topicName" := VStr "vocabulary"]>
                        (<["totalCorrect" := VNum 0]> (<["totalIncorrect" := VNum 0]> ∅)))]
               [] (<["topicName" := VStr "grammar"]>
                    (<["totalCorrect" := VNum 6]> (<["totalIncorrect" := VNum 4]> ∅)))
               6 4) as [_ H]; try done.
    + by repeat constructor.
    + destruct H as (v & Hv & Heq); [done|].
      exists v. split; [done|]. rewrite Heq. by vm_compute.
Defined.

(** * Further properties of the code *)

(** ** Similarity *)

Lemma Forall_sublist_of {A : Type} (P : A → Prop) (l1 l2 : list A) :
  l1 `sublist_of` l2 → Forall P l2 → Forall P l1.
Proof.
  intros Hsub Hall. rewrite Forall_forall in Hall. apply Forall_forall.
  intros x Hx. apply Hall. by eapply elem_of_sublist.
Qed.

Lemma find_similar_users_range (target all_users : pyval) (n : Z) :
  Forall (λ us, 0 <= us.2 <= 1) (Similarity.find_similar_users target all_users n).
Proof.
  destruct (find_similar_users_cases target all_users n)
    as [-> | (t & users & -> & -> & Hid)]; [constructor|].
  rewrite find_similar_users_unfold by done.
  eapply Forall_sublist_of; [apply slice_to_sublist|].
  rewrite sort_desc_perm. apply similarities_of_range.
Qed.

(** X1: every similarity is in [0, 1]: for any two values whatever,
    profiles or not, and so for every pair [find_similar_users] returns. *)
Theorem similarity_in_unit_interval :
  (∀ user1 user2 : pyval,
     0 <= Similarity.calculate_user_similarity user1 user2 <= 1)
  ∧ (∀ (target all_users : pyval) (n : Z),
       Forall (λ us, 0 <= us.2 <= 1)
         (Similarity.find_similar_users target all_users n)).
Proof.
  split.
  - intros user1 user2.
    pose proof (calculate_user_similarity_range user1 user2) as [H0 H1]. by split.
  - intros target all_users n. apply find_similar_users_range.
Qed.



Lemma has_all_fields_missing (d : gmap string pyval) :
  Similarity.has_all_fields d = true →
  Similarity.missing_fields Similarity.required_fields (VDict d) = Ret [].
Proof.
  intros H. destruct (missing_fields_dict Similarity.required_fields d) as (m & Hm & Hiff).
  rewrite Hm. f_equal. by apply Hiff.
Qed.

Lemma abs_diff_raises_l (d1 d2 : gmap string pyval) (f g : string) :
  d1 !! f ≫= Py.num_of = None → Py.has_key d1 f = true →
  ∃ e, Similarity.abs_diff (VDict d1) f (VDict d2) g = Raise e.
Proof.
  intros Hn Hk. apply bool_decide_eq_true in Hk as [v Hv].
  unfold Similarity.abs_diff, Py.get, Py.dict_get, Py.sub, Py.as_num.
  rewrite Hv in Hn |- *. simpl in *. rewrite Hn. by eexists.
Qed.

Lemma abs_diff_raises_r (d1 d2 : gmap string pyval) (f g : string) :
  d2 !! g ≫= Py.num_of = None → Py.has_key d2 g = true →
  ∃ e, Similarity.abs_diff (VDict d1) f (VDict d2) g = Raise e.
Proof.
  intros Hn Hk. apply bool_decide_eq_true in Hk as [v Hv].
  unfold Similarity.abs_diff, Py.get, Py.dict_get, Py.sub, Py.as_num.
  rewrite Hv in Hn |- *. simpl in *. rewrite Hn.
  destruct (d1 !! f) as [w|]; simpl; [destruct (Py.num_of w)|]; simpl; by eexists.
Qed.

(** X3: when both profiles have all four required fields but one of the
    fields holds something that is not a number ([None], a string, ...),
    the subtraction raises inside the [try] and the similarity is 0. *)
Theorem similarity_malformed_field (d1 d2 : gmap string pyval) :
  Similarity.has_all_fields d1 = true →
  Similarity.has_all_fields d2 = true →
  malformed_field d1 ∨ malformed_field d2 →
  Similarity.calculate_user_similarity (VDict d1) (VDict d2) = 0.
Proof.
  intros H1 H2 Hbad. unfold Similarity.calculate_user_similarity.
  rewrite (similarity_body_unfold _ _ [] []) by by apply has_all_fields_missing.
  simpl.
  assert (Hk1 : ∀ f, f ∈ Similarity.required_fields → Py.has_key d1 f = true).
  { intros f Hf. unfold Similarity.has_all_fields in H1.
    rewrite forallb_forall in H1. apply H1. by apply list_elem_of_In. }
  assert (Hk2 : ∀ f, f ∈ Similarity.required_fields → Py.has_key d2 f = true).
  { intros f Hf. unfold Similarity.has_all_fields in H2.
    rewrite forallb_forall in H2. apply H2. by apply list_elem_of_In. }
  assert (Hraise : ∃ f g e, (f, g) ∈ [("target", "target");
                     ("averageListeningScore", "averageReadingScore");
                     ("averageReadingScore", "averageListeningScore");
                     ("averageTotalScore", "averageTotalScore")]%string
                   ∧ Similarity.abs_diff (VDict d1) f (VDict d2) g = Raise e).
  { destruct Hbad as [(f & Hf & Hn) | (g & Hg & Hn)].
    - pose proof (Hk1 f Hf) as Hk. unfold Similarity.required_fields in Hf.
      repeat (apply elem_of_cons in Hf as [-> | Hf]);
        [| | | | by apply elem_of_nil in Hf].
      + destruct (abs_diff_raises_l d1 d2 "target" "target" Hn Hk) as [e He].
        exists "target"%string, "target"%string, e. split; [|done]. by left.
      + destruct (abs_diff_raises_l d1 d2 "averageListeningScore"
                    "averageReadingScore" Hn Hk) as [e He].
        eexists _, _, e. split; [|done]. right. by left.
      + destruct (abs_diff_raises_l d1 d2 "averageReadingScore"
                    "averageListeningScore" Hn Hk) as [e He].
        eexists _, _, e. split; [|done]. right. right. by left.
      + destruct (abs_diff_raises_l d1 d2 "averageTotalScore"
                    "averageTotalScore" Hn Hk) as [e He].
        eexists _, _, e. split; [|done]. right. right. right. by left.
    - pose proof (Hk2 g Hg) as Hk. unfold Similarity.required_fields in Hg.
      repeat (apply elem_of_cons in Hg as [-> | Hg]);
        [| | | | by apply elem_of_nil in Hg].
      + destruct (abs_diff_raises_r d1 d2 "target" "target" Hn Hk) as [e He].
        eexists _, _, e. split; [|done]. by left.
      + destruct (abs_diff_raises_r d1 d2 "averageReadingScore"
                    "averageListeningScore" Hn Hk) as [e He].
        eexists _, _, e. split; [|done]. right. right. by left.
      + destruct (abs_diff_raises_r d1 d2 "averageListeningScore"
                    "averageReadingScore" Hn Hk) as [e He].
        eexists _, _, e. split; [|done]. right. by left.
      + destruct (abs_diff_raises_r d1 d2 "averageTotalScore"
                    "averageTotalScore" Hn Hk) as [e He].
        eexists _, _, e. split; [|done]. right. right. right. by left. }
  destruct Hraise as (f & g & e & Hin & He).
  repeat (apply elem_of_cons in Hin as [[= -> ->] | Hin]);
    [| | | | by apply elem_of_nil in Hin];
    repeat match goal with
      | |- context [bind (Similarity.abs_diff ?a ?b ?c ?d) _] =>
          destruct (Similarity.abs_diff a b c d) eqn:?; simpl; try done
      end; congruence.
Qed.

(** A profile whose target is [None]. *)
Lemma similarity_malformed_field_witness :
  Similarity.calculate_user_similarity
    (VDict (<["target" := VNone]> (profile_of "a" 600 300 250 550)))
    (VDict (profile_of "b" 700 200 350 500)) = 0.
Proof.
  apply similarity_malformed_field; [reflexivity | reflexivity |].
  left. exists "target"%string. split; [by left | reflexivity].
Defined.

(** X4: when either profile lacks one of the four required fields the
    similarity is exactly 0.1, whatever the other fields hold. *)
Theorem similarity_missing_field (d1 d2 : gmap string pyval) :
  Similarity.has_all_fields d1 = false ∨ Similarity.has_all_fields d2 = false →
  Similarity.calculate_user_similarity (VDict d1) (VDict d2) = 1 # 10.
Proof.
  intros H. unfold Similarity.calculate_user_similarity.
  destruct (missing_fields_dict Similarity.required_fields d1) as (m1 & H1 & Hiff1).
  destruct (missing_fields_dict Similarity.required_fields d2) as (m2 & H2 & Hiff2).
  rewrite (similarity_body_unfold _ _ m1 m2) by done.
  unfold Similarity.has_all_fields in H.
  destruct (decide (m1 = [])) as [Hm1|Hm1]; destruct (decide (m2 = [])) as [Hm2|Hm2].
  - apply Hiff1 in Hm1. apply Hiff2 in Hm2. destruct H; congruence.
  - by rewrite (bool_decide_eq_false_2 _ Hm2), orb_true_r.
  - by rewrite (bool_decide_eq_false_2 _ Hm1).
  - by rewrite (bool_decide_eq_false_2 _ Hm1).
Qed.

Lemma similarity_missing_field_witness :
  Similarity.calculate_user_similarity (VDict (profile_of "b" 700 200 350 500))
    (VDict incomplete_target) = 1 # 10.
Proof.
  apply similarity_missing_field. right. reflexivity.
Defined.

Lemma sort_desc_length {A : Type} (key : A → Q) (l : list A) :
  length (Py.sort_desc key l) = length l.
Proof. by rewrite sort_desc_perm. Qed.



Section Stable.
Context {A : Type} (key : A → Q).

Lemma insert_desc_filter (k : Q) (x : A) (l : list A) :
  filter (λ y, Qeq_bool (key y) k = true) (Py.insert_desc key x l)
  = filter (λ y, Qeq_bool (key y) k = true) (x :: l).
Proof.
  induction l as [|y l IH]; simpl; [done|].
  destruct (Qltb_spec (key x) (key y)) as [Hlt|Hge]; [|done].
  rewrite (filter_cons _ y), IH, !filter_cons.
  destruct (Qeq_bool_spec (key x) k) as [Hx|Hx];
    destruct (Qeq_bool_spec (key y) k) as [Hy|Hy];
    repeat case_decide; try done; lra.
Qed.

(** The sort is stable: the entries of any one key keep their order. *)
Lemma sort_desc_stable (k : Q) (l : list A) :
  filter (λ y, Qeq_bool (key y) k = true) (Py.sort_desc key l)
  = filter (λ y, Qeq_bool (key y) k = true) l.
Proof.
  induction l as [|x l IH]; simpl; [done|].
  by rewrite insert_desc_filter, !filter_cons, IH.
Qed.

End Stable.

Lemma filter_take_prefix {A : Type} (P : A → Prop) `{!∀ x, Decision (P x)}
    (n : nat) (l : list A) :
  filter P (take n l) `prefix_of` filter P l.
Proof.
  rewrite <- (take_drop n l) at 2. rewrite filter_app. by apply prefix_app_r.
Qed.

(** X6: ties keep the input order.  For every score [s], the returned
    entries of similarity [s] are the first ones of that similarity among
    the entries computed, in the order of the peer list. *)
Theorem find_similar_users_stable (t : gmap string pyval) (users : list pyval)
    (n : Z) (s : Q) :
  Py.truthy (Py.dict_get t "userId" VNone) = true →
  filter (λ us, Qeq_bool us.2 s = true)
    (Similarity.find_similar_users (VDict t) (VList users) n)
  `prefix_of`
  filter (λ us, Qeq_bool us.2 s = true)
    (Similarity.similarities_of (VDict t) (Py.dict_get t "userId" VNone) users).
Proof.
  intros Hid. rewrite find_similar_users_unfold by done.
  rewrite <- (sort_desc_stable snd s (Similarity.similarities_of _ _ _)).
  unfold Py.slice_to. destruct (0 <=? n)%Z; apply filter_take_prefix.
Qed.

Lemma find_similar_users_stable_witness :
  (Similarity.find_similar_users (VDict uneven_profile) (VList some_peers) 2).*1
  = [VStr "c"; VStr "b"]
  ∧ filter (λ us, Qeq_bool us.2 1 = true)
      (Similarity.find_similar_users (VDict uneven_profile) (VList some_peers) 2)
    `prefix_of`
    filter (λ us, Qeq_bool us.2 1 = true)
      (Similarity.similarities_of (VDict uneven_profile) (VStr "a") some_peers).
Proof.
  split; [reflexivity|].
  apply (find_similar_users_stable uneven_profile some_peers 2 1). reflexivity.
Defined.

(** ** Topic deficiency and the collaborative score *)

Lemma topic_stats_loop_bounds (topic : pyval) (items : list pyval) (desired_rate : Q) :
  topic_stats_well_formed (VList items) →
  ∃ v, CoreRecommend.topic_stats_loop topic items desired_rate = Ret v
       ∧ 0 <= v <= Qmax (1 # 2) desired_rate.
Proof.
  simpl. induction 1 as [|item items Hitem _ IH]; simpl.
  - exists (1 # 2). split; [done|]. split; [lra|]. apply Q.le_max_l.
  - destruct item; try done.
    destruct (Py.eq _ topic); [|done].
    destruct Hitem as (c & i & Hc & Hi & Hc0 & Hi0).
    unfold Py.add, Py.as_num. rewrite Hc, Hi. simpl.
    destruct (Qltb_spec 0 (c + i)) as [Hpos|_].
    + unfold Py.div. destruct (Qeq_bool_spec (c + i) 0) as [Hz|_]; [lra|]. simpl.
      eexists. split; [done|].
      assert (0 <= c / (c + i)) by (apply Qle_shift_div_l; lra).
      pose proof (Q.le_max_r (1 # 2) desired_rate).
      pose proof (Q.le_max_l (1 # 2) desired_rate).
      generalize dependent (Qmax (1 # 2) desired_rate).
      generalize dependent (c / (c + i)). intros rate Hrate bound Hbound Hhalf.
      qminmax_elim. lra.
    + exists (1 # 2). split; [done|]. split; [lra|]. apply Q.le_max_l.
Qed.

(** X7: when every entry of the topic statistics has numeric totals with
    no negative count, [get_topic_deficiency] returns, and its value is
    between 0 and the larger of 0.5 and the desired rate (0.8 by default):
    a topic never counts for more than that. *)
Theorem topic_deficiency_bounds (topic topic_stats : pyval) (desired_rate : Q) :
  topic_stats_well_formed topic_stats →
  ∃ v, CoreRecommend.get_topic_deficiency topic topic_stats desired_rate = Ret v
       ∧ 0 <= v <= Qmax (1 # 2) desired_rate.
Proof.
  intros Hwf. destruct topic_stats;
    try (exists (1 # 2); split; [done|]; split; [lra | apply Q.le_max_l]).
  by apply topic_stats_loop_bounds.
Qed.

Lemma topic_deficiency_bounds_witness :
  ∃ v, CoreRecommend.get_topic_deficiency (VStr "grammar") (VList some_topic_stats)
         CoreRecommend.default_desired_rate = Ret v
       ∧ 0 <= v <= Qmax (1 # 2) CoreRecommend.default_desired_rate.
Proof.
  apply topic_deficiency_bounds. simpl.
  repeat constructor; [exists 0, 0 | exists 6, 4];
    repeat split; try reflexivity; lra.
Defined.

(** X8: the effective score of a matching test record.  With numeric
    score and attempt count it is returned; up to two attempts it is the
    normalized score [avg / 990], and for a nonnegative score it always
    lies between 0.4 times the normalized score and the normalized score.
    If the score or the attempt count is not a number it raises
    [TypeError]. *)
Theorem effective_score_spec (avg_score attempts : pyval) :
  (∀ avg att : Q,
     Py.num_of avg_score = Some avg → Py.num_of attempts = Some att →
     ∃ e, CoreRecommend.effective_score avg_score attempts = Ret e
          ∧ (att <= 2 → e == avg / 990)
          ∧ (0 <= avg → (4 # 10) * (avg / 990) <= e <= avg / 990))
  ∧ (Py.num_of avg_score = None ∨ Py.num_of attempts = None →
     CoreRecommend.effective_score avg_score attempts = Raise TypeError).
Proof.
  unfold CoreRecommend.effective_score, Py.as_num. split.
  - intros avg att -> ->. simpl. eexists. split; [done|]. split.
    + intros Ha. unfold CoreRecommend.attempt_factor.
      destruct (Qle_bool_spec att 2) as [_|Hn]; [|lra].
      destruct (Qle_bool_spec 3 att) as [H3|_]; [lra|].
      rewrite andb_false_r. lra.
    + intros H0. pose proof (attempt_factor_le_1 (avg / 990) att).
      pose proof (attempt_factor_ge (avg / 990) att).
      generalize dependent (CoreRecommend.attempt_factor (avg / 990) att).
      intros f Hf1 Hf2. qdiv_lit. nra.
  - intros [-> | Hatt]; [done|]. rewrite Hatt.
    by destruct (Py.num_of avg_score).
Qed.

Lemma effective_score_spec_witness :
  ∃ e, CoreRecommend.effective_score (VNum 495) (VNum 2) = Ret e ∧ e == 1 # 2.
Proof.
  destruct (proj1 (effective_score_spec (VNum 495) (VNum 2)) 495 2 eq_refl eq_refl)
    as (e & He & H2 & _).
  exists e. split; [done|]. rewrite H2 by lra. reflexivity.
Defined.

(** X9: only the first record of the candidate test in a neighbour's
    history counts.  The loop stops there: records after it are not read,
    whatever they hold. *)
Theorem first_test_record_wins (candidate_id : pyval) (pre post : list pyval)
    (r : gmap string pyval) :
  Forall (λ record, ∀ r', record = VDict r' →
            Py.eq (CoreRecommend.test_id_of r') candidate_id = false) pre →
  Py.eq (CoreRecommend.test_id_of r) candidate_id = true →
  CoreRecommend.test_history_loop candidate_id (pre ++ VDict r :: post)
  = (let* e := CoreRecommend.effective_score (CoreRecommend.avg_score_of r)
                 (CoreRecommend.attempts_of r) in
     Ret (Some e)).
Proof.
  intros Hpre Hr. induction Hpre as [|record pre Hrec _ IH]; simpl.
  - by rewrite Hr.
  - destruct record; try done. by rewrite (Hrec d eq_refl).
Qed.

Lemma first_test_record_wins_witness :
  CoreRecommend.test_history_loop (VStr "t1")
    ([VNone; VDict (<["testId" := VStr "t0"]> ∅)]
     ++ VDict (<["testId" := VStr "t1"]> (<["avgScore" := VNum 990]> ∅))
     :: [VDict (<["testId" := VStr "t1"]> (<["avgScore" := VNone]> ∅))])
  = Ret (Some (990 / 990 * CoreRecommend.attempt_factor (990 / 990) 0)).
Proof.
  rewrite first_test_record_wins; [reflexivity | | reflexivity].
  repeat constructor; [done|]. by intros r' [= <-].
Defined.

Lemma build_user_data_map_lookup (users : list pyval)
    (m m' : list (pyval * gmap string pyval)) (uid : pyval) :
  no_profile_of uid users →
  CoreRecommend.build_user_data_map users m = Ret m' →
  CoreRecommend.lookup_user m' uid = CoreRecommend.lookup_user m uid.
Proof.
  intros Hno. revert m. induction Hno as [|p users Hp _ IH]; simpl; intros m.
  - by intros [= <-].
  - destruct p; try by apply IH.
    destruct (d !! "userId") as [k|] eqn:Hk; [|by apply IH].
    destruct (Py.hashable k); [|done].
    intros Hb. rewrite (IH _ Hb). simpl. by rewrite (Hp k eq_refl).
Qed.

Lemma build_user_data_map_app (l1 l2 : list pyval)
    (m : list (pyval * gmap string pyval)) :
  CoreRecommend.build_user_data_map (l1 ++ l2) m
  = (let* m1 := CoreRecommend.build_user_data_map l1 m in
     CoreRecommend.build_user_data_map l2 m1).
Proof.
  revert m. induction l1 as [|p l1 IH]; simpl; intros m; [done|].
  destruct p; try done.
  destruct (d !! "userId"); [|done]. by destruct (Py.hashable p).
Qed.

(** X10: when [all_users_data] holds several profiles with one [userId],
    a neighbour's data is read from the last of them: each profile
    overwrites the entry of the profiles before it in the lookup map. *)
Theorem last_profile_wins (pre post : list pyval) (u : gmap string pyval)
    (k uid : pyval) (m : list (pyval * gmap string pyval)) :
  u !! "userId" = Some k → Py.eq k uid = true →
  no_profile_of uid post →
  CoreRecommend.build_user_data_map (pre ++ VDict u :: post) [] = Ret m →
  CoreRecommend.lookup_user m uid = Some u.
Proof.
  intros Hk Heq Hpost. rewrite build_user_data_map_app.
  destruct (CoreRecommend.build_user_data_map pre []) as [m1|]; [|done]. simpl.
  rewrite Hk. destruct (Py.hashable k); [|done].
  intros Hb. rewrite (build_user_data_map_lookup _ _ _ _ Hpost Hb). simpl.
  by rewrite Heq.
Qed.

Lemma last_profile_wins_witness :
  ∃ m, CoreRecommend.build_user_data_map
         ([VDict (profile_of "b" 700 200 350 500)]
          ++ VDict (profile_of "b" 600 250 300 550)
          :: [VDict (profile_of "c" 600 250 300 550)]) [] = Ret m
       ∧ CoreRecommend.lookup_user m (VStr "b") = Some (profile_of "b" 600 250 300 550).
Proof.
  eexists. split; [reflexivity|].
  apply (last_profile_wins [VDict (profile_of "b" 700 200 350 500)]
           [VDict (profile_of "c" 600 250 300 550)] _ (VStr "b")).
  - reflexivity.
  - reflexivity.
  - repeat constructor. intros k Hk. vm_compute in Hk. by injection Hk as <-.
  - reflexivity.
Defined.

Section CollaborativeBounds.
Context (P : gmap string pyval → Prop) (candidate_id : pyval) (candidate_type : string).
Hypothesis interaction_in_unit :
  ∀ u e, P u →
    CoreRecommend.interaction candidate_id candidate_type u = Ret (Some e) →
    0 <= e <= 1.

Lemma build_user_data_map_all (users : list pyval)
    (m m' : list (pyval * gmap string pyval)) :
  all_profiles P users →
  Forall (λ kv, P kv.2) m →
  CoreRecommend.build_user_data_map users m = Ret m' →
  Forall (λ kv, P kv.2) m'.
Proof.
  intros Hu. revert m. induction Hu as [|user users Huser _ IH]; simpl; intros m Hm.
  - by intros [= <-].
  - destruct user; try by apply IH.
    destruct (d !! "userId") as [uid|]; [|by apply IH].
    destruct (Py.hashable uid); [|done].
    apply IH. by constructor.
Qed.

Lemma lookup_user_all (m : list (pyval * gmap string pyval)) (uid : pyval)
    (u : gmap string pyval) :
  Forall (λ kv, P kv.2) m → CoreRecommend.lookup_user m uid = Some u → P u.
Proof.
  induction 1 as [|[k v] m Hkv _ IH]; simpl; [done|].
  destruct (Py.eq k uid); [by intros [= <-] | done].
Qed.

Lemma neighbours_loop_in_unit (m : list (pyval * gmap string pyval))
    (sims : list (pyval * Q)) (score : Q) (count : nat) (score' : Q) (count' : nat) :
  Forall (λ kv, P kv.2) m →
  Forall (λ us, 0 <= us.2 <= 1) sims →
  0 <= score <= inject_Z (Z.of_nat count) →
  CoreRecommend.neighbours_loop candidate_id candidate_type m sims score count
    = Ret (score', count') →
  0 <= score' <= inject_Z (Z.of_nat count').
Proof.
  intros Hm Hs. revert score count.
  induction Hs as [|[uid sim] sims Hsim _ IH]; simpl; intros score count Hsc.
  - by intros [= <- <-].
  - unfold CoreRecommend.map_get. destruct (Py.hashable uid); [|done]. simpl.
    destruct (CoreRecommend.lookup_user m uid) as [u|] eqn:Hu; [|by apply IH].
    destruct (negb _); [by apply IH|].
    destruct (CoreRecommend.interaction candidate_id candidate_type u)
      as [[v|]|] eqn:Hi; simpl; [| by apply IH | done].
    apply IH.
    assert (0 <= v <= 1).
    { eapply interaction_in_unit; [|done]. by eapply lookup_user_all. }
    rewrite Nat2Z.inj_succ, <- Z.add_1_r, inject_Z_plus. simpl in *.
    change (inject_Z 1) with 1. nra.
Qed.

Lemma collaborative_score_in_unit (sims : list (pyval * Q)) (all_users_data : pyval)
    (s : Q) :
  Forall (λ us, 0 <= us.2 <= 1) sims →
  (∀ users, all_users_data = VList users → all_profiles P users) →
  CoreRecommend.get_collaborative_score candidate_id sims all_users_data candidate_type
    = Ret s →
  0 <= s <= 1.
Proof.
  intros Hs Hu. unfold CoreRecommend.get_collaborative_score.
  destruct (negb _ || negb _); [intros [= <-]; lra|].
  destruct all_users_data as [| | | |users|]; try (intros [= <-]; lra).
  destruct (CoreRecommend.build_user_data_map users []) as [m|] eqn:Hm; [|done]. simpl.
  destruct (CoreRecommend.neighbours_loop _ _ _ _ _ _) as [[score count]|] eqn:Hl;
    [|done]. simpl.
  intros [= <-]. apply mean_in_unit.
  eapply neighbours_loop_in_unit; [| done | | done].
  - eapply build_user_data_map_all; [by apply Hu | constructor | done].
  - split; [apply Qle_refl | by vm_compute].
Qed.

End CollaborativeBounds.

Lemma items_loop_found (candidate_id : pyval) (items : list pyval) (v : pyval) :
  CoreRecommend.items_loop candidate_id items = Ret (Some v) →
  ∃ r k, VDict r ∈ items ∧ r !! k = Some v.
Proof.
  induction items as [|item items IH]; simpl; [done|].
  destruct item; try (intros H; destruct (IH H) as (r & k & Hin & Hk);
                      exists r, k; split; [by right | done]).
  destruct candidate_id; simpl; try done;
    try (intros H; destruct (IH H) as (r & k & Hin & Hk);
         exists r, k; split; [by right | done]).
  unfold Py.has_key. case_bool_decide as Hs.
  - destruct Hs as [w Hw]. rewrite Hw. simpl. intros [= <-].
    exists d, s. split; [by left | done].
  - intros H; destruct (IH H) as (r & k & Hin & Hk).
    exists r, k; split; [by right | done].
Qed.

Lemma items_loop_strings (candidate_id : pyval) (items : list pyval) :
  Forall (λ x, ∃ a, x = VStr a) items →
  CoreRecommend.items_loop candidate_id items = Ret None.
Proof. induction 1 as [|x items [a ->] _ IH]; simpl; done. Qed.

Lemma chars_strings (s : string) : Forall (λ x, ∃ a, x = VStr a) (Py.chars s).
Proof. induction s; simpl; constructor; eauto. Qed.

Lemma progress_data_ok (candidate_id : pyval) (lp : gmap string pyval) (v : pyval) :
  (∀ k w, lp !! k = Some w → progress_value_ok w) →
  (∀ items, lp !! "items" = Some (VList items) →
     Forall (λ item, match item with
                     | VDict r => ∀ k w, r !! k = Some w → progress_value_ok w
                     | _ => True
                     end) items) →
  CoreRecommend.progress_data_of candidate_id lp = Ret (Some v) →
  progress_value_ok v.
Proof.
  intros Hdirect Hitems. unfold CoreRecommend.progress_data_of.
  destruct (Py.in_dict candidate_id lp) as [direct|] eqn:Hin; [|done]. simpl.
  destruct direct.
  - destruct candidate_id; simpl in *; try done.
    destruct (lp !! s) as [w|] eqn:Hw; [|done]. simpl. intros [= <-]. by eapply Hdirect.
  - unfold Py.dict_get. destruct (lp !! "items") as [its|] eqn:Hits; simpl; [|done].
    destruct its; simpl; try done.
    + by rewrite items_loop_strings by apply chars_strings.
    + intros (r & k & Hr & Hk)%items_loop_found.
      specialize (Hitems l eq_refl). rewrite Forall_forall in Hitems.
      by apply (Hitems _ Hr k v).
    + rewrite items_loop_strings; [done|].
      apply Forall_fmap, Forall_true. intros k. by eexists.
Qed.

Lemma completion_in_unit (v : pyval) (e : Q) :
  progress_value_ok v →
  CoreRecommend.completion_of (Some v) = Ret (Some e) → 0 <= e <= 1.
Proof.
  intros Hv. unfold CoreRecommend.completion_of.
  destruct (Py.truthy v); [|done]. unfold Py.as_num.
  destruct v; simpl in *; try done.
  - intros [= <-]. specialize (Hv _ eq_refl).
    generalize dependent (if b then 1 else 0). intros p Hp. qminmax_elim. qlra.
  - intros [= <-]. specialize (Hv _ eq_refl). qminmax_elim. qlra.
  - destruct (Py.num_of _) as [p|] eqn:Hp; [|done]. simpl. intros [= <-].
    specialize (Hv _ eq_refl). qminmax_elim. qlra.
Qed.

Lemma interaction_lecture_in_unit (candidate_id : pyval) (u : gmap string pyval) (e : Q) :
  progress_ok u →
  CoreRecommend.interaction candidate_id "lecture" u = Ret (Some e) → 0 <= e <= 1.
Proof.
  unfold progress_ok, CoreRecommend.interaction. simpl.
  destruct (Py.dict_get u "learningProgress" (VDict ∅)); try done.
  intros [Hdirect Hitems].
  destruct (CoreRecommend.progress_data_of candidate_id d) as [[v|]|] eqn:Hpd; try done.
  simpl. apply completion_in_unit. by eapply progress_data_ok.
Qed.

(** X11: with similarities in [0, 1] and no negative percentage in the
    neighbours' progress, the collaborative score of a lecture is in
    [0, 1].  A percentage above 100 counts as 100. *)
Theorem collaborative_lecture_score_in_unit (candidate_id : pyval)
    (sims : list (pyval * Q)) (users : list pyval) (s : Q) :
  Forall (λ us, 0 <= us.2 <= 1) sims →
  all_profiles progress_ok users →
  CoreRecommend.get_collaborative_score candidate_id sims (VList users) "lecture" = Ret s →
  0 <= s <= 1.
Proof.
  intros Hs Hu Hr.
  apply (collaborative_score_in_unit progress_ok candidate_id "lecture"
           (interaction_lecture_in_unit candidate_id) sims (VList users) s); try done.
  by intros users' [= <-].
Qed.

Lemma collaborative_lecture_score_in_unit_witness :
  ∃ s, CoreRecommend.get_collaborative_score (VStr "l1") [(VStr "n1", 1)]
         (VList [eager_neighbour]) "lecture" = Ret s
       ∧ s == 1 ∧ 0 <= s <= 1.
Proof.
  eexists. split; [vm_compute; reflexivity|]. split; [by vm_compute|].
  apply (collaborative_lecture_score_in_unit (VStr "l1") [(VStr "n1", 1)]
           [eager_neighbour]).
  - repeat constructor; simpl; lra.
  - constructor; [|constructor]. split.
    + intros k v Hk. apply lookup_insert_Some in Hk as [[_ <-] | [_ Hk]]; [|done].
      intros p Hp. vm_compute in Hp. injection Hp as <-. lra.
    + intros items Hi. by vm_compute in Hi.
  - vm_compute. reflexivity.
Defined.

(** ** [score_candidate] *)

Lemma score_candidate_inv (profile cand : gmap string pyval)
    (sims : list (pyval * Q)) (all_users_data : pyval) (candidate_type : string)
    (margin weight_topic weight_collab s : Q) :
  Py.truthy (Hybrid.candidate_id_of cand candidate_type) = true →
  Hybrid.score_candidate (VDict profile) (VDict cand) sims all_users_data candidate_type
    margin weight_topic weight_collab = Ret s →
  ∃ target total base content collab,
    Py.num_of (Py.dict_get profile "target" (VNum 500)) = Some target
    ∧ Hybrid.total_deficiency_of profile cand = Ret total
    ∧ Hybrid.base_difficulty_of profile (target + margin) = Ret base
    ∧ Hybrid.content_score_of cand candidate_type base total = Ret content
    ∧ CoreRecommend.get_collaborative_score (Hybrid.candidate_id_of cand candidate_type)
        sims all_users_data candidate_type = Ret collab
    ∧ ¬ weight_topic + weight_collab == 0
    ∧ s = (weight_topic * content + weight_collab * collab)
          / (weight_topic + weight_collab).
Proof.
  intros Hid. unfold Hybrid.score_candidate, Py.as_num.
  destruct (Py.num_of (Py.dict_get profile "target" (VNum 500))) as [target|] eqn:Ht;
    [|done].
  cbn [bind]. rewrite Hid. cbn [negb].
  destruct (Hybrid.total_deficiency_of profile cand) as [total|] eqn:Htd; [|done].
  cbn [bind].
  destruct (Hybrid.base_difficulty_of profile (target + margin)) as [base|] eqn:Hb;
    [|done].
  cbn [bind].
  destruct (Hybrid.content_score_of cand candidate_type base total) as [content|] eqn:Hc;
    [|done].
  cbn [bind].
  destruct (CoreRecommend.get_collaborative_score _ _ _ _) as [collab|] eqn:Hcol;
    [|done].
  cbn [bind]. unfold Py.div.
  destruct (Qeq_bool_spec (weight_topic + weight_collab) 0) as [Hz|Hnz]; [done|].
  intros [= <-]. by eexists target, total, base, content, collab.
Qed.

(** X12: [score_candidate] returns exactly 0 when the profile or the
    candidate is not a dict, and when the candidate has no id (neither the
    field of its type nor [id]) while the target is a number or absent.
    The target is read first: with a target that is not a number the
    call raises [TypeError] even for a candidate without an id. *)
Theorem score_candidate_zero (sims : list (pyval * Q)) (all_users_data : pyval)
    (candidate_type : string) (margin weight_topic weight_collab : Q) :
  (∀ user_profile candidate : pyval,
     ¬ is_dict user_profile ∨ ¬ is_dict candidate →
     Hybrid.score_candidate user_profile candidate sims all_users_data candidate_type
       margin weight_topic weight_collab = Ret 0)
  ∧ (∀ profile cand : gmap string pyval,
       Py.truthy (Hybrid.candidate_id_of cand candidate_type) = false →
       (is_Some (Py.num_of (Py.dict_get profile "target" (VNum 500))) →
        Hybrid.score_candidate (VDict profile) (VDict cand) sims all_users_data
          candidate_type margin weight_topic weight_collab = Ret 0)
       ∧ (Py.num_of (Py.dict_get profile "target" (VNum 500)) = None →
          Hybrid.score_candidate (VDict profile) (VDict cand) sims all_users_data
            candidate_type margin weight_topic weight_collab = Raise TypeError)).
Proof.
  split.
  - intros user_profile candidate [H|H].
    + destruct user_profile; try done. destruct H. by eexists.
    + destruct candidate; try by destruct user_profile. destruct H. by eexists.
  - intros profile cand Hid. unfold Hybrid.score_candidate, Py.as_num. split.
    + intros [target ->]. cbn [bind]. by rewrite Hid.
    + by intros ->.
Qed.



(** X14: when the two weights add up to 0, no candidate with an id gets a
    score: the weighted mean divides by their sum, and the call raises
    (a [ZeroDivisionError] when everything before the division went
    through). *)
Theorem score_candidate_zero_weights (profile cand : gmap string pyval)
    (sims : list (pyval * Q)) (all_users_data : pyval) (candidate_type : string)
    (margin weight_topic weight_collab : Q) :
  weight_topic + weight_collab == 0 →
  Py.truthy (Hybrid.candidate_id_of cand candidate_type) = true →
  ∃ e, Hybrid.score_candidate (VDict profile) (VDict cand) sims all_users_data
         candidate_type margin weight_topic weight_collab = Raise e.
Proof.
  intros Hz Hid.
  destruct (Hybrid.score_candidate _ _ _ _ _ _ _ _) as [s|e] eqn:Hs; [|by exists e].
  apply score_candidate_inv in Hs as (? & ? & ? & ? & ? & _ & _ & _ & _ & _ & Hw & _);
    done.
Qed.

Lemma score_candidate_zero_weights_witness :
  Hybrid.score_candidate (VDict learner_profile) (VDict (grammar_test "t1" 650))
    [] (VList []) "test" 50 0 0 = Raise ZeroDivisionError.
Proof.
  destruct (score_candidate_zero_weights learner_profile (grammar_test "t1" 650)
              [] (VList []) "test" 50 0 0) as [e He]; [reflexivity | reflexivity |].
  rewrite He. vm_compute in He. by injection He as <-.
Defined.








Lemma content_score_test (cand : gmap string pyval) (base : pyval) (total d b : Q) :
  cand !! "difficulty" ≫= Py.num_of = Some d →
  Py.num_of base = Some b →
  Hybrid.content_score_of cand "test" base total
  = Ret ((Py.max 0 ((Hybrid.max_diff - Qabs (d - b)) / Hybrid.max_diff)
          + total / Py.max 1 (Hybrid.topic_count_of cand * (8 # 10))) / 2).
Proof.
  intros Hd Hb. unfold Hybrid.content_score_of, Py.has_key, Py.item, Py.sub, Py.as_num.
  destruct (cand !! "difficulty") as [v|] eqn:Hv; [|done]. simpl in Hd.
  rewrite bool_decide_eq_true_2 by by eexists.
  simpl. by rewrite Hd, Hb.
Qed.

(** X16: of two test candidates with the same topics and the same
    collaborative score, the one whose difficulty is closer to the base
    difficulty (the user's average when it is below the target, else
    target plus margin) does not score lower. *)
Theorem closer_difficulty_scores_no_lower (profile c1 c2 : gmap string pyval)
    (sims : list (pyval * Q)) (all_users_data base : pyval)
    (margin weight_topic weight_collab target d1 d2 b s1 s2 : Q) :
  0 <= weight_topic → 0 <= weight_collab →
  Py.dict_get c1 "topics" (VList []) = Py.dict_get c2 "topics" (VList []) →
  c1 !! "difficulty" ≫= Py.num_of = Some d1 →
  c2 !! "difficulty" ≫= Py.num_of = Some d2 →
  Py.truthy (Hybrid.candidate_id_of c1 "test") = true →
  Py.truthy (Hybrid.candidate_id_of c2 "test") = true →
  CoreRecommend.get_collaborative_score (Hybrid.candidate_id_of c1 "test") sims
    all_users_data "test"
  = CoreRecommend.get_collaborative_score (Hybrid.candidate_id_of c2 "test") sims
      all_users_data "test" →
  Py.num_of (Py.dict_get profile "target" (VNum 500)) = Some target →
  Hybrid.base_difficulty_of profile (target + margin) = Ret base →
  Py.num_of base = Some b →
  Qabs (d1 - b) <= Qabs (d2 - b) →
  Hybrid.score_candidate (VDict profile) (VDict c1) sims all_users_data "test"
    margin weight_topic weight_collab = Ret s1 →
  Hybrid.score_candidate (VDict profile) (VDict c2) sims all_users_data "test"
    margin weight_topic weight_collab = Ret s2 →
  s2 <= s1.
Proof.
  intros Hwt Hwc Htopics Hd1 Hd2 Hid1 Hid2 Hcol Htarget Hbase Hb Hgap.
  intros (t1 & total1 & base1 & content1 & collab1 & Ht1 & Htd1 & Hb1 & Hc1 & Hcol1
          & Hw & ->)%score_candidate_inv; [|done].
  intros (t2 & total2 & base2 & content2 & collab2 & Ht2 & Htd2 & Hb2 & Hc2 & Hcol2
          & _ & ->)%score_candidate_inv; [|done].
  assert (t1 = target) as -> by congruence.
  assert (t2 = target) as -> by congruence.
  assert (base1 = base) as -> by congruence.
  assert (base2 = base) as -> by congruence.
  assert (collab1 = collab2) as -> by congruence.
  assert (total1 = total2) as ->.
  { unfold Hybrid.total_deficiency_of in Htd1, Htd2. rewrite Htopics in Htd1. congruence. }
  rewrite (content_score_test c1 base total2 d1 b) in Hc1 by done.
  rewrite (content_score_test c2 base total2 d2 b) in Hc2 by done.
  injection Hc1 as <-. injection Hc2 as <-.
  assert (Hcount : Hybrid.topic_count_of c1 = Hybrid.topic_count_of c2).
  { unfold Hybrid.topic_count_of. by rewrite Htopics. }
  rewrite Hcount.
  generalize (total2 / Py.max 1 (Hybrid.topic_count_of c2 * (8 # 10))). intros ts.
  unfold Hybrid.max_diff.
  generalize dependent (Qabs (d1 - b)). intros g1.
  generalize dependent (Qabs (d2 - b)). intros g2 Hg.
  set (x1 := Py.max 0 ((100 - g1) / 100)). set (x2 := Py.max 0 ((100 - g2) / 100)).
  assert (Hx : x2 <= x1).
  { unfold x1, x2. qminmax_elim. qlra. }
  clearbody x1 x2.
  unfold Qdiv at 1 3. apply Qmult_le_compat_r; [|apply Qinv_le_0_compat; lra].
  qdiv_lit. nra.
Qed.

Lemma closer_difficulty_scores_no_lower_witness :
  ∃ s1 s2,
    Hybrid.score_candidate (VDict learner_profile) (VDict (grammar_test "t2" 650))
      [] (VList []) "test" 50 10 5 = Ret s1
    ∧ Hybrid.score_candidate (VDict learner_profile) (VDict (grammar_test "t3" 750))
        [] (VList []) "test" 50 10 5 = Ret s2
    ∧ s2 <= s1.
Proof.
  eexists _, _. split; [vm_compute; reflexivity|]. split; [vm_compute; reflexivity|].
  apply (closer_difficulty_scores_no_lower learner_profile (grammar_test "t2" 650)
           (grammar_test "t3" 750) [] (VList []) (VNum 650) 50 10 5 700 650 750 650);
    try reflexivity; try (by vm_compute).
Defined.

(** ** The cold-start recommenders *)


Lemma recommend_cold_start_tests_inv (user_profile : pyval)
    (test_candidates : list pyval) (limit : Z) (recs : list ColdStart.scored_test) :
  ColdStart.recommend_cold_start_tests user_profile test_candidates limit = Ret recs →
  ∃ available target_difficulty scored,
    available `sublist_of` test_candidates
    ∧ Forall2 (λ test rec,
                 ColdStart.score_test test_candidates target_difficulty test = Ret rec)
        available scored
    ∧ recs = Py.slice_to limit (Py.sort_desc ColdStart.st_score scored).
Proof.
  unfold ColdStart.recommend_cold_start_tests.
  destruct (ColdStart.completed_test_ids_of user_profile) as [completed|]; [|done].
  cbn [bind].
  destruct (ColdStart.filter_res _ test_candidates) as [available|] eqn:Ha; [|done].
  cbn [bind].
  destruct (Py.get user_profile "target" (VNum 500)) as [target|]; [|done]. cbn [bind].
  destruct (Py.as_num target) as [tq|]; [|done]. cbn [bind].
  destruct (Py.floordiv tq 100) as [td|]; [|done]. cbn [bind].
  destruct (ColdStart.map_res _ available) as [scored|] eqn:Hs; [|done]. cbn [bind].
  intros [= <-]. exists available, td, scored.
  apply filter_res_Forall in Ha as [_ Hsub]. apply map_res_Forall2 in Hs. done.
Qed.



Lemma recommend_cold_start_lectures_inv (user_profile : pyval)
    (lecture_candidates : list pyval) (limit : Z)
    (recs : list ColdStart.scored_lecture) :
  ColdStart.recommend_cold_start_lectures user_profile lecture_candidates limit
    = Ret recs →
  ∃ started available scored,
    ColdStart.started_lecture_ids_of user_profile = Ret started
    ∧ available `sublist_of` lecture_candidates
    ∧ Forall (λ lecture, ∃ lid, Py.item lecture "lectureId" = Ret lid
                               ∧ Py.in_list lid started = false) available
    ∧ Forall2 (λ lecture rec,
                 ∃ name topics,
                   Py.item lecture "lectureId" = Ret (ColdStart.sl_lectureId rec)
                   ∧ Py.item lecture "name" = Ret name
                   ∧ Py.item lecture "topics" = Ret topics
                   ∧ rec = {| ColdStart.sl_id := ColdStart.sl_lectureId rec;
                              ColdStart.sl_name := name;
                              ColdStart.sl_score := 1;
                              ColdStart.sl_already_learned := false;
                              ColdStart.sl_completion := 0;
                              ColdStart.sl_topics := topics;
                              ColdStart.sl_lectureId := ColdStart.sl_lectureId rec |})
        available scored
    ∧ recs = Py.slice_to limit scored.
Proof.
  unfold ColdStart.recommend_cold_start_lectures.
  destruct (ColdStart.started_lecture_ids_of user_profile) as [started|]; [|done].
  cbn [bind].
  destruct (ColdStart.filter_res _ lecture_candidates) as [available|] eqn:Ha; [|done].
  cbn [bind].
  destruct (ColdStart.map_res _ available) as [scored|] eqn:Hs; [|done]. cbn [bind].
  intros [= <-]. exists started, available, scored.
  apply filter_res_Forall in Ha as [Hav Hsub]. apply map_res_Forall2 in Hs.
  split; [done|]. split; [done|]. split; [|split; [|done]].
  - eapply Forall_impl; [done|]. intros lecture. simpl.
    destruct (Py.item lecture "lectureId") as [lid|]; [|done]. simpl.
    intros [= H]. exists lid. split; [done|]. by apply negb_true_iff.
  - eapply Forall2_impl; [done|]. intros lecture rec. simpl.
    destruct (Py.item lecture "lectureId") as [lid|]; [|done]. cbn [bind].
    destruct (Py.item lecture "name") as [name|]; [|done]. cbn [bind].
    destruct (Py.item lecture "topics") as [topics|]; [|done]. cbn [bind].
    intros [= <-]. by exists name, topics.
Qed.






Lemma foldl_max_ge (x : Q) (xs : list Q) :
  x <= foldl Py.max x xs ∧ Forall (λ y, y <= foldl Py.max x xs) xs.
Proof.
  revert x. induction xs as [|y xs IH]; intros x; simpl.
  - split; [lra | constructor].
  - destruct (IH (Py.max x y)) as [Hm Hall].
    pose proof (py_max_ge_l x y). pose proof (py_max_ge_r x y).
    split; [lra|]. constructor; [lra | done].
Qed.

Lemma max_attempts_of_ge (test_candidates : list pyval) (m : Q) (test v : pyval) (a : Q) :
  ColdStart.max_attempts_of test_candidates = Ret m →
  test ∈ test_candidates →
  Py.item test "totalUserAttempt" = Ret v → Py.num_of v = Some a →
  a <= m.
Proof.
  unfold ColdStart.max_attempts_of. intros Hm Hin Hv Ha.
  destruct test_candidates as [|t0 rest]; [by apply elem_of_nil in Hin|].
  destruct (ColdStart.map_res (λ t, Py.item t "totalUserAttempt") (t0 :: rest))
    as [attempts|] eqn:Hattempts; [|done]. cbn [bind] in Hm.
  destruct (ColdStart.map_res Py.as_num attempts) as [nums|] eqn:Hnums; [|done].
  cbn [bind] in Hm.
  apply map_res_Forall2 in Hattempts. apply map_res_Forall2 in Hnums.
  apply list_elem_of_lookup in Hin as [i Hi].
  destruct (Forall2_lookup_l _ _ _ _ _ Hattempts Hi) as (v' & Hv' & Hitem).
  assert (v' = v) as -> by congruence.
  destruct (Forall2_lookup_l _ _ _ _ _ Hnums Hv') as (a' & Ha' & Hnum).
  unfold Py.as_num in Hnum. rewrite Ha in Hnum. injection Hnum as <-.
  destruct nums as [|x xs]; [done|]. injection Hm as <-.
  destruct (foldl_max_ge x xs) as [Hx Hxs].
  destruct i; simpl in Ha'.
  - by injection Ha' as ->.
  - rewrite Forall_forall in Hxs. apply Hxs. by eapply list_elem_of_lookup_2.
Qed.

Lemma score_test_in_unit (test_candidates : list pyval) (target_difficulty : Q)
    (test : pyval) (rec : ColdStart.scored_test) :
  test ∈ test_candidates → attempts_nonneg test →
  ColdStart.score_test test_candidates target_difficulty test = Ret rec →
  0 <= ColdStart.st_score rec <= 1.
Proof.
  intros Hin Hnn. unfold ColdStart.score_test.
  destruct (ColdStart.max_attempts_of test_candidates) as [m|] eqn:Hm; [|done].
  cbn [bind].
  assert (Hpop : ∀ pop,
    (if Py.Qltb 0 m
     then let* a := Py.item test "totalUserAttempt" in
          let* a0 := Py.as_num a in Py.div a0 m
     else Ret 0) = Ret pop → 0 <= pop <= 1).
  { intros pop. destruct (Qltb_spec 0 m) as [Hpos|_]; [|intros [= <-]; lra].
    destruct (Py.item test "totalUserAttempt") as [v|] eqn:Hv; [|done]. cbn [bind].
    unfold Py.as_num. destruct (Py.num_of v) as [a|] eqn:Ha; [|done]. cbn [bind].
    unfold Py.div. destruct (Qeq_bool_spec m 0); [done|]. intros [= <-].
    pose proof (max_attempts_of_ge _ _ _ _ _ Hm Hin Hv Ha).
    pose proof (Hnn v a Hv Ha). split.
    - apply Qle_shift_div_l; lra.
    - apply Qle_shift_div_r; lra. }
  match goal with
  | |- context [bind ?m' _] => destruct m' as [pop|] eqn:Hp; [|done]
  end. cbn [bind].
  specialize (Hpop pop eq_refl).
  destruct (Py.item test "difficulty") as [difficulty|]; [|done]. cbn [bind].
  destruct (Py.sub difficulty _) as [d|]; [|done]. cbn [bind].
  destruct (Py.item test "testId") as [id|]; [|done]. cbn [bind].
  destruct (Py.item test "name") as [name|]; [|done]. cbn [bind].
  destruct (Py.item test "topics") as [topics|]; [|done]. cbn [bind].
  intros [= <-]. simpl.
  pose proof (Qabs_nonneg d). generalize dependent (Qabs d). intros gap Hgap.
  qminmax_elim. qlra.
Qed.

(** X19: when no test of the catalogue has a negative attempt count,
    every cold-start test score is in [0, 1]: the popularity is the
    attempt count over the largest one of the catalogue, the difficulty
    match is clamped, and the weights 0.7 and 0.3 add up to 1. *)
Theorem cold_start_test_scores_in_unit (user_profile : pyval)
    (test_candidates : list pyval) (limit : Z) (recs : list ColdStart.scored_test) :
  Forall attempts_nonneg test_candidates →
  ColdStart.recommend_cold_start_tests user_profile test_candidates limit = Ret recs →
  Forall (λ rec, 0 <= ColdStart.st_score rec <= 1) recs.
Proof.
  intros Hnn (available & td & scored & Hsub & Hscored & ->)
    %recommend_cold_start_tests_inv.
  eapply Forall_sublist_of; [apply slice_to_sublist|].
  rewrite sort_desc_perm. apply Forall_forall. intros rec Hrec.
  apply list_elem_of_lookup in Hrec as [i Hi].
  destruct (Forall2_lookup_r _ _ _ _ _ Hscored Hi) as (test & Htest & Hscore).
  assert (Hin : test ∈ test_candidates).
  { eapply elem_of_sublist; [|done]. by eapply list_elem_of_lookup_2. }
  eapply score_test_in_unit; [done | | done].
  rewrite Forall_forall in Hnn. by apply Hnn.
Qed.

Lemma cold_start_test_scores_in_unit_witness :
  ∃ recs, ColdStart.recommend_cold_start_tests one_test_profile test_catalogue 5 = Ret recs
          ∧ Forall (λ rec, 0 <= ColdStart.st_score rec <= 1) recs.
Proof.
  eexists. split; [vm_compute; reflexivity|].
  apply (cold_start_test_scores_in_unit one_test_profile test_catalogue 5).
  - repeat constructor; intros v a Hv Ha; vm_compute in Hv; injection Hv as <-;
      injection Ha as <-; by vm_compute.
  - vm_compute. reflexivity.
Defined.

(** *** No division by zero *)

Lemma no_zero_division_bind {A B : Type} (m : res A) (f : A → res B) :
  no_zero_division m → (∀ a, m = Ret a → no_zero_division (f a)) →
  no_zero_division (bind m f).
Proof.
  unfold no_zero_division. destruct m as [a|e]; simpl.
  - intros _ Hf. by apply Hf.
  - intros He _ [= ->]. by apply He.
Qed.

Lemma no_zero_division_map_res {A B : Type} (f : A → res B) (l : list A) :
  (∀ x, no_zero_division (f x)) → no_zero_division (ColdStart.map_res f l).
Proof.
  intros Hf. induction l as [|x l IH]; simpl; [done|].
  apply no_zero_division_bind; [apply Hf|]. intros y _.
  apply no_zero_division_bind; [apply IH|]. done.
Qed.

Lemma no_zero_division_filter_res {A : Type} (f : A → res bool) (l : list A) :
  (∀ x, no_zero_division (f x)) → no_zero_division (ColdStart.filter_res f l).
Proof.
  intros Hf. induction l as [|x l IH]; simpl; [done|].
  apply no_zero_division_bind; [apply Hf|]. intros y _.
  apply no_zero_division_bind; [apply IH|]. done.
Qed.

Lemma no_zero_division_item (v : pyval) (k : string) : no_zero_division (Py.item v k).
Proof. unfold Py.item. destruct v; try done. by destruct (d !! k). Qed.

Lemma no_zero_division_get (v : pyval) (k : string) (d : pyval) :
  no_zero_division (Py.get v k d).
Proof. by destruct v. Qed.

Lemma no_zero_division_as_num (v : pyval) : no_zero_division (Py.as_num v).
Proof. unfold Py.as_num. by destruct (Py.num_of v). Qed.

Lemma no_zero_division_sub (a b : pyval) : no_zero_division (Py.sub a b).
Proof.
  unfold Py.sub. apply no_zero_division_bind; [apply no_zero_division_as_num|].
  intros x _. apply no_zero_division_bind; [apply no_zero_division_as_num|]. done.
Qed.

Lemma no_zero_division_iter (v : pyval) : no_zero_division (Py.iter v).
Proof. by destruct v. Qed.

Lemma no_zero_division_max_attempts (test_candidates : list pyval) :
  no_zero_division (ColdStart.max_attempts_of test_candidates).
Proof.
  unfold ColdStart.max_attempts_of. destruct test_candidates as [|t rest]; [done|].
  apply no_zero_division_bind.
  { apply no_zero_division_map_res. intros x. apply no_zero_division_item. }
  intros attempts _. apply no_zero_division_bind.
  { apply no_zero_division_map_res, no_zero_division_as_num. }
  intros nums _. by destruct nums.
Qed.

Lemma no_zero_division_score_test (test_candidates : list pyval) (target_difficulty : Q)
    (test : pyval) :
  no_zero_division (ColdStart.score_test test_candidates target_difficulty test).
Proof.
  unfold ColdStart.score_test.
  apply no_zero_division_bind; [apply no_zero_division_max_attempts|]. intros m _.
  apply no_zero_division_bind.
  { destruct (Qltb_spec 0 m) as [Hpos|_]; [|done].
    apply no_zero_division_bind; [apply no_zero_division_item|]. intros v _.
    apply no_zero_division_bind; [apply no_zero_division_as_num|]. intros a _.
    unfold Py.div. by destruct (Qeq_bool_spec m 0); [lra|]. }
  intros pop _.
  apply no_zero_division_bind; [apply no_zero_division_item|]. intros difficulty _.
  apply no_zero_division_bind; [apply no_zero_division_sub|]. intros d _.
  apply no_zero_division_bind; [apply no_zero_division_item|]. intros id _.
  apply no_zero_division_bind; [apply no_zero_division_item|]. intros name _.
  apply no_zero_division_bind; [apply no_zero_division_item|]. intros topics _.
  done.
Qed.

Lemma no_zero_division_tests (user_profile : pyval) (test_candidates : list pyval)
    (limit : Z) :
  no_zero_division
    (ColdStart.recommend_cold_start_tests user_profile test_candidates limit).
Proof.
  unfold ColdStart.recommend_cold_start_tests.
  apply no_zero_division_bind.
  { unfold ColdStart.completed_test_ids_of.
    apply no_zero_division_bind; [apply no_zero_division_get|]. intros th _.
    apply no_zero_division_bind; [apply no_zero_division_iter|]. intros items _.
    apply no_zero_division_map_res. intros x. apply no_zero_division_item. }
  intros completed _. apply no_zero_division_bind.
  { apply no_zero_division_filter_res. intros x.
    apply no_zero_division_bind; [apply no_zero_division_item|]. done. }
  intros available _.
  apply no_zero_division_bind; [apply no_zero_division_get|]. intros target _.
  apply no_zero_division_bind; [apply no_zero_division_as_num|]. intros tq _.
  apply no_zero_division_bind; [by unfold Py.floordiv|]. intros td _.
  apply no_zero_division_bind.
  { apply no_zero_division_map_res. intros x. apply no_zero_division_score_test. }
  done.
Qed.

Lemma no_zero_division_lectures (user_profile : pyval) (lecture_candidates : list pyval)
    (limit : Z) :
  no_zero_division
    (ColdStart.recommend_cold_start_lectures user_profile lecture_candidates limit).
Proof.
  unfold ColdStart.recommend_cold_start_lectures.
  apply no_zero_division_bind.
  { unfold ColdStart.started_lecture_ids_of.
    apply no_zero_division_bind; [apply no_zero_division_get|]. intros lp _.
    by destruct lp. }
  intros started _. apply no_zero_division_bind.
  { apply no_zero_division_filter_res. intros x.
    apply no_zero_division_bind; [apply no_zero_division_item|]. done. }
  intros available _. apply no_zero_division_bind.
  { apply no_zero_division_map_res. intros x.
    apply no_zero_division_bind; [apply no_zero_division_item|]. intros id _.
    apply no_zero_division_bind; [apply no_zero_division_item|]. intros name _.
    apply no_zero_division_bind; [apply no_zero_division_item|]. done. }
  done.
Qed.

(** X20: the cold-start path never divides by zero, whatever the profile
    and the catalogues hold: the popularity is only divided by the
    largest attempt count when that is positive, and is 0 otherwise.  On a
    catalogue nobody has attempted the score is 0.3 times the difficulty
    match. *)
Theorem cold_start_never_divides_by_zero (user_profile : pyval)
    (test_candidates lecture_candidates : list pyval) (limit : Z) :
  no_zero_division
    (ColdStart.recommend_cold_start_tests user_profile test_candidates limit)
  ∧ no_zero_division
      (ColdStart.generate_cold_start_recommendations user_profile test_candidates
         lecture_candidates limit).
Proof.
  split; [apply no_zero_division_tests|].
  unfold ColdStart.generate_cold_start_recommendations.
  apply no_zero_division_bind; [apply no_zero_division_item|]. intros _ _.
  apply no_zero_division_bind; [apply no_zero_division_tests|]. intros tests _.
  apply no_zero_division_bind; [apply no_zero_division_lectures|]. intros lectures _.
  apply no_zero_division_bind.
  { apply no_zero_division_map_res. intros rec.
    apply no_zero_division_bind; [apply no_zero_division_get|]. intros target _.
    apply no_zero_division_bind; [apply no_zero_division_sub|]. done. }
  intros trecs _. apply no_zero_division_bind.
  { apply no_zero_division_map_res. intros rec.
    apply no_zero_division_bind.
    { unfold ColdStart.join_topics.
      apply no_zero_division_bind; [apply no_zero_division_iter|]. intros items _.
      apply no_zero_division_bind; [|done].
      apply no_zero_division_map_res. by intros []. }
    done. }
  intros lrecs _.
  apply no_zero_division_bind; [apply no_zero_division_item|]. done.
Qed.

Lemma cold_start_fresh_catalogue :
  ∃ recs, ColdStart.recommend_cold_start_tests one_test_profile fresh_catalogue 5
            = Ret recs
          ∧ Forall2 (λ rec s, ColdStart.st_score rec == s) recs [3 # 10].
Proof.
  eexists. split; [vm_compute; reflexivity|].
  repeat constructor; by vm_compute.
Qed.

(** *** Well-formed input *)



Lemma map_res_length {A B : Type} (f : A → res B) (l : list A) (l' : list B) :
  ColdStart.map_res f l = Ret l' → length l' = length l.
Proof. intros H%map_res_Forall2. symmetry. by eapply Forall2_length. Qed.







Lemma cold_start_tests_length (user_profile : pyval) (test_candidates : list pyval)
    (limit : Z) (recs : list ColdStart.scored_test) :
  ColdStart.recommend_cold_start_tests user_profile test_candidates limit = Ret recs →
  (0 <= limit)%Z → (length recs <= Z.to_nat limit)%nat.
Proof.
  intros (available & td & scored & _ & _ & ->)%recommend_cold_start_tests_inv Hl.
  rewrite slice_to_length by done. lia.
Qed.

Lemma cold_start_lectures_length (user_profile : pyval) (lecture_candidates : list pyval)
    (limit : Z) (recs : list ColdStart.scored_lecture) :
  ColdStart.recommend_cold_start_lectures user_profile lecture_candidates limit
    = Ret recs →
  (0 <= limit)%Z → (length recs <= Z.to_nat limit)%nat.
Proof.
  intros (started & available & scored & _ & _ & _ & _ & ->)
    %recommend_cold_start_lectures_inv Hl.
  rewrite slice_to_length by done. lia.
Qed.



(** ** [recommend_hybrid] *)

Lemma passes_filter_within_reach (profile test : gmap string pyval) (b : bool) :
  Hybrid.passes_filter profile test = Ret b → within_reach profile test = b.
Proof.
  unfold Hybrid.passes_filter, within_reach, Py.as_num.
  destruct (Py.num_of (Py.dict_get profile _ _)) as [avg|]; [|done]. cbn [bind].
  destruct (Py.num_of (Py.dict_get test _ _)) as [d|]; [|done]. cbn [bind].
  by intros [= <-].
Qed.

Lemma hybrid_score_test_inv (profile : gmap string pyval) (sims : list (pyval * Q))
    (aud : pyval) (m wt wc : Q) (test : gmap string pyval)
    (o : option Hybrid.scored_test) :
  Hybrid.score_test profile sims aud m wt wc test = Ret o →
  match o with
  | None => within_reach profile test = false
  | Some rec =>
      within_reach profile test = true
      ∧ Hybrid.score_candidate (VDict profile) (VDict test) sims aud "test" m wt wc
        = Ret (Hybrid.st_score rec)
      ∧ Hybrid.st_already_taken rec
        = bool_decide (is_Some (Hybrid.own_record_of profile test))
      ∧ Hybrid.st_difficulty rec = Py.dict_get test "difficulty" (VNum 0)
      ∧ Hybrid.st_name rec = Py.dict_get test "name" VNone
      ∧ Hybrid.mark (Hybrid.st_already_taken rec)
          (Py.dict_get test "testId" (VStr "Unknown")) (Hybrid.st_attempts rec)
        = Ret (Hybrid.st_id rec)
      ∧ match Hybrid.own_record_of profile test with
        | Some (a, s) => Hybrid.st_attempts rec = a ∧ Hybrid.st_avg_score rec = s
        | None => Hybrid.st_attempts rec = VNum 0 ∧ Hybrid.st_avg_score rec = VNum 0
        end
  end.
Proof.
  unfold Hybrid.score_test.
  destruct (Hybrid.passes_filter profile test) as [pass|] eqn:Hp; [|done]. cbn [bind].
  apply passes_filter_within_reach in Hp. destruct pass.
  - destruct (Hybrid.score_candidate _ _ _ _ _ _ _ _) as [score|]; [|done]. cbn [bind].
    destruct (Hybrid.mark _ _ _) as [lbl|] eqn:Hm; [|done]. cbn [bind].
    intros [= <-]. cbn.
    repeat split; try done. by destruct (Hybrid.own_record_of profile test) as [[a s]|].
  - by intros [= <-].
Qed.

Lemma scored_tests_loop_inv (profile : gmap string pyval) (sims : list (pyval * Q))
    (aud : pyval) (m wt wc : Q) (cands : list pyval) (scored : list Hybrid.scored_test) :
  Hybrid.scored_tests_loop profile sims aud m wt wc cands = Ret scored →
  Forall2 (λ test rec, Hybrid.score_test profile sims aud m wt wc test = Ret (Some rec))
    (filter (λ t, within_reach profile t) (dicts_of (VList cands))) scored.
Proof.
  unfold dicts_of. cbn [Hybrid.list_or_empty].
  revert scored. induction cands as [|c cands IH]; intros scored.
  - intros [= <-]. constructor.
  - destruct c as [| | | | |test]; cbn [Hybrid.scored_tests_loop omap list_omap]; try apply IH.
    destruct (Hybrid.score_test profile sims aud m wt wc test) as [o|] eqn:Ho; [|done].
    cbn [bind].
    destruct (Hybrid.scored_tests_loop _ _ _ _ _ _ cands) as [rest|]; [|done].
    cbn [bind]. intros [= <-].
    pose proof (hybrid_score_test_inv _ _ _ _ _ _ _ _ Ho) as Hinv.
    destruct o as [rec|].
    + destruct Hinv as [Hr _]. rewrite filter_cons_True by (by rewrite Hr).
      constructor; [done | by apply IH].
    + rewrite filter_cons_False by (rewrite Hinv; intros []). by apply IH.
Qed.

Lemma scored_lectures_loop_inv (profile : gmap string pyval) (sims : list (pyval * Q))
    (aud : pyval) (m wt wc : Q) (cands : list pyval)
    (scored : list Hybrid.scored_lecture) :
  Hybrid.scored_lectures_loop profile sims aud m wt wc cands = Ret scored →
  Forall2 (λ lecture rec, Hybrid.score_lecture profile sims aud m wt wc lecture = Ret rec)
    (dicts_of (VList cands)) scored.
Proof.
  unfold dicts_of. cbn [Hybrid.list_or_empty].
  revert scored. induction cands as [|c cands IH]; intros scored.
  - intros [= <-]. constructor.
  - destruct c as [| | | | |lecture];
      cbn [Hybrid.scored_lectures_loop omap list_omap]; try apply IH.
    destruct (Hybrid.score_lecture profile sims aud m wt wc lecture) as [rec|] eqn:Ho;
      [|done].
    cbn [bind].
    destruct (Hybrid.scored_lectures_loop _ _ _ _ _ _ cands) as [rest|]; [|done].
    cbn [bind]. intros [= <-]. constructor; [done | by apply IH].
Qed.

Lemma explain_test_fields (profile : gmap string pyval) (rec : Hybrid.scored_test)
    (tr : Hybrid.test_recommendation) :
  Hybrid.explain_test profile rec = Ret tr →
  Hybrid.tr_score tr = Hybrid.st_score rec
  ∧ Hybrid.tr_id tr = Hybrid.st_id rec
  ∧ Hybrid.tr_name tr = Hybrid.st_name rec
  ∧ Hybrid.te_difficulty (Hybrid.tr_explanation tr) = Hybrid.st_difficulty rec
  ∧ (Hybrid.st_already_taken rec = false →
     Hybrid.te_history (Hybrid.tr_explanation tr) = None)
  ∧ (Hybrid.st_already_taken rec = true →
     ∃ below, Hybrid.te_history (Hybrid.tr_explanation tr)
              = Some (Hybrid.st_attempts rec, Hybrid.st_avg_score rec, below)).
Proof.
  unfold Hybrid.explain_test.
  destruct (Hybrid.st_already_taken rec).
  - destruct (Py.lt _ _) as [below|]; [|done]. cbn [bind].
    destruct (Py.sub _ _) as [d|]; [|done]. cbn [bind]. intros [= <-]. cbn.
    repeat split; try done. intros _. by eexists.
  - cbn [bind]. destruct (Py.sub _ _) as [d|]; [|done]. cbn [bind]. intros [= <-]. cbn.
    repeat split; done.
Qed.

Lemma explain_lecture_fields (rec : Hybrid.scored_lecture)
    (lr : Hybrid.lecture_recommendation) :
  Hybrid.explain_lecture rec = Ret lr →
  Hybrid.lr_score lr = Hybrid.sl_score rec ∧ Hybrid.lr_id lr = Hybrid.sl_id rec.
Proof.
  unfold Hybrid.explain_lecture.
  destruct (ColdStart.join_topics _) as [s|]; [|done]. cbn [bind]. by intros [= <-].
Qed.

Lemma truthy_dict_with_key (d : gmap string pyval) (k : string) (v : pyval) :
  d !! k = Some v → Py.truthy (VDict d) = true.
Proof.
  intros Hk. cbn. case_bool_decide as Hs; [|done].
  apply map_size_empty_iff in Hs. by rewrite Hs, lookup_empty in Hk.
Qed.

(** What a result of [recommend_hybrid] is made of. *)
Lemma recommend_hybrid_inv (user_profile test_candidates lecture_candidates
    all_users_data : pyval) (limit : Z) (m wt wc : Q) (r : Hybrid.hybrid_result) :
  Hybrid.recommend_hybrid user_profile test_candidates lecture_candidates
    all_users_data limit m wt wc = Ret r →
  ∃ profile uid scored_tests scored_lectures tests lectures,
    user_profile = VDict profile
    ∧ profile !! "userId" = Some uid
    ∧ r = Hybrid.Recommendations uid tests lectures
    ∧ Forall2 (λ test rec,
                 Hybrid.score_test profile (neighbours_of profile all_users_data)
                   (VList (Hybrid.list_or_empty all_users_data)) m wt wc test
                 = Ret (Some rec))
        (filter (λ t, within_reach profile t) (dicts_of test_candidates)) scored_tests
    ∧ Forall2 (λ lecture rec,
                 Hybrid.score_lecture profile (neighbours_of profile all_users_data)
                   (VList (Hybrid.list_or_empty all_users_data)) m wt wc lecture
                 = Ret rec)
        (dicts_of lecture_candidates) scored_lectures
    ∧ Forall2 (λ rec tr, Hybrid.explain_test profile rec = Ret tr)
        (Py.slice_to limit (Py.sort_desc Hybrid.st_score scored_tests)) tests
    ∧ Forall2 (λ rec lr, Hybrid.explain_lecture rec = Ret lr)
        (Py.slice_to limit (Py.sort_desc Hybrid.sl_score scored_lectures)) lectures.
Proof.
  unfold Hybrid.recommend_hybrid.
  destruct user_profile as [| | | | |profile]; try done.
  cbn [Py.item]. destruct (profile !! "userId") as [uid|] eqn:Huid; [|done].
  cbn [bind]. rewrite (truthy_dict_with_key _ _ _ Huid). cbn [negb].
  destruct (Hybrid.scored_tests_loop _ _ _ _ _ _ _) as [st|] eqn:Hst; [|done].
  cbn [bind].
  destruct (Hybrid.scored_lectures_loop _ _ _ _ _ _ _) as [sl|] eqn:Hsl; [|done].
  cbn [bind].
  destruct (ColdStart.map_res (Hybrid.explain_test profile) _) as [tests|] eqn:Ht;
    [|done].
  cbn [bind].
  destruct (ColdStart.map_res Hybrid.explain_lecture _) as [lectures|] eqn:Hl; [|done].
  cbn [bind]. intros [= <-].
  exists profile, uid, st, sl, tests, lectures.
  apply scored_tests_loop_inv in Hst. apply scored_lectures_loop_inv in Hsl.
  apply map_res_Forall2 in Ht. apply map_res_Forall2 in Hl.
  repeat split; done.
Qed.

Lemma Forall2_sorted_by {A B : Type} (ka : A → Q) (kb : B → Q) (R : A → B → Prop)
    (l : list A) (l' : list B) :
  (∀ a b, R a b → kb b = ka a) →
  Forall2 R l l' → StronglySorted (desc ka) l → StronglySorted (desc kb) l'.
Proof.
  intros HR H. induction H as [|a b l l' Hab Hl IH]; intros Hs.
  - constructor.
  - apply StronglySorted_inv in Hs as [Hs Hall]. constructor; [by apply IH|].
    clear IH Hs. induction Hl as [|a' b' l l' Hab' Hl IH'].
    + constructor.
    + apply Forall_cons in Hall as [Ha Hall]. constructor; [|by apply IH'].
      unfold desc in *. by rewrite (HR _ _ Hab), (HR _ _ Hab').
Qed.

(** X22: what [recommend_hybrid] returns is ranked: the result carries
    the profile's [userId], its tests and its lectures are in descending
    order of score and, for a limit that is not negative, there are at
    most [limit] of each. *)
Theorem hybrid_recommendations_ranked (user_profile test_candidates lecture_candidates
    all_users_data : pyval) (limit : Z) (m wt wc : Q) (r : Hybrid.hybrid_result) :
  Hybrid.recommend_hybrid user_profile test_candidates lecture_candidates
    all_users_data limit m wt wc = Ret r →
  ∃ uid tests lectures,
    r = Hybrid.Recommendations uid tests lectures
    ∧ Py.item user_profile "userId" = Ret uid
    ∧ StronglySorted (desc Hybrid.tr_score) tests
    ∧ StronglySorted (desc Hybrid.lr_score) lectures
    ∧ ((0 <= limit)%Z →
       (length tests <= Z.to_nat limit)%nat ∧ (length lectures <= Z.to_nat limit)%nat).
Proof.
  intros (profile & uid & st & sl & tests & lectures & -> & Huid & -> & _ & _ & Ht & Hl)
    %recommend_hybrid_inv.
  exists uid, tests, lectures. split; [done|]. split; [cbn; by rewrite Huid|].
  split; [|split].
  - eapply Forall2_sorted_by; [|exact Ht|].
    + intros rec tr Hrec. by apply explain_test_fields in Hrec as [-> _].
    + apply (slice_to_sorted Hybrid.st_score), sort_desc_sorted.
  - eapply Forall2_sorted_by; [|exact Hl|].
    + intros rec lr Hrec. by apply explain_lecture_fields in Hrec as [-> _].
    + apply (slice_to_sorted Hybrid.sl_score), sort_desc_sorted.
  - intros Hlim.
    rewrite <- (Forall2_length _ _ _ Ht), <- (Forall2_length _ _ _ Hl).
    rewrite !slice_to_length by done. lia.
Qed.

Lemma hybrid_recommendations_ranked_witness :
  ∃ uid tests lectures,
    Hybrid.recommend_hybrid (VDict returning_profile) hybrid_tests hybrid_lectures
      (VList []) 1 Hybrid.TARGET_MARGIN Hybrid.WEIGHT_TOPIC Hybrid.WEIGHT_COLLAB
    = Ret (Hybrid.Recommendations uid tests lectures)
    ∧ (length tests <= 1)%nat.
Proof.
  destruct (hybrid_recommendations_ranked (VDict returning_profile) hybrid_tests
              hybrid_lectures (VList []) 1 Hybrid.TARGET_MARGIN Hybrid.WEIGHT_TOPIC
              Hybrid.WEIGHT_COLLAB _ ltac:(vm_compute; reflexivity))
    as (uid & tests & lectures & Hr & _ & _ & _ & Hlen).
  exists uid, tests, lectures. split; [by rewrite <- Hr; vm_compute|].
  apply Hlen. lia.
Defined.

Lemma hybrid_score_lecture_inv (profile : gmap string pyval) (sims : list (pyval * Q))
    (aud : pyval) (m wt wc : Q) (lecture : gmap string pyval)
    (rec : Hybrid.scored_lecture) :
  Hybrid.score_lecture profile sims aud m wt wc lecture = Ret rec →
  Hybrid.score_candidate (VDict profile) (VDict lecture) sims aud "lecture" m wt wc
  = Ret (Hybrid.sl_score rec).
Proof.
  unfold Hybrid.score_lecture.
  destruct (Hybrid.score_candidate _ _ _ _ _ _ _ _) as [score|]; [|done]. cbn [bind].
  destruct (Hybrid.own_progress_of _ _) as [own|]; [|done]. cbn [bind].
  destruct (Hybrid.mark _ _ _) as [lbl|]; [|done]. cbn [bind]. by intros [= <-].
Qed.

(** Every recommended test comes from a candidate in reach, through the
    two steps of scoring and explaining. *)
Lemma hybrid_tests_from (profile : gmap string pyval) (tc : pyval)
    (scored : list Hybrid.scored_test) (limit : Z)
    (tests : list Hybrid.test_recommendation)
    (score : gmap string pyval → res (option Hybrid.scored_test)) :
  Forall2 (λ test rec, score test = Ret (Some rec))
    (filter (λ t, within_reach profile t) (dicts_of tc)) scored →
  Forall2 (λ rec tr, Hybrid.explain_test profile rec = Ret tr)
    (Py.slice_to limit (Py.sort_desc Hybrid.st_score scored)) tests →
  Forall (λ tr, ∃ test rec,
            test ∈ dicts_of tc ∧ within_reach profile test = true
            ∧ score test = Ret (Some rec)
            ∧ Hybrid.explain_test profile rec = Ret tr) tests.
Proof.
  intros Hscored Htests. apply Forall_forall. intros tr Htr.
  apply list_elem_of_lookup in Htr as [i Hi].
  destruct (Forall2_lookup_r _ _ _ _ _ Htests Hi) as (rec & Hrec & Hexp).
  assert (Hin : rec ∈ scored).
  { rewrite <- (sort_desc_perm Hybrid.st_score scored).
    eapply elem_of_sublist; [|apply slice_to_sublist]. by eapply list_elem_of_lookup_2. }
  apply list_elem_of_lookup in Hin as [j Hj].
  destruct (Forall2_lookup_r _ _ _ _ _ Hscored Hj) as (test & Htest & Hscore).
  apply list_elem_of_lookup_2, list_elem_of_filter in Htest as [Hreach Htest].
  exists test, rec. repeat split; try done. by destruct (within_reach profile test).
Qed.

(** X23: every test [recommend_hybrid] recommends is a dict of the test
    catalogue whose difficulty is at least the user's average total score
    less 20, and is listed with the score [score_candidate] gives it
    against the five nearest neighbours; every lecture it recommends is a
    dict of the lecture catalogue, listed with its [score_candidate]
    score. *)
Theorem hybrid_recommends_tests_in_reach (profile : gmap string pyval)
    (test_candidates lecture_candidates all_users_data : pyval) (limit : Z)
    (m wt wc : Q) (uid : pyval) (tests : list Hybrid.test_recommendation)
    (lectures : list Hybrid.lecture_recommendation) :
  Hybrid.recommend_hybrid (VDict profile) test_candidates lecture_candidates
    all_users_data limit m wt wc = Ret (Hybrid.Recommendations uid tests lectures) →
  Forall (λ tr, ∃ test,
            test ∈ dicts_of test_candidates
            ∧ within_reach profile test = true
            ∧ Hybrid.score_candidate (VDict profile) (VDict test)
                (neighbours_of profile all_users_data)
                (VList (Hybrid.list_or_empty all_users_data)) "test" m wt wc
              = Ret (Hybrid.tr_score tr)
            ∧ Hybrid.tr_name tr = Py.dict_get test "name" VNone) tests
  ∧ Forall (λ lr, ∃ lecture,
              lecture ∈ dicts_of lecture_candidates
              ∧ Hybrid.score_candidate (VDict profile) (VDict lecture)
                  (neighbours_of profile all_users_data)
                  (VList (Hybrid.list_or_empty all_users_data)) "lecture" m wt wc
                = Ret (Hybrid.lr_score lr)) lectures.
Proof.
  intros (p & u & st & sl & ts & ls & [= <-] & _ & [= <- <- <-] & Hst & Hsl & Ht & Hl)
    %recommend_hybrid_inv.
  split.
  - eapply Forall_impl; [by eapply hybrid_tests_from|].
    intros tr (test & rec & Hin & Hreach & Hscore & Hexp). exists test.
    apply hybrid_score_test_inv in Hscore as (_ & Hs & _ & _ & Hn & _).
    apply explain_test_fields in Hexp as (-> & _ & -> & _). done.
  - apply Forall_forall. intros lr Hlr.
    apply list_elem_of_lookup in Hlr as [i Hi].
    destruct (Forall2_lookup_r _ _ _ _ _ Hl Hi) as (rec & Hrec & Hexp).
    assert (Hin : rec ∈ sl).
    { rewrite <- (sort_desc_perm Hybrid.sl_score sl).
      eapply elem_of_sublist; [|apply slice_to_sublist].
      by eapply list_elem_of_lookup_2. }
    apply list_elem_of_lookup in Hin as [j Hj].
    destruct (Forall2_lookup_r _ _ _ _ _ Hsl Hj) as (lecture & Hlecture & Hscore).
    exists lecture. split; [by eapply list_elem_of_lookup_2|].
    apply explain_lecture_fields in Hexp as [-> _].
    by apply hybrid_score_lecture_inv.
Qed.

Lemma hybrid_recommends_tests_in_reach_witness :
  ∃ uid tests lectures,
    Hybrid.recommend_hybrid (VDict returning_profile) hybrid_tests hybrid_lectures
      (VList []) 5 Hybrid.TARGET_MARGIN Hybrid.WEIGHT_TOPIC Hybrid.WEIGHT_COLLAB
    = Ret (Hybrid.Recommendations uid tests lectures)
    ∧ Hybrid.tr_name <$> tests = [VStr "t1"; VStr "t2"]
    ∧ Forall (λ tr, ∃ test, test ∈ dicts_of hybrid_tests
                            ∧ within_reach returning_profile test = true
                            ∧ Hybrid.tr_name tr = Py.dict_get test "name" VNone) tests.
Proof.
  eexists _, _, _. split; [vm_compute; reflexivity|]. split; [reflexivity|].
  eapply Forall_impl.
  - apply (hybrid_recommends_tests_in_reach returning_profile hybrid_tests
             hybrid_lectures (VList []) 5 Hybrid.TARGET_MARGIN Hybrid.WEIGHT_TOPIC
             Hybrid.WEIGHT_COLLAB _ _ _ ltac:(vm_compute; reflexivity)).
  - intros tr (test & Hin & Hreach & _ & Hname). by exists test.
Defined.

(** X24: [recommend_hybrid] leaves no candidate out but by the difficulty
    filter and the limit: for a limit that is not negative it returns as
    many tests as the catalogue has dicts in reach, and as many lectures
    as the catalogue has dicts, up to [limit] of each.  Tests the user has
    taken and lectures the user has started are counted like the
    others. *)
Theorem hybrid_recommendation_counts (profile : gmap string pyval)
    (test_candidates lecture_candidates all_users_data : pyval) (limit : Z)
    (m wt wc : Q) (uid : pyval) (tests : list Hybrid.test_recommendation)
    (lectures : list Hybrid.lecture_recommendation) :
  Hybrid.recommend_hybrid (VDict profile) test_candidates lecture_candidates
    all_users_data limit m wt wc = Ret (Hybrid.Recommendations uid tests lectures) →
  (0 <= limit)%Z →
  length tests
  = Nat.min (Z.to_nat limit)
      (length (filter (λ t, within_reach profile t) (dicts_of test_candidates)))
  ∧ length lectures = Nat.min (Z.to_nat limit) (length (dicts_of lecture_candidates)).
Proof.
  intros (p & u & st & sl & ts & ls & [= <-] & _ & [= <- <- <-] & Hst & Hsl & Ht & Hl)
    %recommend_hybrid_inv Hlim.
  rewrite <- (Forall2_length _ _ _ Ht), <- (Forall2_length _ _ _ Hl).
  rewrite !slice_to_length, !sort_desc_length by done.
  by rewrite (Forall2_length _ _ _ Hst), (Forall2_length _ _ _ Hsl).
Qed.

Lemma hybrid_recommendation_counts_witness :
  ∃ uid tests lectures,
    Hybrid.recommend_hybrid (VDict returning_profile) hybrid_tests hybrid_lectures
      (VList []) 5 Hybrid.TARGET_MARGIN Hybrid.WEIGHT_TOPIC Hybrid.WEIGHT_COLLAB
    = Ret (Hybrid.Recommendations uid tests lectures)
    ∧ length tests = 2%nat ∧ length lectures = 2%nat.
Proof.
  eexists _, _, _. split; [vm_compute; reflexivity|].
  pose proof (hybrid_recommendation_counts returning_profile hybrid_tests
                hybrid_lectures (VList []) 5 Hybrid.TARGET_MARGIN Hybrid.WEIGHT_TOPIC
                Hybrid.WEIGHT_COLLAB _ _ _ ltac:(vm_compute; reflexivity)
                ltac:(lia)) as [Ht Hl].
  split; [rewrite Ht | rewrite Hl]; reflexivity.
Defined.

Lemma own_history_loop_some (test_id : pyval) (history : list pyval) :
  is_Some (Hybrid.own_history_loop test_id history)
  ↔ ∃ record, VDict record ∈ history
              ∧ Py.eq (Py.dict_get record "testId" VNone) test_id = true.
Proof.
  induction history as [|x history IH].
  - split; [by intros [? [=]] | by intros (r & Hr%elem_of_nil & _)].
  - assert (Hskip : (∀ r, x ≠ VDict r) →
                    Hybrid.own_history_loop test_id (x :: history)
                    = Hybrid.own_history_loop test_id history).
    { intros Hx. destruct x; try done. by destruct (Hx d). }
    destruct x as [| | | | |r].
    1-5: rewrite Hskip by done; rewrite IH; split;
         [ intros (r & Hr & He); exists r; split; [by right | done]
         | intros (r & Hr & He); exists r; split; [|done];
           by apply elem_of_cons in Hr as [[=]|Hr] ].
    clear Hskip. cbn [Hybrid.own_history_loop].
    destruct (Py.eq (Py.dict_get r "testId" VNone) test_id) eqn:He.
    + split; [|by eexists]. intros _. exists r. split; [by left | done].
    + rewrite IH. split.
      * intros (r' & Hr & He'). exists r'. split; [by right | done].
      * intros (r' & Hr & He'). exists r'. split; [|done].
        apply elem_of_cons in Hr as [[= ->]|Hr]; [congruence | done].
Qed.

Lemma own_record_taken (profile test : gmap string pyval) :
  is_Some (Hybrid.own_record_of profile test) ↔ taken_before profile test.
Proof.
  unfold Hybrid.own_record_of, taken_before.
  destruct (Py.dict_get profile "testHistory" (VList [])) as [| | | |history|] eqn:Hh;
    try (split; [by intros [? [=]] | by intros (h & r & [=] & _)]).
  destruct (Py.truthy (Py.dict_get test "testId" VNone)) eqn:Ht.
  - rewrite own_history_loop_some. split.
    + intros (r & Hr & He). by exists history, r.
    + intros (h & r & [= <-] & Hr & _ & He). by exists r.
  - split; [by intros [? [=]] | by intros (h & r & _ & _ & [=] & _)].
Qed.

(** The label a candidate with a non-empty id starts from is that id. *)
Lemma truthy_test_id (test : gmap string pyval) (default : pyval) :
  Py.truthy (Py.dict_get test "testId" VNone) = true →
  Py.dict_get test "testId" default = Py.dict_get test "testId" VNone.
Proof. unfold Py.dict_get. by destruct (test !! "testId"). Qed.

(** X25: [recommend_hybrid] marks the tests taken before.  Every
    recommended test comes from a catalogue test in reach, and its label
    carries the note of an earlier attempt exactly when the user's
    history is a list with a record of the test's non-empty id; then, and
    only then, the explanation reports the attempts. *)
Theorem hybrid_marks_taken_tests (profile : gmap string pyval)
    (test_candidates lecture_candidates all_users_data : pyval) (limit : Z)
    (m wt wc : Q) (uid : pyval) (tests : list Hybrid.test_recommendation)
    (lectures : list Hybrid.lecture_recommendation) :
  Hybrid.recommend_hybrid (VDict profile) test_candidates lecture_candidates
    all_users_data limit m wt wc = Ret (Hybrid.Recommendations uid tests lectures) →
  Forall (λ tr, ∃ test,
            test ∈ dicts_of test_candidates
            ∧ Hybrid.tr_name tr = Py.dict_get test "name" VNone
            ∧ (is_marked (Hybrid.tr_id tr) ↔ taken_before profile test)
            ∧ (is_Some (Hybrid.te_history (Hybrid.tr_explanation tr))
               ↔ taken_before profile test)) tests.
Proof.
  intros (p & u & st & sl & ts & ls & [= <-] & _ & [= <- <- <-] & Hst & Hsl & Ht & Hl)
    %recommend_hybrid_inv.
  eapply Forall_impl; [by eapply hybrid_tests_from|].
  intros tr (test & rec & Hin & Hreach & Hscore & Hexp). exists test.
  apply hybrid_score_test_inv in Hscore as (_ & _ & Htaken & _ & Hn & Hmark & _).
  apply explain_test_fields in Hexp as (_ & -> & -> & _ & Hno & Hyes).
  split; [done|]. split; [done|]. rewrite <- own_record_taken.
  destruct (Hybrid.st_already_taken rec) eqn:Hb; symmetry in Htaken.
  - apply bool_decide_eq_true in Htaken. destruct (Hyes eq_refl) as [below ->].
    split; [|done]. split; [done|]. intros _.
    cbn in Hmark. destruct (Py.dict_get test "testId" _); try done;
      by injection Hmark as <-.
  - apply bool_decide_eq_false in Htaken. rewrite (Hno eq_refl).
    injection Hmark as <-. split; (split; [|done]); [done | by intros [? [=]]].
Qed.

Lemma hybrid_marks_taken_tests_witness :
  ∃ uid tests lectures,
    Hybrid.recommend_hybrid (VDict returning_profile) hybrid_tests hybrid_lectures
      (VList []) 5 Hybrid.TARGET_MARGIN Hybrid.WEIGHT_TOPIC Hybrid.WEIGHT_COLLAB
    = Ret (Hybrid.Recommendations uid tests lectures)
    ∧ Hybrid.tr_id <$> tests
      = [Hybrid.Marked (VStr "t1") (VNum 2); Hybrid.Plain (VStr "t2")]
    ∧ Forall (λ tr, ∃ test, is_marked (Hybrid.tr_id tr)
                            ↔ taken_before returning_profile test) tests.
Proof.
  eexists _, _, _. split; [vm_compute; reflexivity|]. split; [reflexivity|].
  eapply Forall_impl.
  - apply (hybrid_marks_taken_tests returning_profile hybrid_tests
             hybrid_lectures (VList []) 5 Hybrid.TARGET_MARGIN Hybrid.WEIGHT_TOPIC
             Hybrid.WEIGHT_COLLAB _ _ _ ltac:(vm_compute; reflexivity)).
  - intros tr (test & _ & _ & Hmarked & _). by exists test.
Defined.

(** X26: a test the user has taken breaks the request when its id is
    neither a string nor a list, a number for one.  If the catalogue has
    a test in reach that the user's history records, and the id cannot
    take the note appended to the label, [recommend_hybrid] raises
    whatever else the catalogues hold. *)
Theorem hybrid_fails_on_taken_test_with_numeric_id (profile test : gmap string pyval)
    (test_candidates lecture_candidates all_users_data : pyval) (limit : Z)
    (m wt wc : Q) :
  test ∈ dicts_of test_candidates →
  within_reach profile test = true →
  taken_before profile test →
  appendable (Py.dict_get test "testId" VNone) = false →
  ∃ e, Hybrid.recommend_hybrid (VDict profile) test_candidates lecture_candidates
         all_users_data limit m wt wc = Raise e.
Proof.
  intros Hin Hreach Htaken Happ.
  destruct (Hybrid.recommend_hybrid _ _ _ _ _ _ _ _) as [r|e] eqn:Hr; [|by exists e].
  exfalso.
  apply recommend_hybrid_inv in Hr
    as (p & u & st & sl & ts & ls & [= <-] & _ & _ & Hst & _).
  assert (Hf : test ∈ filter (λ t, within_reach profile t) (dicts_of test_candidates)).
  { apply list_elem_of_filter. split; [by rewrite Hreach | done]. }
  apply list_elem_of_lookup in Hf as [i Hi].
  destruct (Forall2_lookup_l _ _ _ _ _ Hst Hi) as (rec & _ & Hscore).
  apply hybrid_score_test_inv in Hscore as (_ & _ & Hb & _ & _ & Hmark & _).
  pose proof Htaken as (h & rcd & _ & _ & Htruthy & _).
  apply own_record_taken in Htaken. rewrite bool_decide_eq_true_2 in Hb by done.
  rewrite Hb, (truthy_test_id _ _ Htruthy) in Hmark. cbn in Hmark.
  by destruct (Py.dict_get test "testId" VNone).
Qed.

Lemma hybrid_fails_on_taken_test_with_numeric_id_witness :
  ∃ e, Hybrid.recommend_hybrid (VDict numeric_id_profile)
         (VList [VDict (grammar_test "t2" 700);
                 VDict (<["testId" := VNum 7]> (grammar_test "t7" 640))])
         hybrid_lectures (VList []) 5 Hybrid.TARGET_MARGIN Hybrid.WEIGHT_TOPIC
         Hybrid.WEIGHT_COLLAB = Raise e.
Proof.
  apply (hybrid_fails_on_taken_test_with_numeric_id numeric_id_profile
           (<["testId" := VNum 7]> (grammar_test "t7" 640))).
  - apply list_elem_of_lookup. by exists 1%nat.
  - by vm_compute.
  - eexists _, _. split; [by vm_compute|]. split; [by left|]. by vm_compute.
  - reflexivity.
Defined.

(** X27: [recommend_hybrid] never returns the empty result of its guard
    against an invalid profile: the log line before it reads the
    profile's [userId], so that a profile that is not a dict raises a
    [TypeError] and a dict without a [userId], the empty one included,
    a [KeyError]. *)
Theorem hybrid_guard_unreachable (user_profile test_candidates lecture_candidates
    all_users_data : pyval) (limit : Z) (m wt wc : Q) :
  Hybrid.recommend_hybrid user_profile test_candidates lecture_candidates
    all_users_data limit m wt wc ≠ Ret Hybrid.NoRecommendations
  ∧ match user_profile with
    | VDict profile =>
        profile !! "userId" = None →
        Hybrid.recommend_hybrid user_profile test_candidates lecture_candidates
          all_users_data limit m wt wc = Raise KeyError
    | _ =>
        Hybrid.recommend_hybrid user_profile test_candidates lecture_candidates
          all_users_data limit m wt wc = Raise TypeError
    end.
Proof.
  split.
  - intros H. by apply recommend_hybrid_inv in H as (? & ? & ? & ? & ? & ? & _ & _ & ? & _).
  - destruct user_profile as [| | | | |profile]; try done.
    intros Hno. unfold Hybrid.recommend_hybrid. cbn [Py.item]. by rewrite Hno.
Qed.

(** ** The data fetcher and the endpoint *)

Lemma profile_endpoint (base user_id : string) :
  base +:+ DataFetcher.internal_endpoint ("/users/" +:+ user_id +:+ "/profile")
  = profile_url base user_id.
Proof. reflexivity. Qed.

Lemma make_request_cases (base : string) (key : option string)
    (backend : string → string → exchange) (endpoint method : string) :
  match DataFetcher._make_internal_api_request base key backend endpoint method with
  | Got v =>
      ∃ status,
        backend method (base +:+ DataFetcher.internal_endpoint endpoint)
        = Response status (Got v)
        ∧ (status < 400)%Z ∧ is_Some key
  | Threw r =>
      r = HTTPException 500 ∨ r = HTTPException 503 ∨ (key = None ∧ r = Error TypeError)
  end.
Proof.
  unfold DataFetcher._make_internal_api_request, DataFetcher.request.
  destruct key as [k|]; [|by right; right].
  destruct (backend method _) as [status body|r].
  - destruct (Z.leb_spec 400 status).
    + destruct body as [v|[]]; cbn; auto.
    + destruct body as [v|[]]; cbn; auto. exists status. by repeat split.
  - destruct r; auto.
Qed.

(** X28: [get_user_profile] returns a profile only from a response with a
    status below 400: its body when that is a dict, else the default
    profile.  Every failure leaves the fetcher as an [HTTPException] with
    status 500 or 503 (or as the [TypeError] of an API key that is not
    set): the exception raised for an error status is taken by the
    function's own handler for [Exception] and raised again with status
    500, so that the default profile for a 404 is never reached. *)
Theorem user_profile_only_from_success (base : string) (key : option string)
    (backend : string → string → exchange) (user_id : string) :
  match DataFetcher.get_user_profile base key backend user_id with
  | Got p =>
      ∃ status v,
        backend "GET"%string (profile_url base user_id) = Response status (Got v)
        ∧ (status < 400)%Z
        ∧ is_Some key
        ∧ p = match v with
              | VDict _ => v
              | _ => DataFetcher.default_profile user_id
              end
  | Threw r =>
      r = HTTPException 500 ∨ r = HTTPException 503 ∨ (key = None ∧ r = Error TypeError)
  end.
Proof.
  unfold DataFetcher.get_user_profile.
  pose proof (make_request_cases base key backend
                ("/users/" +:+ user_id +:+ "/profile") "GET") as H.
  rewrite profile_endpoint in H.
  destruct (DataFetcher._make_internal_api_request _ _ _ _ _) as [v|r].
  - destruct H as (status & Hb & Hs & Hk).
    destruct v; exists status; eexists; repeat split; done.
  - destruct H as [->|[->|[-> ->]]]; cbn; auto.
Qed.

Lemma get_user_profile_dict (base : string) (key : option string)
    (backend : string → string → exchange) (user_id : string) (p : pyval) :
  DataFetcher.get_user_profile base key backend user_id = Got p → ∃ d, p = VDict d.
Proof.
  unfold DataFetcher.get_user_profile.
  destruct (DataFetcher._make_internal_api_request _ _ _ _ _) as [v|r].
  - destruct v; intros [= <-]; by eexists.
  - destruct r as [status| | |]; try done.
    destruct (status =? 404)%Z; [|done]. intros [= <-]. by eexists.
Qed.

(** X29: a response without a profile under [data] gets no
    recommendations.  When what [get_user_profile] returns has no [data],
    or a [data] that is no dict or has no [userId], [get_recommendations]
    answers with status 500, since both paths start by reading the
    [userId] of the profile.  The default profile of [get_user_profile],
    which has its [userId] at the top and no [data], is such a
    response. *)
Theorem no_recommendations_without_user_data (base : string) (key : option string)
    (backend : string → string → exchange) (wt wc margin : Q) (user_id : string)
    (limit : Z) (response : pyval) :
  DataFetcher.get_user_profile base key backend user_id = Got response →
  no_user_data response →
  Main.get_recommendations base key backend wt wc margin user_id limit
  = Threw (HTTPException 500).
Proof.
  intros Hresp Hno. unfold Main.get_recommendations. rewrite Hresp.
  cbn [fetched_bind].
  destruct (get_user_profile_dict _ _ _ _ _ Hresp) as [r ->].
  cbn [Py.get lift fetched_bind]. cbn [no_user_data] in Hno.
  unfold Main.generate_cold_start_recommendations_io, Main.recommend_hybrid_io.
  destruct (Py.dict_get r "data" (VDict ∅)) as [| | | | |d]; try done.
  cbn [Py.item]. rewrite Hno. cbn [lift fetched_bind].
  by destruct (CoreRecommend.is_cold_start_user _).
Qed.

Lemma no_recommendations_without_user_data_witness :
  DataFetcher.get_user_profile "http://backend" (Some "k"%string) list_backend "u1"
  = Got (DataFetcher.default_profile "u1")
  ∧ Main.get_recommendations "http://backend" (Some "k"%string) list_backend
      Hybrid.WEIGHT_TOPIC Hybrid.WEIGHT_COLLAB Hybrid.TARGET_MARGIN "u1" 5
    = Threw (HTTPException 500).
Proof.
  split; [reflexivity|].
  apply (no_recommendations_without_user_data _ _ _ _ _ _ _ _
           (DataFetcher.default_profile "u1")); [reflexivity|].
  by vm_compute.
Defined.

Lemma generate_cold_start_inv (user_profile : pyval)
    (test_candidates lecture_candidates : list pyval) (limit : Z)
    (r : ColdStart.recommendations) :
  ColdStart.generate_cold_start_recommendations user_profile test_candidates
    lecture_candidates limit = Ret r →
  Py.item user_profile "userId" = Ret (ColdStart.userId r)
  ∧ ((0 <= limit)%Z →
     (length (ColdStart.recommendedTests r) <= Z.to_nat limit)%nat
     ∧ (length (ColdStart.recommendedLectures r) <= Z.to_nat limit)%nat).
Proof.
  unfold ColdStart.generate_cold_start_recommendations.
  destruct (Py.item user_profile "userId") as [uid|]; [|done]. cbn [bind].
  destruct (ColdStart.recommend_cold_start_tests _ _ _) as [tests|] eqn:Ht; [|done].
  cbn [bind].
  destruct (ColdStart.recommend_cold_start_lectures _ _ _) as [lectures|] eqn:Hl;
    [|done].
  cbn [bind].
  destruct (ColdStart.map_res _ tests) as [trecs|] eqn:Htr; [|done]. cbn [bind].
  destruct (ColdStart.map_res _ lectures) as [lrecs|] eqn:Hlr; [|done]. cbn [bind].
  intros [= <-]. split; [done|]. intros Hlim. cbn.
  rewrite (map_res_length _ _ _ Htr), (map_res_length _ _ _ Hlr). split.
  - by apply (cold_start_tests_length _ _ _ _ Ht).
  - by apply (cold_start_lectures_length _ _ _ _ Hl).
Qed.

Lemma lift_got {A : Type} (r : res A) (a : A) : lift r = Got a → r = Ret a.
Proof. destruct r; [by intros [= ->] | done]. Qed.

Lemma fetched_bind_got {A B : Type} (m : fetched A) (k : A → fetched B) (b : B) :
  fetched_bind m k = Got b → ∃ a, m = Got a ∧ k a = Got b.
Proof. destruct m as [a|]; [|done]. intros H. by exists a. Qed.

(** X30: what a successful answer of [get_recommendations] looks like.
    The profile response was a dict with a dict under [data] that has a
    [userId]; the answer carries that [userId] (not the id of the
    request), comes from the cold-start path exactly when
    [is_cold_start_user] holds of the profile, and, for a limit that is
    not negative, lists at most [limit] tests and [limit] lectures. *)
Theorem recommendations_answer_shape (base : string) (key : option string)
    (backend : string → string → exchange) (wt wc margin : Q) (user_id : string)
    (limit : Z) (a : Main.answer) :
  Main.get_recommendations base key backend wt wc margin user_id limit = Got a →
  ∃ response data uid,
    DataFetcher.get_user_profile base key backend user_id = Got (VDict response)
    ∧ response !! "data" = Some (VDict data)
    ∧ data !! "userId" = Some uid
    ∧ answer_user a = Some uid
    ∧ is_cold a = CoreRecommend.is_cold_start_user (VDict data)
    ∧ ((0 <= limit)%Z →
       (answer_tests a <= Z.to_nat limit)%nat
       ∧ (answer_lectures a <= Z.to_nat limit)%nat).
Proof.
  unfold Main.get_recommendations.
  destruct (fetched_bind _ _) as [a'|] eqn:Hbody; [|done]. intros [= ->].
  apply fetched_bind_got in Hbody as (resp & Hresp & Hbody).
  destruct (get_user_profile_dict _ _ _ _ _ Hresp) as [r ->].
  apply fetched_bind_got in Hbody as (up & Hup%lift_got & Hbody).
  cbn [Py.get] in Hup. injection Hup as <-.
  assert (Hdata : ∀ d, Py.dict_get r "data" (VDict ∅) = VDict d →
                       is_Some (d !! "userId") → r !! "data" = Some (VDict d)).
  { unfold Py.dict_get. intros d. destruct (r !! "data"); [by intros ->|].
    intros [= <-]. rewrite lookup_empty. by intros [? [=]]. }
  destruct (CoreRecommend.is_cold_start_user _) eqn:Hcold.
  - apply fetched_bind_got in Hbody as (res & Hres & [= <-]).
    unfold Main.generate_cold_start_recommendations_io in Hres.
    apply fetched_bind_got in Hres as (u0 & Hu0%lift_got & Hres).
    apply fetched_bind_got in Hres as (tests & _ & Hres).
    apply fetched_bind_got in Hres as (lectures & _ & Hres%lift_got).
    apply generate_cold_start_inv in Hres as [Huid Hlen].
    destruct (Py.dict_get r "data" (VDict ∅)) as [| | | | |d] eqn:Hd; try done.
    cbn [Py.item] in Huid. destruct (d !! "userId") as [uid|] eqn:Hk; [|done].
    injection Huid as Huid.
    exists r, d, uid. rewrite Hcold. repeat split; try done.
    + apply Hdata; [done | by rewrite Hk].
    + cbn. by rewrite Huid.
    + by apply Hlen.
    + by apply Hlen.
  - apply fetched_bind_got in Hbody as (res & Hres & [= <-]).
    unfold Main.recommend_hybrid_io in Hres.
    apply fetched_bind_got in Hres as (u0 & Hu0%lift_got & Hres).
    apply fetched_bind_got in Hres as (tests & _ & Hres).
    apply fetched_bind_got in Hres as (lectures & _ & Hres).
    apply fetched_bind_got in Hres as (users & _ & Hres%lift_got).
    apply recommend_hybrid_inv in Hres
      as (d & uid & st & sl & ts & ls & Hd & Hk & -> & _ & _ & Ht & Hl).
    exists r, d, uid. rewrite Hd in Hcold. rewrite Hcold.
    repeat split; try done.
    + apply Hdata; [done | by rewrite Hk].
    + cbn. rewrite <- (Forall2_length _ _ _ Ht), slice_to_length by done. lia.
    + cbn. rewrite <- (Forall2_length _ _ _ Hl), slice_to_length by done. lia.
Qed.

Lemma recommendations_answer_shape_witness :
  ∃ a, Main.get_recommendations "http://backend" (Some "k"%string) sample_backend
         Hybrid.WEIGHT_TOPIC Hybrid.WEIGHT_COLLAB Hybrid.TARGET_MARGIN "u1" 1 = Got a
       ∧ answer_user a = Some (VStr "u1")
       ∧ (answer_tests a <= 1)%nat.
Proof.
  eexists. split; [vm_compute; reflexivity|]. split; [reflexivity|].
  destruct (recommendations_answer_shape "http://backend" (Some "k"%string)
              sample_backend Hybrid.WEIGHT_TOPIC Hybrid.WEIGHT_COLLAB
              Hybrid.TARGET_MARGIN "u1" 1 _ ltac:(vm_compute; reflexivity))
    as (response & data & uid & _ & _ & _ & _ & _ & Hlen).
  apply Hlen. lia.
Defined.
